(** * RMG-MPN-Server: lobby, room supervisor and input relay

    A shallow embedding of the netplay server.  The Go packages
    [gameserver] (room state, [ManagePlayers], [ChangeBuffer],
    [uintLarger]) and [lobbyserver] (the WebSocket request handler) and the
    C++ relay of [server.cpp] each get a module of the same name.  The
    earlier revision of the relay is the module [cppserver_first], and the
    start of the program the module [main].

    Conventions.
    - Go [int], [uint32] and [byte] values are [Z]; every conversion and
      every operation that wraps in the source is written out
      ([uint32]).
    - A Go [map] is a [gmap].  The order in which [range] walks a map is
      not specified by Go, so every [range] loop goes through an
      enumeration [range_map] that is only known to be a permutation of
      the entries.
    - A slice is a [list]; an index out of range panics in Go and is
      [None] here.
    - Pointers to connections and listeners are compared by identity in
      the source; they are natural-number handles here.
    - Sends, webhook posts, listener closes, sleeps and goroutine starts
      are collected as a list of events in program order.  Mutexes are
      not modelled: every function below is taken as one atomic step.
    - A panic on an index out of range is [None].  The panic of
      [publishDiscord] on a nil request is the last event of the
      handler, which keeps the state the panic leaves. *)

From Stdlib Require Import ZArith Lia List Bool String Ascii.
From stdpp Require Import base option gmap strings list fin_maps.
Import ListNotations.

Local Open Scope Z_scope.

(** ** Fixed-width integers *)

Definition uint32 (z : Z) : Z := z mod 2 ^ 32.

Definition is_uint32 (z : Z) : Prop := 0 <= z < 2 ^ 32.

(** Checked slice access: [s[i]] and [s[i] = x]. *)
Definition index {A} (s : list A) (i : Z) : option A :=
  if (0 <=? i) then s !! Z.to_nat i else None.

Definition store {A} (s : list A) (i : Z) (x : A) : option (list A) :=
  if (0 <=? i) && (i <? Z.of_nat (length s)) then Some (<[Z.to_nat i := x]> s)
  else None.

Lemma index_Some {A} (s : list A) i :
  0 <= i < Z.of_nat (length s) -> exists x, index s i = Some x.
Proof.
  intros [H0 H1]. unfold index.
  destruct (Z.leb_spec 0 i); [|lia].
  apply lookup_lt_is_Some_2. lia.
Qed.

Lemma store_Some {A} (s : list A) i x :
  0 <= i < Z.of_nat (length s) -> store s i x = Some (<[Z.to_nat i := x]> s).
Proof.
  intros [H0 H1]. unfold store.
  destruct (Z.leb_spec 0 i); [|lia].
  destruct (Z.ltb_spec i (Z.of_nat (length s))); [done|lia].
Qed.

(** ** Package gameserver *)

Module gameserver.

(** *** Constants *)

Definition KeyInfoClient : Z := 0.
Definition KeyInfoServer : Z := 1.
Definition PlayerInputRequest : Z := 2.
Definition KeyInfoServerGratuitous : Z := 3.
Definition CP0Info : Z := 4.
Definition StatusDesync : Z := 1.
Definition DisconnectTimeoutS : Z := 30.
Definition NoRegID : Z := 255.
Definition InputDataMax : Z := 5000.
Definition CS4 : Z := 32.

Definition MaxUint32 : Z := 4294967295.

(** [func uintLarger(v uint32, w uint32) bool]: the subtraction is done in
    [uint32]; [math.MaxUint32 / 2] is a constant integer division. *)
Definition uintLarger (v w : Z) : bool :=
  uint32 (w - v) >? MaxUint32 / 2.

(** The wrap-around order the spec words as "v is older than w". *)
Definition older (v w : Z) : bool := negb (uintLarger v w).

(** *** Data *)

(** [*websocket.Conn], [*net.TCPListener], [*net.UDPConn], [*net.UDPAddr]:
    handles; [None] is the nil pointer. *)
Definition Conn := nat.
Definition Listener := nat.
Definition UDPAddr := nat.

Record GameData := mkGameData {
  SyncValues : gmap Z (list Z);
  PlayerAddresses : list (option UDPAddr);
  BufferSize : list Z;
  BufferHealth : list Z;
  Inputs : list (gmap Z Z);
  Plugin : list (gmap Z Z);
  PendingInput : list Z;
  CountLag : list Z;
  PendingPlugin : list Z;
  PlayerAlive : list bool;
  LeadCount : Z;
  Status : Z
}.

Record Client := mkClient {
  Socket : Conn;
  IP : string;
  Number : Z
}.

(** The field [Plugin] of the source is [RegPlugin] here: [GameData] has a
    field of that name in the same package. *)
Record Registration := mkRegistration {
  RegID : Z;
  RegPlugin : Z;
  Raw : Z
}.

(** The struct of the first variant of server.go, which has every field
    of the two others ([LastActivity] and [LastPacketReceived] are missing
    from the third, [CreationTime] from the second and third).  [Logger]
    and the three mutexes are left out.  Times are nanoseconds. *)
Record GameServer := mkGameServer {
  StartTime : Z;
  Players : gmap string Client;
  TCPListener : option Listener;
  UDPListener : option Listener;
  Registrations : gmap Z Registration;
  TCPFiles : gmap string (list Z);
  CustomData : gmap Z (list Z);
  GameName : string;
  Password : string;
  ClientSha : string;
  MD5 : string;
  Emulator : string;
  TCPSettings : list Z;
  gameData : GameData;
  Port : Z;
  HasSettings : bool;
  Running : bool;
  Features : gmap string string;
  PlayerName : string;
  Buffer : Z;
  LastActivity : Z;
  LastPacketReceived : Z;
  CreationTime : Z
}.

(** [GameServer{}] *)
Definition zeroGameData : GameData :=
  mkGameData ∅ [] [] [] [] [] [] [] [] [] 0 0.

Definition zeroGameServer : GameServer :=
  mkGameServer 0 ∅ None None ∅ ∅ ∅ "" "" "" "" "" [] zeroGameData 0 false false
               ∅ "" 0 0 0 0.

(** Field assignments. *)
Definition set_StartTime (x : Z) (g : GameServer) : GameServer :=
  let '(mkGameServer _ a2 a3 a4 a5 a6 a7 a8 a9 a10 a11 a12 a13 a14 a15 a16 a17 a18 a19 a20 a21 a22 a23) := g in
  mkGameServer x a2 a3 a4 a5 a6 a7 a8 a9 a10 a11 a12 a13 a14 a15 a16 a17 a18 a19 a20 a21 a22 a23.

Definition set_Players (x : gmap string Client) (g : GameServer) : GameServer :=
  let '(mkGameServer a1 _ a3 a4 a5 a6 a7 a8 a9 a10 a11 a12 a13 a14 a15 a16 a17 a18 a19 a20 a21 a22 a23) := g in
  mkGameServer a1 x a3 a4 a5 a6 a7 a8 a9 a10 a11 a12 a13 a14 a15 a16 a17 a18 a19 a20 a21 a22 a23.

Definition set_TCPListener (x : option Listener) (g : GameServer) : GameServer :=
  let '(mkGameServer a1 a2 _ a4 a5 a6 a7 a8 a9 a10 a11 a12 a13 a14 a15 a16 a17 a18 a19 a20 a21 a22 a23) := g in
  mkGameServer a1 a2 x a4 a5 a6 a7 a8 a9 a10 a11 a12 a13 a14 a15 a16 a17 a18 a19 a20 a21 a22 a23.

Definition set_UDPListener (x : option Listener) (g : GameServer) : GameServer :=
  let '(mkGameServer a1 a2 a3 _ a5 a6 a7 a8 a9 a10 a11 a12 a13 a14 a15 a16 a17 a18 a19 a20 a21 a22 a23) := g in
  mkGameServer a1 a2 a3 x a5 a6 a7 a8 a9 a10 a11 a12 a13 a14 a15 a16 a17 a18 a19 a20 a21 a22 a23.

Definition set_Registrations (x : gmap Z Registration) (g : GameServer) : GameServer :=
  let '(mkGameServer a1 a2 a3 a4 _ a6 a7 a8 a9 a10 a11 a12 a13 a14 a15 a16 a17 a18 a19 a20 a21 a22 a23) := g in
  mkGameServer a1 a2 a3 a4 x a6 a7 a8 a9 a10 a11 a12 a13 a14 a15 a16 a17 a18 a19 a20 a21 a22 a23.

Definition set_GameName (x : string) (g : GameServer) : GameServer :=
  let '(mkGameServer a1 a2 a3 a4 a5 a6 a7 _ a9 a10 a11 a12 a13 a14 a15 a16 a17 a18 a19 a20 a21 a22 a23) := g in
  mkGameServer a1 a2 a3 a4 a5 a6 a7 x a9 a10 a11 a12 a13 a14 a15 a16 a17 a18 a19 a20 a21 a22 a23.

Definition set_Password (x : string) (g : GameServer) : GameServer :=
  let '(mkGameServer a1 a2 a3 a4 a5 a6 a7 a8 _ a10 a11 a12 a13 a14 a15 a16 a17 a18 a19 a20 a21 a22 a23) := g in
  mkGameServer a1 a2 a3 a4 a5 a6 a7 a8 x a10 a11 a12 a13 a14 a15 a16 a17 a18 a19 a20 a21 a22 a23.

Definition set_ClientSha (x : string) (g : GameServer) : GameServer :=
  let '(mkGameServer a1 a2 a3 a4 a5 a6 a7 a8 a9 _ a11 a12 a13 a14 a15 a16 a17 a18 a19 a20 a21 a22 a23) := g in
  mkGameServer a1 a2 a3 a4 a5 a6 a7 a8 a9 x a11 a12 a13 a14 a15 a16 a17 a18 a19 a20 a21 a22 a23.

Definition set_MD5 (x : string) (g : GameServer) : GameServer :=
  let '(mkGameServer a1 a2 a3 a4 a5 a6 a7 a8 a9 a10 _ a12 a13 a14 a15 a16 a17 a18 a19 a20 a21 a22 a23) := g in
  mkGameServer a1 a2 a3 a4 a5 a6 a7 a8 a9 a10 x a12 a13 a14 a15 a16 a17 a18 a19 a20 a21 a22 a23.

Definition set_Emulator (x : string) (g : GameServer) : GameServer :=
  let '(mkGameServer a1 a2 a3 a4 a5 a6 a7 a8 a9 a10 a11 _ a13 a14 a15 a16 a17 a18 a19 a20 a21 a22 a23) := g in
  mkGameServer a1 a2 a3 a4 a5 a6 a7 a8 a9 a10 a11 x a13 a14 a15 a16 a17 a18 a19 a20 a21 a22 a23.

Definition set_gameData (x : GameData) (g : GameServer) : GameServer :=
  let '(mkGameServer a1 a2 a3 a4 a5 a6 a7 a8 a9 a10 a11 a12 a13 _ a15 a16 a17 a18 a19 a20 a21 a22 a23) := g in
  mkGameServer a1 a2 a3 a4 a5 a6 a7 a8 a9 a10 a11 a12 a13 x a15 a16 a17 a18 a19 a20 a21 a22 a23.

Definition set_Port (x : Z) (g : GameServer) : GameServer :=
  let '(mkGameServer a1 a2 a3 a4 a5 a6 a7 a8 a9 a10 a11 a12 a13 a14 _ a16 a17 a18 a19 a20 a21 a22 a23) := g in
  mkGameServer a1 a2 a3 a4 a5 a6 a7 a8 a9 a10 a11 a12 a13 a14 x a16 a17 a18 a19 a20 a21 a22 a23.

Definition set_Running (x : bool) (g : GameServer) : GameServer :=
  let '(mkGameServer a1 a2 a3 a4 a5 a6 a7 a8 a9 a10 a11 a12 a13 a14 a15 a16 _ a18 a19 a20 a21 a22 a23) := g in
  mkGameServer a1 a2 a3 a4 a5 a6 a7 a8 a9 a10 a11 a12 a13 a14 a15 a16 x a18 a19 a20 a21 a22 a23.

Definition set_Features (x : gmap string string) (g : GameServer) : GameServer :=
  let '(mkGameServer a1 a2 a3 a4 a5 a6 a7 a8 a9 a10 a11 a12 a13 a14 a15 a16 a17 _ a19 a20 a21 a22 a23) := g in
  mkGameServer a1 a2 a3 a4 a5 a6 a7 a8 a9 a10 a11 a12 a13 a14 a15 a16 a17 x a19 a20 a21 a22 a23.

Definition set_PlayerName (x : string) (g : GameServer) : GameServer :=
  let '(mkGameServer a1 a2 a3 a4 a5 a6 a7 a8 a9 a10 a11 a12 a13 a14 a15 a16 a17 a18 _ a20 a21 a22 a23) := g in
  mkGameServer a1 a2 a3 a4 a5 a6 a7 a8 a9 a10 a11 a12 a13 a14 a15 a16 a17 a18 x a20 a21 a22 a23.

Definition set_Buffer (x : Z) (g : GameServer) : GameServer :=
  let '(mkGameServer a1 a2 a3 a4 a5 a6 a7 a8 a9 a10 a11 a12 a13 a14 a15 a16 a17 a18 a19 _ a21 a22 a23) := g in
  mkGameServer a1 a2 a3 a4 a5 a6 a7 a8 a9 a10 a11 a12 a13 a14 a15 a16 a17 a18 a19 x a21 a22 a23.

Definition set_LastActivity (x : Z) (g : GameServer) : GameServer :=
  let '(mkGameServer a1 a2 a3 a4 a5 a6 a7 a8 a9 a10 a11 a12 a13 a14 a15 a16 a17 a18 a19 a20 _ a22 a23) := g in
  mkGameServer a1 a2 a3 a4 a5 a6 a7 a8 a9 a10 a11 a12 a13 a14 a15 a16 a17 a18 a19 a20 x a22 a23.

Definition set_LastPacketReceived (x : Z) (g : GameServer) : GameServer :=
  let '(mkGameServer a1 a2 a3 a4 a5 a6 a7 a8 a9 a10 a11 a12 a13 a14 a15 a16 a17 a18 a19 a20 a21 _ a23) := g in
  mkGameServer a1 a2 a3 a4 a5 a6 a7 a8 a9 a10 a11 a12 a13 a14 a15 a16 a17 a18 a19 a20 a21 x a23.

Definition set_BufferSize (x : list Z) (d : GameData) : GameData :=
  let '(mkGameData b1 b2 _ b4 b5 b6 b7 b8 b9 b10 b11 b12) := d in
  mkGameData b1 b2 x b4 b5 b6 b7 b8 b9 b10 b11 b12.

Definition set_BufferHealth (x : list Z) (d : GameData) : GameData :=
  let '(mkGameData b1 b2 b3 _ b5 b6 b7 b8 b9 b10 b11 b12) := d in
  mkGameData b1 b2 b3 x b5 b6 b7 b8 b9 b10 b11 b12.

Definition set_PlayerAlive (x : list bool) (d : GameData) : GameData :=
  let '(mkGameData b1 b2 b3 b4 b5 b6 b7 b8 b9 _ b11 b12) := d in
  mkGameData b1 b2 b3 b4 b5 b6 b7 b8 b9 x b11 b12.

Definition set_LeadCount (x : Z) (d : GameData) : GameData :=
  let '(mkGameData b1 b2 b3 b4 b5 b6 b7 b8 b9 b10 _ b12) := d in
  mkGameData b1 b2 b3 b4 b5 b6 b7 b8 b9 b10 x b12.

Definition set_Status (x : Z) (d : GameData) : GameData :=
  let '(mkGameData b1 b2 b3 b4 b5 b6 b7 b8 b9 b10 b11 _) := d in
  mkGameData b1 b2 b3 b4 b5 b6 b7 b8 b9 b10 b11 x.

(** *** Effects *)

Inductive Event :=
| EvCloseUDP (l : Listener)
| EvCloseTCP (l : Listener)
| EvSleep (seconds : Z).

(** *** CloseServers (first variant: nil-checked)

    The log lines depend on the error [Close] returns and change no
    state; they are left out. *)
Definition CloseServers (g : GameServer) : GameServer * list Event :=
  let '(g, e1) :=
    match UDPListener g with
    | Some l => (set_UDPListener None g, [EvCloseUDP l])
    | None => (g, [])
    end in
  let '(g, e2) :=
    match TCPListener g with
    | Some l => (set_TCPListener None g, [EvCloseTCP l])
    | None => (g, [])
    end in
  (set_Running false g, e1 ++ e2).

(** *** ManagePlayers (first variant)

    One turn of the inner [for i = 0; i < 4; i++] loop.  The [Logger.Info]
    calls read [BufferSize[i]], [BufferHealth[i]], [CountLag[i]] and
    [PlayerAddresses[i]]; the reads are kept because they panic on a
    short slice.  [Status] is a [byte]: the shifted constant and the
    result of [|=] are reduced modulo 256. *)
Definition byte (z : Z) : Z := z mod 256.

Definition sweepSlot (i : Z) (st : GameServer * bool) : option (GameServer * bool) :=
  let '(g, playersActive) := st in
  let d := gameData g in
  st' ← match Registrations g !! i with
        | Some _ =>
            alive ← index (PlayerAlive d) i;
            if alive : bool then
              _ ← index (BufferSize d) i;
              _ ← index (BufferHealth d) i;
              _ ← index (CountLag d) i;
              _ ← index (PlayerAddresses d) i;
              Some (g, true)
            else
              _ ← index (PlayerAddresses d) i;
              let status := byte (Z.lor (Status d) (byte (Z.shiftl 1 (byte (i + 1))))) in
              let g := set_gameData (set_Status status d) g in
              Some (set_Registrations (delete i (Registrations g)) g, playersActive)
        | None => Some (g, playersActive)
        end;
  let '(g, playersActive) := st' in
  alive' ← store (PlayerAlive (gameData g)) i false;
  Some (set_gameData (set_PlayerAlive alive' (gameData g)) g, playersActive).

Fixpoint forSlots (body : Z -> GameServer * bool -> option (GameServer * bool))
    (slots : list Z) (st : GameServer * bool) : option (GameServer * bool) :=
  match slots with
  | [] => Some st
  | i :: rest => st' ← body i st; forSlots body rest st'
  end.

(** One pass through the body of the outer [for { }]: the sweep, then
    either close and return ([false]) or sleep and go round again
    ([true]). *)
Definition ManagePlayers_iteration (g : GameServer)
    : option (GameServer * list Event * bool) :=
  st ← forSlots sweepSlot [0; 1; 2; 3] (g, false);
  let '(g, playersActive) := st in
  if negb playersActive then
    let '(g, ev) := CloseServers g in
    Some (set_Running false g, ev, false)
  else
    Some (g, [EvSleep DisconnectTimeoutS], true).

(** *** ChangeBuffer (first variant)

    [for i := range g.GameData.BufferSize] fixes the index list when the
    loop starts.  [uint32 (0 + weightedBuffer)] is the sum
    [0 + weightedBuffer] of the source, taken in [uint32] as its operands
    are; the entry of [BufferHealth] receives that number, for the line
    has no conversion.  ([GameData] declares [BufferHealth] as a slice
    of [int32], a type the line does not check against; a slice is a
    list of integers here.) *)
Fixpoint ChangeBuffer_loop (idx : list Z) (weightedBuffer : Z) (d : GameData)
    : option GameData :=
  match idx with
  | [] => Some d
  | i :: rest =>
      bs ← store (BufferSize d) i 0;
      let d := set_BufferSize bs d in
      bh ← store (BufferHealth d) i (uint32 (0 + weightedBuffer));
      ChangeBuffer_loop rest weightedBuffer (set_BufferHealth bh d)
  end.

Definition rangeIndex {A} (s : list A) : list Z :=
  Z.of_nat <$> seq 0 (length s).

Definition ChangeBuffer (buffer : Z) (g : GameServer) : option GameServer :=
  let g := set_Buffer buffer g in
  let weightedBuffer := uint32 buffer in
  d ← ChangeBuffer_loop (rangeIndex (BufferSize (gameData g))) weightedBuffer (gameData g);
  Some (set_gameData d g).

(** *** The second and third variants of server.go

    Both variants have the same [ManagePlayers] sweep and the same
    [ChangeBuffer]; they differ in what follows the sweep (the second
    stamps [LastActivity] instead of sleeping).  Their [CloseServers]
    closes both listeners without a nil check: [Close] is a method of the
    struct embedded in [net.UDPConn], so the call through a nil
    [UDPListener] dereferences nil and panics, while a nil
    [*net.TCPListener] only makes [Close] return an error, which is
    logged.  Neither listener field is reset. *)
Module variant.

Definition CloseServers (g : GameServer) : option (GameServer * list Event) :=
  match UDPListener g with
  | None => None
  | Some u =>
      Some (set_Running false g,
            EvCloseUDP u :: match TCPListener g with Some l => [EvCloseTCP l] | None => [] end)
  end.

Definition sweepSlot (i : Z) (st : GameServer * bool) : option (GameServer * bool) :=
  let '(g, playersActive) := st in
  let d := gameData g in
  st' ← match Registrations g !! i with
        | Some _ =>
            alive ← index (PlayerAlive d) i;
            if alive : bool then Some (g, true)
            else Some (set_Registrations (delete i (Registrations g)) g, playersActive)
        | None => Some (g, playersActive)
        end;
  let '(g, playersActive) := st' in
  alive' ← store (PlayerAlive (gameData g)) i false;
  Some (set_gameData (set_PlayerAlive alive' (gameData g)) g, playersActive).

(** Second variant: [now] is the reading of [time.Now()]. *)
Definition ManagePlayers_iteration2 (now : Z) (g : GameServer)
    : option (GameServer * list Event * bool) :=
  st ← forSlots sweepSlot [0; 1; 2; 3] (g, false);
  let '(g, playersActive) := st in
  if negb playersActive then
    r ← CloseServers g;
    Some (set_Running false r.1, r.2, false)
  else
    Some (set_LastActivity now g, [], true).

(** Third variant. *)
Definition ManagePlayers_iteration3 (g : GameServer)
    : option (GameServer * list Event * bool) :=
  st ← forSlots sweepSlot [0; 1; 2; 3] (g, false);
  let '(g, playersActive) := st in
  if negb playersActive then
    r ← CloseServers g;
    Some (set_Running false r.1, r.2, false)
  else
    Some (g, [EvSleep DisconnectTimeoutS], true).

Fixpoint ChangeBuffer_loop (idx : list Z) (weightedBuffer : Z) (d : GameData)
    : option GameData :=
  match idx with
  | [] => Some d
  | i :: rest =>
      bs ← store (BufferSize d) i weightedBuffer;
      ChangeBuffer_loop rest weightedBuffer (set_BufferSize bs d)
  end.

Definition ChangeBuffer (buffer : Z) (g : GameServer) : option GameServer :=
  let g := set_Buffer buffer g in
  let weightedBuffer := uint32 buffer in
  d ← ChangeBuffer_loop (rangeIndex (BufferSize (gameData g))) weightedBuffer (gameData g);
  Some (set_gameData d g).

End variant.

(** *** The lead counter

    Modelled from the spec: the UDP handler of the Go server (the code
    that receives [KeyInfoClient]) is not among the sources.  The spec
    gives its effect on the lead as "Update LeadCount if count is newer",
    with [uintLarger], which is in the sources, as the order. *)
Definition updateLeadCount (count : Z) (d : GameData) : GameData :=
  if uintLarger count (LeadCount d) then set_LeadCount count d else d.

(** *** Vocabulary of the sweep and of the buffer change *)

(** The five slices that the sweep indexes have their four entries. *)
Definition slots_allocated (d : GameData) : Prop :=
  length (PlayerAlive d) = 4%nat /\ length (BufferSize d) = 4%nat /\
  length (BufferHealth d) = 4%nat /\ length (CountLag d) = 4%nat /\
  length (PlayerAddresses d) = 4%nat.

Definition registered (g : GameServer) (i : Z) : bool :=
  bool_decide (is_Some (Registrations g !! i)).

Definition alive (g : GameServer) (i : Z) : bool :=
  match index (PlayerAlive (gameData g)) i with Some true => true | _ => false end.

(** A slot is dead when it is registered and its flag is not set. *)
Definition dead (g : GameServer) (i : Z) : bool := registered g i && negb (alive g i).

(** [g] with new registrations, status and liveness flags, and every
    other field as it was. *)
Definition swept (g : GameServer) (r : gmap Z Registration) (s : Z) (p : list bool)
    : GameServer :=
  set_gameData (set_PlayerAlive p (set_Status s (gameData g))) (set_Registrations r g).

Definition sweptRegs (g : GameServer) : gmap Z Registration :=
  fold_left (fun r i => if dead g i then delete i r else r) [0; 1; 2; 3] (Registrations g).

Definition sweptStatus (g : GameServer) : Z :=
  fold_left (fun s i => if dead g i then byte (Z.lor s (byte (Z.shiftl 1 (byte (i + 1))))) else s)
            [0; 1; 2; 3] (Status (gameData g)).

Definition anyAlive (g : GameServer) : bool :=
  existsb (fun i => registered g i && alive g i) [0; 1; 2; 3].

(** The room after [CloseServers], and the closes it makes. *)
Definition closed (g : GameServer) : GameServer :=
  set_Running false (set_TCPListener None (set_UDPListener None g)).

Definition closeEvents (g : GameServer) : list Event :=
  match UDPListener g with Some l => [EvCloseUDP l] | None => [] end ++
  match TCPListener g with Some l => [EvCloseTCP l] | None => [] end.


(** A running room on port 45001 whose player on slot 0 has registered
    and has sent nothing since the last sweep; and the same room with the
    flag of slot 0 set. *)
Definition silentRoom : GameServer :=
  mkGameServer 0 ∅ (Some 1%nat) (Some 2%nat) {[0 := mkRegistration 7 2 0]} ∅ ∅
    "game" "" "sha" "md5" "m64p" []
    (mkGameData ∅ [None; None; None; None] [0; 0; 0; 0] [3; 3; 3; 3]
       [∅; ∅; ∅; ∅] [∅; ∅; ∅; ∅] [0; 0; 0; 0] [0; 0; 0; 0] [0; 0; 0; 0]
       [false; false; false; false] 0 0)
    45001 false true ∅ "pA" 3 0 0 0.

Definition liveRoom : GameServer :=
  set_gameData (set_PlayerAlive [true; false; false; false] (gameData silentRoom)) silentRoom.

(** What a pass leaves behind: the status byte, the registration of
    slot 0, the liveness flags, the events and whether the loop goes on. *)
Definition outcome (r : option (GameServer * list Event * bool))
    : option (Z * option Registration * list bool * list Event * bool) :=
  r ≫= fun x =>
    Some (Status (gameData x.1.1), Registrations x.1.1 !! 0, PlayerAlive (gameData x.1.1),
          x.1.2, x.2).

(** Two passes of the second variant, one after the other. *)
Definition twoPasses2 (now : Z) (g : GameServer)
    : option (GameServer * list Event * bool) :=
  match variant.ManagePlayers_iteration2 now g with
  | Some (g1, ev1, true) =>
      match variant.ManagePlayers_iteration2 now g1 with
      | Some (g2, ev2, again) => Some (g2, ev1 ++ ev2, again)
      | None => None
      end
  | r => r
  end.

Definition buffers (r : option GameServer) : option (Z * list Z * list Z) :=
  r ≫= fun g => Some (Buffer g, BufferSize (gameData g), BufferHealth (gameData g)).

(** *** Frame-counter order *)

Lemma uint32_range z : 0 <= uint32 z < 2 ^ 32.
Proof. unfold uint32. apply Z.mod_pos_bound. lia. Qed.

Lemma uintLarger_spec v w :
  uintLarger v w = true <-> (w - v) mod 2 ^ 32 >= 2 ^ 31.
Proof.
  unfold uintLarger, uint32, MaxUint32.
  change (4294967295 / 2) with 2147483647.
  change (2 ^ 31) with 2147483648.
  rewrite Z.gtb_ltb, Z.ltb_lt. lia.
Qed.

Lemma older_spec v w :
  older v w = true <-> (w - v) mod 2 ^ 32 < 2 ^ 31.
Proof.
  unfold older. rewrite negb_true_iff, <- not_true_iff_false, uintLarger_spec. lia.
Qed.

(** C4.  For all counters [v] and [w], [v] is classified as older than
    [w] exactly when [(w - v) mod 2^32 < 2^31], and [uintLarger v w] holds
    exactly when [(w - v) mod 2^32 >= 2^31].  Counter [0] is newer than
    counter [2^32 - 1]: a [KeyInfoClient] at [0] that follows one at
    [2^32 - 1] which took the lead sets [LeadCount] to [0], and so does
    the pair of packets in a new room. *)
Theorem uintLarger_half_range :
  (forall v w : Z,
      (older v w = true <-> (w - v) mod 2 ^ 32 < 2 ^ 31) /\
      (uintLarger v w = true <-> (w - v) mod 2 ^ 32 >= 2 ^ 31)) /\
  uintLarger 0 (2 ^ 32 - 1) = true /\
  older 0 (2 ^ 32 - 1) = false /\
  (forall d : GameData,
      LeadCount (updateLeadCount (2 ^ 32 - 1) d) = 2 ^ 32 - 1 ->
      LeadCount (updateLeadCount 0 (updateLeadCount (2 ^ 32 - 1) d)) = 0) /\
  LeadCount (updateLeadCount 0 (updateLeadCount (2 ^ 32 - 1) zeroGameData)) = 0.
Proof.
  split; [intros v w; split; [apply older_spec | apply uintLarger_spec]|].
  split; [reflexivity|].
  split; [reflexivity|].
  split; [|reflexivity].
  intros d Hd.
  unfold updateLeadCount at 1. rewrite Hd.
  change (uintLarger 0 (2 ^ 32 - 1)) with true. cbv iota.
  generalize (updateLeadCount (2 ^ 32 - 1) d). intros []. reflexivity.
Qed.

(** The lead moves only forward: a counter that is not newer leaves it. *)
Lemma updateLeadCount_stale count d :
  uintLarger count (LeadCount d) = false -> updateLeadCount count d = d.
Proof. unfold updateLeadCount. intros ->. reflexivity. Qed.

Example lead_wraps :
  LeadCount (updateLeadCount 0 (set_LeadCount 4294967295 zeroGameData)) = 0.
Proof. reflexivity. Qed.

Example lead_keeps_small :
  LeadCount (updateLeadCount 0 (updateLeadCount 4294967295 (set_LeadCount 5 zeroGameData))) = 5.
Proof. reflexivity. Qed.

(** *** The sweep of ManagePlayers *)

Lemma swept_id g : g = swept g (Registrations g) (Status (gameData g)) (PlayerAlive (gameData g)).
Proof. destruct g as [? ? ? ? ? ? ? ? ? ? ? ? ? [] ? ? ? ? ? ? ? ? ?]. reflexivity. Qed.

Lemma sweepSlot_step i g r s p b :
  0 <= i < 4 -> slots_allocated (gameData g) -> length p = 4%nat ->
  let g0 := swept g r s p in
  sweepSlot i (g0, b) =
    Some (swept g (if dead g0 i then delete i r else r)
                  (if dead g0 i then byte (Z.lor s (byte (Z.shiftl 1 (byte (i + 1))))) else s)
                  (<[Z.to_nat i := false]> p),
          b || (registered g0 i && alive g0 i)).
Proof.
  intros Hi (Ha & Hb & Hc & Hd & He) Hp g0.
  destruct g as [st pl tl ul rg tf cd gn pw cs md em ts [sv pad bsz bh inp plg pin cl pp pal lc stt] port hs run ft pn buf la lp ct]; simpl in *.
  unfold sweepSlot, dead, alive, registered, g0, swept; simpl.
  destruct (index_Some p i) as [a Hia]; [lia|].
  destruct (index_Some bsz i) as [? H1]; [lia|].
  destruct (index_Some bh i) as [? H2]; [lia|].
  destruct (index_Some cl i) as [? H3]; [lia|].
  destruct (index_Some pad i) as [? H4]; [lia|].
  destruct (r !! i) as [reg|] eqn:Hr; simpl.
  - rewrite Hia; simpl. destruct a; simpl.
    + rewrite H1, H2, H3, H4; simpl. rewrite store_Some by lia. simpl.
      by rewrite orb_true_r.
    + rewrite H4; simpl. rewrite store_Some by lia. simpl.
      by rewrite orb_false_r.
  - rewrite store_Some by lia. simpl. by rewrite orb_false_r.
Qed.

Lemma dead_swept g r s p i :
  dead (swept g r s p) i =
  bool_decide (is_Some (r !! i)) && negb (match index p i with Some true => true | _ => false end).
Proof. destruct g as [st pl tl ul rg tf cd gn pw cs md em ts [sv pad bsz bh inp plg pin cl pp pal lc stt] port hs run ft pn buf la lp ct]; reflexivity. Qed.

Lemma lookup_if_delete (c : bool) (j i : Z) (r : gmap Z Registration) :
  i <> j -> (if c then delete j r else r) !! i = r !! i.
Proof. intros. destruct c; [by rewrite lookup_delete_ne|done]. Qed.

Lemma forSlots_step i rest g r s p b :
  0 <= i < 4 -> slots_allocated (gameData g) -> length p = 4%nat ->
  let g0 := swept g r s p in
  forSlots sweepSlot (i :: rest) (g0, b) =
  forSlots sweepSlot rest
    (swept g (if dead g0 i then delete i r else r)
             (if dead g0 i then byte (Z.lor s (byte (Z.shiftl 1 (byte (i + 1))))) else s)
             (<[Z.to_nat i := false]> p),
     b || (registered g0 i && alive g0 i)).
Proof.
  intros Hi Ha Hp g0. cbn [forSlots]. unfold g0.
  rewrite sweepSlot_step by done. reflexivity.
Qed.

Lemma registered_swept g r s p i :
  registered (swept g r s p) i = bool_decide (is_Some (r !! i)).
Proof. destruct g as [st pl tl ul rg tf cd gn pw cs md em ts [sv pad bsz bh inp plg pin cl pp pal lc stt] port hs run ft pn buf la lp ct]; reflexivity. Qed.

Lemma alive_swept g r s p i :
  alive (swept g r s p) i = match index p i with Some true => true | _ => false end.
Proof. destruct g as [st pl tl ul rg tf cd gn pw cs md em ts [sv pad bsz bh inp plg pin cl pp pal lc stt] port hs run ft pn buf la lp ct]; reflexivity. Qed.

Lemma Registrations_swept g r s p : Registrations (swept g r s p) = r.
Proof. destruct g as [st pl tl ul rg tf cd gn pw cs md em ts [sv pad bsz bh inp plg pin cl pp pal lc stt] port hs run ft pn buf la lp ct]; reflexivity. Qed.

Lemma Status_swept g r s p : Status (gameData (swept g r s p)) = s.
Proof. destruct g as [st pl tl ul rg tf cd gn pw cs md em ts [sv pad bsz bh inp plg pin cl pp pal lc stt] port hs run ft pn buf la lp ct]; reflexivity. Qed.

Lemma sweep_result_swept g r s a0 a1 a2 a3 :
  slots_allocated (gameData g) ->
  let g0 := swept g r s [a0; a1; a2; a3] in
  forSlots sweepSlot [0; 1; 2; 3] (g0, false) =
    Some (swept g (sweptRegs g0) (sweptStatus g0) [false; false; false; false], anyAlive g0).
Proof.
  intros Ha g0. unfold g0.
  unfold sweptRegs, sweptStatus, anyAlive. simpl fold_left. simpl existsb.
  do 4 (rewrite forSlots_step by (done || lia)).
  cbn [forSlots]. unfold dead.
  rewrite !registered_swept, !alive_swept, Registrations_swept, Status_swept.
  rewrite !lookup_if_delete by lia.
  change (index (<[Z.to_nat 0:=false]> [a0; a1; a2; a3]) 1) with (Some a1).
  change (index (<[Z.to_nat 1:=false]> (<[Z.to_nat 0:=false]> [a0; a1; a2; a3])) 2) with (Some a2).
  change (index (<[Z.to_nat 2:=false]> (<[Z.to_nat 1:=false]> (<[Z.to_nat 0:=false]> [a0; a1; a2; a3]))) 3) with (Some a3).
  change (index [a0; a1; a2; a3] 0) with (Some a0).
  change (index [a0; a1; a2; a3] 1) with (Some a1).
  change (index [a0; a1; a2; a3] 2) with (Some a2).
  change (index [a0; a1; a2; a3] 3) with (Some a3).
  rewrite orb_false_r, !orb_assoc.
  reflexivity.
Qed.

Lemma sweep_result g :
  slots_allocated (gameData g) ->
  forSlots sweepSlot [0; 1; 2; 3] (g, false) =
    Some (swept g (sweptRegs g) (sweptStatus g) [false; false; false; false], anyAlive g).
Proof.
  intros Ha. pose proof Ha as (Hp & _). pose proof (swept_id g) as E.
  destruct (PlayerAlive (gameData g)) as [|a0 [|a1 [|a2 [|a3 [|]]]]]; try discriminate.
  pose proof (sweep_result_swept g (Registrations g) (Status (gameData g)) a0 a1 a2 a3 Ha) as H.
  cbv zeta in H. by rewrite <- E in H.
Qed.

Lemma sweptRegs_lookup g i :
  sweptRegs g !! i =
  if (0 <=? i) && (i <? 4) && dead g i then None else Registrations g !! i.
Proof.
  unfold sweptRegs. simpl fold_left.
  destruct (decide (i = 0)) as [->|]; [|destruct (decide (i = 1)) as [->|];
    [|destruct (decide (i = 2)) as [->|]; [|destruct (decide (i = 3)) as [->|]]]].
  - rewrite !lookup_if_delete by lia. simpl. destruct (dead g 0); [apply lookup_delete_eq|done].
  - rewrite !lookup_if_delete by lia. simpl.
    destruct (dead g 1); [rewrite lookup_delete_eq|rewrite lookup_if_delete by lia]; done.
  - rewrite !lookup_if_delete by lia. simpl.
    destruct (dead g 2); [rewrite lookup_delete_eq|rewrite !lookup_if_delete by lia]; done.
  - simpl.
    destruct (dead g 3); [rewrite lookup_delete_eq|rewrite !lookup_if_delete by lia]; done.
  - rewrite !lookup_if_delete by lia.
    destruct (Z.leb_spec 0 i), (Z.ltb_spec i 4); simpl; try done. lia.
Qed.

Lemma testbit_byte z n : 0 <= n < 8 -> Z.testbit (byte z) n = Z.testbit z n.
Proof.
  intros Hn. unfold byte. change 256 with (2 ^ 8).
  rewrite Z.testbit_mod_pow2 by lia.
  destruct (Z.ltb_spec n 8); [done|lia].
Qed.

Lemma sweptStatus_bits g n :
  0 <= n < 8 ->
  Z.testbit (sweptStatus g) n =
  Z.testbit (Status (gameData g)) n ||
  existsb (fun i => dead g i && (n =? i + 1)) [0; 1; 2; 3].
Proof.
  intros Hn. unfold sweptStatus. simpl fold_left. simpl existsb.
  change (byte (1 ≪ byte (0 + 1))) with (2 ^ 1).
  change (byte (1 ≪ byte (1 + 1))) with (2 ^ 2).
  change (byte (1 ≪ byte (2 + 1))) with (2 ^ 3).
  change (byte (1 ≪ byte (3 + 1))) with (2 ^ 4).
  change (0 + 1) with 1. change (1 + 1) with 2. change (2 + 1) with 3. change (3 + 1) with 4.
  generalize (Status (gameData g)); intros s.
  destruct (dead g 0), (dead g 1), (dead g 2), (dead g 3);
    rewrite ?testbit_byte, ?Z.lor_spec, ?testbit_byte, ?Z.lor_spec,
            ?testbit_byte, ?Z.lor_spec, ?testbit_byte, ?Z.lor_spec, ?Z.pow2_bits_eqb by lia;
    rewrite ?(Z.eqb_sym n); simpl; rewrite ?orb_false_r, ?orb_assoc; reflexivity.
Qed.

Lemma CloseServers_eq g : CloseServers g = (closed g, closeEvents g).
Proof.
  destruct g as [st pl tl ul rg tf cd gn pw cs md em ts gd port hs run ft pn buf la lp ct].
  destruct tl, ul; reflexivity.
Qed.

Lemma closed_fields g :
  Running (closed g) = false /\ UDPListener (closed g) = None /\
  TCPListener (closed g) = None /\ Registrations (closed g) = Registrations g /\
  gameData (closed g) = gameData g /\ set_Running false (closed g) = closed g.
Proof.
  destruct g as [st pl tl ul rg tf cd gn pw cs md em ts gd port hs run ft pn buf la lp ct].
  repeat split.
Qed.

Lemma swept_fields g r s p :
  Registrations (swept g r s p) = r /\
  Status (gameData (swept g r s p)) = s /\
  PlayerAlive (gameData (swept g r s p)) = p /\
  Running (swept g r s p) = Running g /\
  UDPListener (swept g r s p) = UDPListener g /\
  TCPListener (swept g r s p) = TCPListener g.
Proof.
  destruct g as [st pl tl ul rg tf cd gn pw cs md em ts [sv pad bsz bh inp plg pin cl pp pal lc stt] port hs run ft pn buf la lp ct].
  repeat split.
Qed.

Lemma ManagePlayers_iteration_eq g :
  slots_allocated (gameData g) ->
  let g1 := swept g (sweptRegs g) (sweptStatus g) [false; false; false; false] in
  ManagePlayers_iteration g =
  Some (if anyAlive g then (g1, [EvSleep DisconnectTimeoutS], true)
        else (closed g1, closeEvents g1, false)).
Proof.
  intros Ha g1. unfold ManagePlayers_iteration.
  rewrite sweep_result by done. cbn [mbind option_bind].
  fold g1. destruct (anyAlive g); cbn [negb]; [done|].
  rewrite CloseServers_eq.
  by destruct (closed_fields g1) as (_ & _ & _ & _ & _ & ->).
Qed.

(** X1.  The sweep of the first variant.  With the slices allocated, a
    pass deletes the registration of every registered slot whose flag is
    not set and sets bit [i + 1] of [Status] for it, keeps the other
    registrations and the other bits, clears the four flags, and then:
    if no registered slot had its flag set, closes both listeners, sets
    [Running] to false and returns; otherwise sleeps
    [DisconnectTimeoutS] seconds and goes round again. *)
Theorem ManagePlayers_sweep g :
  slots_allocated (gameData g) ->
  exists g' ev again,
    ManagePlayers_iteration g = Some (g', ev, again) /\
    (forall i, 0 <= i < 4 -> registered g i = true -> alive g i = false ->
       Registrations g' !! i = None /\
       Z.testbit (Status (gameData g')) (i + 1) = true) /\
    (forall i, ~ (0 <= i < 4 /\ registered g i = true /\ alive g i = false) ->
       Registrations g' !! i = Registrations g !! i) /\
    (forall n, 0 <= n < 8 ->
       Z.testbit (Status (gameData g')) n =
       Z.testbit (Status (gameData g)) n ||
       existsb (fun i => dead g i && (n =? i + 1)) [0; 1; 2; 3]) /\
    PlayerAlive (gameData g') = [false; false; false; false] /\
    again = anyAlive g /\
    (anyAlive g = false ->
       Running g' = false /\ UDPListener g' = None /\ TCPListener g' = None /\
       ev = closeEvents g) /\
    (anyAlive g = true ->
       ev = [EvSleep DisconnectTimeoutS] /\ Running g' = Running g /\
       UDPListener g' = UDPListener g /\ TCPListener g' = TCPListener g).
Proof.
  intros Ha.
  pose proof (ManagePlayers_iteration_eq g Ha) as Heq. cbv zeta in Heq.
  set (g1 := swept g (sweptRegs g) (sweptStatus g) [false; false; false; false]) in *.
  destruct (swept_fields g (sweptRegs g) (sweptStatus g) [false; false; false; false])
    as (Hr & Hs & Hp & Hrun & Hu & Ht). fold g1 in Hr, Hs, Hp, Hrun, Hu, Ht.
  destruct (closed_fields g1) as (Hc1 & Hc2 & Hc3 & Hc4 & Hc5 & _).
  assert (Hregs : forall g', Registrations g' = sweptRegs g ->
     (forall i, 0 <= i < 4 -> registered g i = true -> alive g i = false ->
        Registrations g' !! i = None) /\
     (forall i, ~ (0 <= i < 4 /\ registered g i = true /\ alive g i = false) ->
        Registrations g' !! i = Registrations g !! i)).
  { intros g' ->. split; intros i.
    - intros Hi H1 H2. rewrite sweptRegs_lookup. unfold dead. rewrite H1, H2.
      destruct (Z.leb_spec 0 i), (Z.ltb_spec i 4); simpl; (done || lia).
    - intros Hn. rewrite sweptRegs_lookup. unfold dead.
      destruct (Z.leb_spec 0 i), (Z.ltb_spec i 4); simpl; try done.
      destruct (registered g i) eqn:E1, (alive g i) eqn:E2; simpl; try done.
      exfalso. apply Hn. repeat split; lia. }
  assert (Hbits : forall g', Status (gameData g') = sweptStatus g ->
     (forall i, 0 <= i < 4 -> registered g i = true -> alive g i = false ->
        Z.testbit (Status (gameData g')) (i + 1) = true) /\
     (forall n, 0 <= n < 8 ->
       Z.testbit (Status (gameData g')) n =
       Z.testbit (Status (gameData g)) n ||
       existsb (fun i => dead g i && (n =? i + 1)) [0; 1; 2; 3])).
  { intros g' ->. split.
    - intros i Hi H1 H2. rewrite sweptStatus_bits by lia.
      apply orb_true_iff. right. apply existsb_exists. exists i. split.
      + assert (i = 0 \/ i = 1 \/ i = 2 \/ i = 3) as Hcase by lia.
        destruct Hcase as [Hc|[Hc|[Hc|Hc]]]; subst i; simpl; tauto.
      + unfold dead. rewrite H1, H2, Z.eqb_refl. done.
    - intros n Hn. by apply sweptStatus_bits. }
  destruct (anyAlive g) eqn:Hany.
  - exists g1, [EvSleep DisconnectTimeoutS], true.
    destruct (Hregs g1 Hr) as [R1 R2]. destruct (Hbits g1 Hs) as [B1 B2].
    split; [done|]. split; [intros; split; auto|].
    repeat split; auto; discriminate.
  - exists (closed g1), (closeEvents g1), false.
    destruct (Hregs (closed g1)) as [R1 R2]; [congruence|].
    destruct (Hbits (closed g1)) as [B1 B2]; [congruence|].
    split; [done|]. split; [intros; split; auto|].
    split; [done|]. split; [done|]. split; [congruence|]. split; [done|].
    split; [|discriminate]. intros _. repeat split; auto.
    unfold closeEvents. by rewrite Hu, Ht.
Qed.

Lemma variant_sweepSlot_step i g r s p b :
  0 <= i < 4 -> length p = 4%nat ->
  let g0 := swept g r s p in
  variant.sweepSlot i (g0, b) =
    Some (swept g (if dead g0 i then delete i r else r) s (<[Z.to_nat i := false]> p),
          b || (registered g0 i && alive g0 i)).
Proof.
  intros Hi Hp g0.
  destruct g as [st pl tl ul rg tf cd gn pw cs md em ts [sv pad bsz bh inp plg pin cl pp pal lc stt] port hs run ft pn buf la lp ct]; simpl in *.
  unfold variant.sweepSlot, dead, alive, registered, g0, swept; simpl.
  destruct (index_Some p i) as [a Hia]; [lia|].
  destruct (r !! i) as [reg|] eqn:Hr; simpl.
  - rewrite Hia; simpl. destruct a; simpl; rewrite store_Some by lia; simpl.
    + by rewrite orb_true_r.
    + by rewrite orb_false_r.
  - rewrite store_Some by lia. simpl. by rewrite orb_false_r.
Qed.

Lemma variant_forSlots_step i rest g r s p b :
  0 <= i < 4 -> length p = 4%nat ->
  let g0 := swept g r s p in
  forSlots variant.sweepSlot (i :: rest) (g0, b) =
  forSlots variant.sweepSlot rest
    (swept g (if dead g0 i then delete i r else r) s (<[Z.to_nat i := false]> p),
     b || (registered g0 i && alive g0 i)).
Proof.
  intros Hi Hp g0. cbn [forSlots]. unfold g0.
  rewrite variant_sweepSlot_step by done. reflexivity.
Qed.

Lemma variant_sweep_result_swept g r s a0 a1 a2 a3 :
  let g0 := swept g r s [a0; a1; a2; a3] in
  forSlots variant.sweepSlot [0; 1; 2; 3] (g0, false) =
    Some (swept g (sweptRegs g0) s [false; false; false; false], anyAlive g0).
Proof.
  intros g0. unfold g0.
  unfold sweptRegs, anyAlive. simpl fold_left. simpl existsb.
  do 4 (rewrite variant_forSlots_step by (done || lia)).
  cbn [forSlots]. unfold dead.
  rewrite !registered_swept, !alive_swept, Registrations_swept.
  rewrite !lookup_if_delete by lia.
  change (index (<[Z.to_nat 0:=false]> [a0; a1; a2; a3]) 1) with (Some a1).
  change (index (<[Z.to_nat 1:=false]> (<[Z.to_nat 0:=false]> [a0; a1; a2; a3])) 2) with (Some a2).
  change (index (<[Z.to_nat 2:=false]> (<[Z.to_nat 1:=false]> (<[Z.to_nat 0:=false]> [a0; a1; a2; a3]))) 3) with (Some a3).
  change (index [a0; a1; a2; a3] 0) with (Some a0).
  change (index [a0; a1; a2; a3] 1) with (Some a1).
  change (index [a0; a1; a2; a3] 2) with (Some a2).
  change (index [a0; a1; a2; a3] 3) with (Some a3).
  rewrite orb_false_r, !orb_assoc.
  reflexivity.
Qed.

(** The sweep of the second and third variants deletes the same
    registrations and clears the same flags, and leaves [Status] as it
    was. *)
Lemma variant_sweep_keeps_Status g :
  length (PlayerAlive (gameData g)) = 4%nat ->
  forSlots variant.sweepSlot [0; 1; 2; 3] (g, false) =
    Some (swept g (sweptRegs g) (Status (gameData g)) [false; false; false; false],
          anyAlive g).
Proof.
  intros Hp. pose proof (swept_id g) as E.
  destruct (PlayerAlive (gameData g)) as [|a0 [|a1 [|a2 [|a3 [|]]]]]; try discriminate.
  pose proof (variant_sweep_result_swept g (Registrations g) (Status (gameData g)) a0 a1 a2 a3) as H.
  cbv zeta in H. by rewrite <- E in H.
Qed.

(** C6.  The second and third variants of [ManagePlayers] break the
    claim where the first keeps it.  On a room whose player on slot 0 is
    registered and silent, all three delete the registration, clear the
    flags and close the room, but only the first sets bit 1 of [Status]
    (status 2); the two others leave [Status] at 0.  And the second
    variant does not sleep between two passes: on a room whose player on
    slot 0 is alive, the second pass comes with no sleep in between,
    finds the flag cleared by the first, and closes the room. *)
Theorem ManagePlayers_variants_skip_Status :
  outcome (ManagePlayers_iteration silentRoom) =
    Some (2, None, [false; false; false; false], [EvCloseUDP 2%nat; EvCloseTCP 1%nat], false) /\
  outcome (variant.ManagePlayers_iteration2 5 silentRoom) =
    Some (0, None, [false; false; false; false], [EvCloseUDP 2%nat; EvCloseTCP 1%nat], false) /\
  outcome (variant.ManagePlayers_iteration3 silentRoom) =
    Some (0, None, [false; false; false; false], [EvCloseUDP 2%nat; EvCloseTCP 1%nat], false) /\
  outcome (ManagePlayers_iteration liveRoom) =
    Some (0, Some (mkRegistration 7 2 0), [false; false; false; false],
          [EvSleep DisconnectTimeoutS], true) /\
  outcome (twoPasses2 5 liveRoom) =
    Some (0, None, [false; false; false; false], [EvCloseUDP 2%nat; EvCloseTCP 1%nat], false).
Proof. vm_compute. repeat split. Qed.

(** *** ChangeBuffer *)








(** A negative buffer is stored in the slices as the [uint32] it
    converts to. *)
Example ChangeBuffer_negative :
  buffers (ChangeBuffer (-1) silentRoom) =
    Some (-1, [0; 0; 0; 0], [4294967295; 4294967295; 4294967295; 4294967295]) /\
  buffers (variant.ChangeBuffer (-1) silentRoom) =
    Some (-1, [4294967295; 4294967295; 4294967295; 4294967295], [3; 3; 3; 3]).
Proof. vm_compute. split; reflexivity. Qed.

Lemma ManagePlayers_sweep_witness :
  slots_allocated (gameData silentRoom) /\
  exists g' ev again,
    ManagePlayers_iteration silentRoom = Some (g', ev, again) /\
    Registrations g' !! 0 = None /\
    Z.testbit (Status (gameData g')) 1 = true /\
    again = false.
Proof.
  assert (Ha : slots_allocated (gameData silentRoom)) by (repeat split).
  split; [exact Ha|].
  destruct (ManagePlayers_sweep silentRoom Ha)
    as (g' & ev & again & Heq & Hdead & _ & _ & _ & Hagain & _).
  exists g', ev, again. split; [exact Heq|].
  destruct (Hdead 0) as [H1 H2]; [lia|reflexivity|reflexivity|].
  split; [exact H1|]. split; [exact H2|]. exact Hagain.
Defined.


(** *** More on the frame-counter order *)

(** X2.  [uintLarger] is a strict order only locally.  No counter is
    larger than itself; the order is invariant under adding the same
    offset to both counters (with wrap-around); two different counters
    that are not exactly [2^31] apart are ordered one way and not the
    other; and two counters exactly [2^31] apart are each larger than
    the other. *)
Theorem uintLarger_order :
  (forall v, uintLarger v v = false) /\
  (forall v w k, uintLarger (uint32 (v + k)) (uint32 (w + k)) = uintLarger v w) /\
  (forall v w, uint32 (w - v) <> 0 -> uint32 (w - v) <> 2 ^ 31 ->
     uintLarger w v = negb (uintLarger v w)) /\
  (forall v w, uint32 (w - v) = 2 ^ 31 ->
     uintLarger v w = true /\ uintLarger w v = true).
Proof.
  split; [|split; [|split]].
  - intros v. unfold uintLarger. by rewrite Z.sub_diag.
  - intros v w k. unfold uintLarger, uint32. f_equal.
    rewrite <- Zminus_mod. f_equal. lia.
  - intros v w. unfold uintLarger, uint32, MaxUint32.
    change (4294967295 / 2) with 2147483647.
    change (2 ^ 31) with 2147483648. change (2 ^ 32) with 4294967296.
    intros H0 H1.
    destruct (Z.gtb_spec ((v - w) mod 4294967296) 2147483647),
             (Z.gtb_spec ((w - v) mod 4294967296) 2147483647); cbn [negb];
      try reflexivity; exfalso; Z.to_euclidean_division_equations; lia.
  - intros v w. unfold uintLarger, uint32, MaxUint32.
    change (4294967295 / 2) with 2147483647.
    change (2 ^ 31) with 2147483648. change (2 ^ 32) with 4294967296.
    intros H. rewrite !Z.gtb_ltb, !Z.ltb_lt.
    Z.to_euclidean_division_equations. lia.
Qed.

(** *** Closing the listeners *)

(** X3.  [CloseServers] of the first variant closes each listener that
    is there, the UDP one first, resets both fields and clears
    [Running]; players, registrations, game data and port stay.  A
    second call finds nothing to close and changes nothing.  The second
    and third variants do not reset the fields: a second call closes the
    same listeners again, and a call with no UDP listener panics. *)
Theorem CloseServers_twice g :
  let r := CloseServers g in
  r.2 = closeEvents g /\
  UDPListener r.1 = None /\ TCPListener r.1 = None /\ Running r.1 = false /\
  Players r.1 = Players g /\ Registrations r.1 = Registrations g /\
  gameData r.1 = gameData g /\ Port r.1 = Port g /\
  CloseServers r.1 = (r.1, []) /\
  (variant.CloseServers g = None <-> UDPListener g = None) /\
  (forall g' ev, variant.CloseServers g = Some (g', ev) ->
     UDPListener g' = UDPListener g /\ TCPListener g' = TCPListener g /\
     Running g' = false /\ variant.CloseServers g' = Some (g', ev)).
Proof.
  destruct g as [st pl tl ul rg tf cd gn pw cs md em ts gd port hs run ft pn buf la lp ct].
  cbn zeta. split; [by destruct tl, ul|].
  split; [by destruct tl, ul|]. split; [by destruct tl, ul|].
  split; [by destruct tl, ul|]. split; [by destruct tl, ul|].
  split; [by destruct tl, ul|]. split; [by destruct tl, ul|].
  split; [by destruct tl, ul|]. split; [by destruct tl, ul|].
  split.
  - unfold variant.CloseServers. cbn. by destruct ul.
  - intros g' ev. unfold variant.CloseServers. cbn.
    destruct ul as [u|]; [|done]. intros [= <- <-]. by destruct tl.
Qed.

(** *** The sweep of the second and third variants *)

(** What a pass of the two later variants does when it closes. *)
Definition variantClosing (g g1 : GameServer)
    : option (GameServer * list Event * bool) :=
  match UDPListener g with
  | None => None
  | Some u =>
      Some (set_Running false g1,
            EvCloseUDP u :: match TCPListener g with Some l => [EvCloseTCP l] | None => [] end,
            false)
  end.

(** X4.  A pass of [ManagePlayers] in the second and third variants
    needs only the four liveness flags.  It deletes the registration of
    every registered slot among 0..3 whose flag is not set and keeps the
    others, clears the four flags, and leaves [Status] and both listener
    fields as they were.  If a registered slot had its flag set the
    third variant sleeps and the second stamps [LastActivity]; if none
    had, both close the listeners and clear [Running], and panic when
    there is no UDP listener. *)
Theorem variant_ManagePlayers_pass g now :
  length (PlayerAlive (gameData g)) = 4%nat ->
  let g1 := swept g (sweptRegs g) (Status (gameData g)) [false; false; false; false] in
  (forall i, Registrations g1 !! i =
             if (0 <=? i) && (i <? 4) && dead g i then None else Registrations g !! i) /\
  Status (gameData g1) = Status (gameData g) /\
  PlayerAlive (gameData g1) = [false; false; false; false] /\
  UDPListener g1 = UDPListener g /\ TCPListener g1 = TCPListener g /\
  variant.ManagePlayers_iteration3 g =
    (if anyAlive g then Some (g1, [EvSleep DisconnectTimeoutS], true)
     else variantClosing g g1) /\
  variant.ManagePlayers_iteration2 now g =
    (if anyAlive g then Some (set_LastActivity now g1, [], true)
     else variantClosing g g1) /\
  LastActivity (set_LastActivity now g1) = now /\
  Registrations (set_LastActivity now g1) = Registrations g1 /\
  gameData (set_LastActivity now g1) = gameData g1 /\
  Running (set_Running false g1) = false /\
  Registrations (set_Running false g1) = Registrations g1 /\
  gameData (set_Running false g1) = gameData g1.
Proof.
  intros Hp g1.
  destruct (swept_fields g (sweptRegs g) (Status (gameData g)) [false; false; false; false])
    as (Hr & Hs & Ha & _ & Hu & Ht). fold g1 in Hr, Hs, Ha, Hu, Ht.
  split; [intros i; rewrite Hr; apply sweptRegs_lookup|].
  split; [done|]. split; [done|]. split; [done|]. split; [done|].
  unfold variant.ManagePlayers_iteration3, variant.ManagePlayers_iteration2.
  rewrite variant_sweep_keeps_Status by done. fold g1. cbn [mbind option_bind].
  assert (Hfields :
    LastActivity (set_LastActivity now g1) = now /\
    Registrations (set_LastActivity now g1) = Registrations g1 /\
    gameData (set_LastActivity now g1) = gameData g1 /\
    Running (set_Running false g1) = false /\
    Registrations (set_Running false g1) = Registrations g1 /\
    gameData (set_Running false g1) = gameData g1) by by destruct g1.
  destruct (anyAlive g); cbn [negb]; [done|].
  unfold variant.CloseServers, variantClosing. rewrite Hu, Ht.
  destruct (UDPListener g) as [u|]; [|done]. cbn [mbind option_bind fst snd].
  assert (E : set_Running false (set_Running false g1) = set_Running false g1)
    by by destruct g1.
  by rewrite E.
Qed.

Lemma variant_ManagePlayers_pass_witness :
  length (PlayerAlive (gameData silentRoom)) = 4%nat /\
  Registrations (swept silentRoom (sweptRegs silentRoom) (Status (gameData silentRoom))
                       [false; false; false; false]) !! 0 = None /\
  variant.ManagePlayers_iteration3 (set_UDPListener None silentRoom) = None.
Proof.
  split; [reflexivity|]. split.
  - destruct (variant_ManagePlayers_pass silentRoom 0 eq_refl) as (Hregs & _).
    rewrite (Hregs 0). reflexivity.
  - destruct (variant_ManagePlayers_pass (set_UDPListener None silentRoom) 0 eq_refl)
      as (_ & _ & _ & _ & _ & H3 & _).
    rewrite H3. reflexivity.
Defined.

(** *** ChangeBuffer on slices of any length *)





(** *** Two passes of the sweep *)

Lemma slots_allocated_swept g r s :
  slots_allocated (gameData g) ->
  slots_allocated (gameData (swept g r s [false; false; false; false])).
Proof.
  destruct g as [st pl tl ul rg tf cd gn pw cs md em ts [sv pad bsz bh inp plg pin cl pp pal lc stt] port hs run ft pn buf la lp ct].
  intros (_ & H2 & H3 & H4 & H5). by repeat split.
Qed.

Lemma alive_after_sweep g r s i :
  alive (swept g r s [false; false; false; false]) i = false.
Proof.
  rewrite alive_swept. unfold index.
  destruct (0 <=? i); [|done].
  by destruct (Z.to_nat i) as [|[|[|[|n]]]].
Qed.

(** X6.  Two passes of [ManagePlayers] (first variant) with no packet
    in between close the room.  When a pass has found a player alive
    and goes round again, the flags are cleared; if no flag is set
    before the next pass, that pass deletes every registration of slots
    0..3, sets the status bit of every slot that was registered, closes
    the listeners the room had and clears [Running]. *)
Theorem two_silent_passes_close_the_room g g1 ev1 :
  slots_allocated (gameData g) ->
  ManagePlayers_iteration g = Some (g1, ev1, true) ->
  exists g2,
    ManagePlayers_iteration g1 = Some (g2, closeEvents g, false) /\
    Running g2 = false /\ UDPListener g2 = None /\ TCPListener g2 = None /\
    (forall i, 0 <= i < 4 -> Registrations g2 !! i = None) /\
    (forall i, 0 <= i < 4 -> registered g i = true ->
       Z.testbit (Status (gameData g2)) (i + 1) = true).
Proof.
  intros Ha H1.
  rewrite ManagePlayers_iteration_eq in H1 by done. cbv zeta in H1.
  destruct (anyAlive g) eqn:Hany; [|done]. injection H1 as <- _.
  set (g1 := swept g (sweptRegs g) (sweptStatus g) [false; false; false; false]).
  assert (Ha1 : slots_allocated (gameData g1)) by by apply slots_allocated_swept.
  destruct (swept_fields g (sweptRegs g) (sweptStatus g) [false; false; false; false])
    as (Hr1 & Hs1 & _ & _ & Hu1 & Ht1). fold g1 in Hr1, Hs1, Hu1, Ht1.
  assert (Hdead1 : forall i, dead g1 i = registered g1 i).
  { intros i. unfold dead, g1. by rewrite alive_after_sweep, andb_true_r. }
  assert (Hany1 : anyAlive g1 = false).
  { unfold anyAlive, g1. cbn [existsb]. by rewrite !alive_after_sweep, !andb_false_r. }
  rewrite ManagePlayers_iteration_eq by done. cbv zeta. rewrite Hany1.
  set (g2 := swept g1 (sweptRegs g1) (sweptStatus g1) [false; false; false; false]).
  destruct (swept_fields g1 (sweptRegs g1) (sweptStatus g1) [false; false; false; false])
    as (Hr2 & Hs2 & _ & _ & Hu2 & Ht2). fold g2 in Hr2, Hs2, Hu2, Ht2.
  destruct (closed_fields g2) as (Hc1 & Hc2 & Hc3 & Hc4 & Hc5 & _).
  exists (closed g2). split; [|split; [done|split; [done|split; [done|split]]]].
  - do 2 f_equal. unfold closeEvents. by rewrite Hu2, Ht2, Hu1, Ht1.
  - intros i Hi. rewrite Hc4, Hr2, sweptRegs_lookup, Hdead1.
    destruct (Z.leb_spec 0 i), (Z.ltb_spec i 4); try lia. cbn [andb].
    unfold registered. destruct (Registrations g1 !! i) eqn:E.
    + by rewrite bool_decide_true by eauto.
    + by rewrite bool_decide_false by (by intros [? ?]).
  - intros i Hi Hreg. rewrite Hc5, Hs2, sweptStatus_bits by lia.
    assert (Hin : forall f : Z -> bool, f i = true -> existsb f [0; 1; 2; 3] = true).
    { intros f Hf. apply existsb_exists. exists i. split; [|done].
      assert (i = 0 \/ i = 1 \/ i = 2 \/ i = 3) as Hcase by lia.
      destruct Hcase as [Hc|[Hc|[Hc|Hc]]]; subst i; simpl; tauto. }
    destruct (alive g i) eqn:Hal.
    + apply orb_true_iff. right. apply Hin. rewrite Hdead1, Z.eqb_refl, andb_true_r.
      unfold registered. rewrite Hr1, sweptRegs_lookup. unfold dead. rewrite Hreg, Hal.
      cbn [negb andb]. rewrite andb_false_r. exact Hreg.
    + apply orb_true_iff. left. rewrite Hs1, sweptStatus_bits by lia.
      apply orb_true_iff. right. apply Hin. unfold dead.
      by rewrite Hreg, Hal, Z.eqb_refl.
Qed.

Lemma two_silent_passes_close_the_room_witness :
  slots_allocated (gameData liveRoom) /\
  exists g1 g2,
    ManagePlayers_iteration liveRoom = Some (g1, [EvSleep DisconnectTimeoutS], true) /\
    ManagePlayers_iteration g1 = Some (g2, closeEvents liveRoom, false) /\
    Registrations g2 !! 0 = None /\
    Z.testbit (Status (gameData g2)) 1 = true.
Proof.
  assert (Ha : slots_allocated (gameData liveRoom)) by (repeat split).
  split; [exact Ha|].
  assert (H1 : ManagePlayers_iteration liveRoom =
               Some (swept liveRoom (sweptRegs liveRoom) (sweptStatus liveRoom)
                           [false; false; false; false],
                     [EvSleep DisconnectTimeoutS], true)) by (vm_compute; reflexivity).
  destruct (two_silent_passes_close_the_room liveRoom _ _ Ha H1)
    as (g2 & H2 & _ & _ & _ & Hregs & Hbits).
  eexists _, g2. split; [exact H1|]. split; [exact H2|]. split.
  - apply Hregs. lia.
  - apply (Hbits 0); [lia|reflexivity].
Defined.

End gameserver.

(** ** The relay of server.cpp *)

Module cppserver.

(** [inputs] and [buttons] are members of [Server] declared in server.h,
    which is not in the sources: one hash from frame counter to
    (keys, plugin) and one queue of (keys, plugin) for each controller.
    They are maps from the controller number here, every number having
    an entry; the arrays of the source have no bounds check.  A sender
    address is a handle.  Bytes are numbers below 256. *)
Definition Addr := nat.

Record Server := mkServer {
  inputs : gmap Z (gmap Z (Z * Z));
  buttons : gmap Z (list (Z * Z))
}.

Definition emptyServer : Server := mkServer ∅ ∅.

Definition inputsOf (s : Server) (playerNum : Z) : gmap Z (Z * Z) :=
  match inputs s !! playerNum with Some h => h | None => ∅ end.

Definition buttonsOf (s : Server) (playerNum : Z) : list (Z * Z) :=
  match buttons s !! playerNum with Some q => q | None => [] end.

(** [inputs[playerNum][count] = v] *)
Definition setInput (playerNum count : Z) (v : Z * Z) (s : Server) : Server :=
  mkServer (<[playerNum := <[count := v]> (inputsOf s playerNum)]> (inputs s)) (buttons s).

Definition setButtons (playerNum : Z) (q : list (Z * Z)) (s : Server) : Server :=
  mkServer (inputs s) (<[playerNum := q]> (buttons s)).

(** [inputs[playerNum].contains(count)] *)
Definition contains (s : Server) (playerNum count : Z) : bool :=
  bool_decide (is_Some (inputsOf s playerNum !! count)).

(** [inputs[playerNum][count]] read: [operator[]] of a hash gives the
    default pair for a missing key. *)
Definition input (s : Server) (playerNum count : Z) : Z * Z :=
  match inputsOf s playerNum !! count with Some v => v | None => (0, 0) end.

Definition checkIfExists (playerNumber count : Z) (s : Server) : Server :=
  if negb (contains s playerNumber count) then
    match buttonsOf s playerNumber with
    | first :: rest => setInput playerNumber count first (setButtons playerNumber rest s)
    | [] =>
        if contains s playerNumber (uint32 (count - 1)) then
          setInput playerNumber count (input s playerNumber (uint32 (count - 1))) s
        else setInput playerNumber count (0, 0) s
    end
  else s.

(** [qToBigEndian] and [qFromBigEndian<uint32_t>] *)
Definition toBigEndian (z : Z) : list Z :=
  [z / 2 ^ 24 mod 256; z / 2 ^ 16 mod 256; z / 2 ^ 8 mod 256; z mod 256].

Definition fromBigEndian (data : list Z) (at_ : nat) : option Z :=
  match drop at_ data with
  | b0 :: b1 :: b2 :: b3 :: _ => Some (((b0 * 256 + b1) * 256 + b2) * 256 + b3)
  | _ => None
  end.

(** The loop of [sendInput]; [buffer] is the part of the array written so
    far, so [curr] is its length. *)
Fixpoint sendInput_loop (turns : nat) (count playerNum spectator : Z)
    (s : Server) (buffer : list Z) : Server * list Z :=
  match turns with
  | O => (s, buffer)
  | S turns' =>
      let '(s, buffer) :=
        if (spectator =? 0) || contains s playerNum count then
          let buffer := buffer ++ toBigEndian count in
          let s := checkIfExists playerNum count s in
          let buffer := buffer ++ toBigEndian (input s playerNum count).1 in
          let buffer := buffer ++ [(input s playerNum count).2] in
          (s, buffer)
        else (s, buffer) in
      sendInput_loop turns' (uint32 (count + 1)) playerNum spectator s buffer
  end.

Definition sendInput (count : Z) (address : Addr) (playerNum spectator : Z) (s : Server)
    : Server * list (Addr * list Z) :=
  let buffer := [1; playerNum; 4] in
  let '(s, buffer) := sendInput_loop 4 count playerNum spectator s buffer in
  (s, if (3 <? length buffer)%nat then [(address, buffer)] else []).

(** One turn of the loop of [readPendingDatagrams].  Reading past the end
    of the datagram is undefined in the source: [None]. *)
Definition readDatagram (sender : Addr) (incomingData : list Z) (s : Server)
    : option (Server * list (Addr * list Z)) :=
  playerNum ← incomingData !! 1%nat;
  kind ← incomingData !! 0%nat;
  if kind =? 0 then
    count ← fromBigEndian incomingData 2;
    keys ← fromBigEndian incomingData 6;
    plugin ← incomingData !! 10%nat;
    Some (setButtons playerNum (buttonsOf s playerNum ++ [(keys, plugin)]) s, [])
  else if kind =? 2 then
    count ← fromBigEndian incomingData 2;
    spectator ← incomingData !! 6%nat;
    Some (sendInput count sender playerNum spectator s)
  else Some (s, []).

Fixpoint readPendingDatagrams (pending : list (Addr * list Z)) (s : Server)
    : option (Server * list (Addr * list Z)) :=
  match pending with
  | [] => Some (s, [])
  | (sender, incomingData) :: rest =>
      r ← readDatagram sender incomingData s;
      r' ← readPendingDatagrams rest r.1;
      Some (r'.1, r.2 ++ r'.2)
  end.

(** The two datagrams of the claim, and an entry of a reply. *)
Definition keyInfoClient (slot count keys plugin : Z) : list Z :=
  [0; slot] ++ toBigEndian count ++ toBigEndian keys ++ [plugin].

Definition playerInputRequest (slot count spectator : Z) : list Z :=
  [2; slot] ++ toBigEndian count ++ [spectator].

Definition entry (count keys plugin : Z) : list Z :=
  toBigEndian count ++ toBigEndian keys ++ [plugin].

(** The entries a spectator is sent: those of the four counters from
    [count] on that are stored. *)
Fixpoint storedEntries (turns : nat) (count playerNum : Z) (s : Server) : list Z :=
  match turns with
  | O => []
  | S turns' =>
      match inputsOf s playerNum !! count with
      | Some (keys, plugin) => entry count keys plugin
      | None => []
      end ++ storedEntries turns' (uint32 (count + 1)) playerNum s
  end.

Lemma fromBigEndian_toBigEndian z pre post n :
  n = length pre -> 0 <= z < 2 ^ 32 ->
  fromBigEndian (pre ++ toBigEndian z ++ post) n = Some z.
Proof.
  intros -> Hz. unfold fromBigEndian. rewrite drop_app_length. cbn.
  f_equal. change (2 ^ 24) with 16777216. change (2 ^ 16) with 65536.
  change (2 ^ 8) with 256. change (2 ^ 32) with 4294967296 in Hz.
  Z.to_euclidean_division_equations. lia.
Qed.

Lemma sendInput_loop_spectator turns count playerNum spectator s buffer :
  spectator <> 0 ->
  sendInput_loop turns count playerNum spectator s buffer =
  (s, buffer ++ storedEntries turns count playerNum s).
Proof.
  intros Hsp. revert count buffer.
  induction turns as [|turns IH]; intros count buffer; cbn [sendInput_loop storedEntries].
  - by rewrite app_nil_r.
  - destruct (Z.eqb_spec spectator 0) as [|_]; [done|]. cbn [orb].
    unfold contains, checkIfExists, input. unfold contains.
    destruct (inputsOf s playerNum !! count) as [[keys plugin]|] eqn:Hc.
    + rewrite bool_decide_true by eauto. cbn [negb]. rewrite Hc. cbn [fst snd].
      rewrite IH. unfold entry. by rewrite <- !app_assoc.
    + rewrite bool_decide_false by (by intros [? ?]). by rewrite IH.
Qed.

Lemma readDatagram_request sender slot count spectator s :
  0 <= count < 2 ^ 32 ->
  readDatagram sender (playerInputRequest slot count spectator) s =
  Some (sendInput count sender slot spectator s).
Proof.
  intros Hc. unfold readDatagram, playerInputRequest.
  rewrite (fromBigEndian_toBigEndian count [2; slot] [spectator] 2) by done.
  reflexivity.
Qed.

Lemma readDatagram_keyInfo sender slot count keys plugin s :
  0 <= count < 2 ^ 32 -> 0 <= keys < 2 ^ 32 ->
  readDatagram sender (keyInfoClient slot count keys plugin) s =
  Some (setButtons slot (buttonsOf s slot ++ [(keys, plugin)]) s, []).
Proof.
  intros Hc Hk. unfold readDatagram, keyInfoClient.
  rewrite (fromBigEndian_toBigEndian count [0; slot] (toBigEndian keys ++ [plugin]) 2) by done.
  change ([0; slot] ++ toBigEndian count ++ toBigEndian keys ++ [plugin])
    with (([0; slot] ++ toBigEndian count) ++ toBigEndian keys ++ [plugin]).
  rewrite (fromBigEndian_toBigEndian keys ([0; slot] ++ toBigEndian count) [plugin] 6) by done.
  reflexivity.
Qed.

(** An input that is stored stays as it is. *)
Lemma checkIfExists_keeps playerNumber count s slot n v :
  inputsOf s slot !! n = Some v ->
  inputsOf (checkIfExists playerNumber count s) slot !! n = Some v.
Proof.
  intros Hv. unfold checkIfExists.
  destruct (contains s playerNumber count) eqn:Hc; cbn [negb]; [done|].
  assert (Hset : forall w s', inputsOf s' slot !! n = Some v ->
            contains s' playerNumber count = false ->
            inputsOf (setInput playerNumber count w s') slot !! n = Some v).
  { intros w s' Hv' Hc'. unfold inputsOf at 1, setInput. cbn [inputs].
    destruct (decide (playerNumber = slot)) as [->|Hne].
    - rewrite lookup_insert_eq.
      destruct (decide (count = n)) as [->|Hn]; [|by rewrite lookup_insert_ne].
      unfold contains in Hc'. rewrite Hv' in Hc'.
      by rewrite bool_decide_true in Hc' by eauto.
    - by rewrite lookup_insert_ne. }
  destruct (buttonsOf s playerNumber) as [|first rest].
  - destruct (contains s playerNumber (uint32 (count - 1))); by apply Hset.
  - by apply Hset.
Qed.

Lemma sendInput_loop_keeps turns count playerNum spectator s buffer slot n v :
  inputsOf s slot !! n = Some v ->
  inputsOf (sendInput_loop turns count playerNum spectator s buffer).1 slot !! n = Some v.
Proof.
  revert count s buffer. induction turns as [|turns IH]; intros count s buffer Hv; [done|].
  cbn [sendInput_loop].
  destruct ((spectator =? 0) || contains s playerNum count); apply IH; [|done].
  by apply checkIfExists_keeps.
Qed.

Lemma sendInput_loop_prefix turns count playerNum spectator s buffer :
  exists more,
    (sendInput_loop turns count playerNum spectator s buffer).2 = buffer ++ more.
Proof.
  revert count s buffer. induction turns as [|turns IH]; intros count s buffer.
  - exists []. cbn. by rewrite app_nil_r.
  - cbn [sendInput_loop].
    destruct ((spectator =? 0) || contains s playerNum count); [|apply IH].
    edestruct IH as [more ->]. eexists. by rewrite <- !app_assoc.
Qed.

(** C3, as the code has it.  A request with [spectator] not zero changes
    nothing and is answered with the stored inputs of the four counters
    from [count] on, in order, and with no datagram when none of them is
    stored: nothing is made up.  A [KeyInfoClient] only queues its
    (keys, plugin); its frame counter is not used.  So when the slot has
    nothing queued and nothing stored at [count], the request of a
    player ([spectator = 0]) that follows the [KeyInfoClient] is answered
    with one datagram whose first entry is (count, keys, plugin), and
    from then on a spectator is answered with that entry first. *)
Theorem spectator_gets_stored_inputs :
  (forall sender slot count spectator s,
      0 <= count < 2 ^ 32 -> spectator <> 0 ->
      readDatagram sender (playerInputRequest slot count spectator) s =
      Some (s, match storedEntries 4 count slot s with
               | [] => []
               | entries => [(sender, [1; slot; 4] ++ entries)]
               end)) /\
  (forall sender slot count keys plugin s,
      0 <= count < 2 ^ 32 -> 0 <= keys < 2 ^ 32 ->
      buttonsOf s slot = [] -> contains s slot count = false ->
      exists s1 s2 rest,
        readDatagram sender (keyInfoClient slot count keys plugin) s = Some (s1, []) /\
        inputs s1 = inputs s /\
        readDatagram sender (playerInputRequest slot count 0) s1 =
          Some (s2, [(sender, [1; slot; 4] ++ entry count keys plugin ++ rest)]) /\
        (forall spectator, spectator <> 0 ->
           exists rest',
             readDatagram sender (playerInputRequest slot count spectator) s2 =
             Some (s2, [(sender, [1; slot; 4] ++ entry count keys plugin ++ rest')]))).
Proof.
  split.
  - intros sender slot count spectator s Hc Hsp.
    rewrite readDatagram_request by done.
    unfold sendInput. rewrite sendInput_loop_spectator by done.
    f_equal. f_equal. by destruct (storedEntries 4 count slot s).
  - intros sender slot count keys plugin s Hc Hk Hb Hn.
    rewrite readDatagram_keyInfo by done. rewrite Hb. cbn [app].
    set (s1 := setButtons slot [(keys, plugin)] s).
    assert (Hb1 : buttonsOf s1 slot = [(keys, plugin)]).
    { unfold buttonsOf, s1, setButtons. cbn [buttons]. by rewrite lookup_insert_eq. }
    set (s2 := setInput slot count (keys, plugin) (setButtons slot [] s1)).
    assert (Hi2 : inputsOf s2 slot !! count = Some (keys, plugin)).
    { unfold inputsOf at 1. unfold s2, setInput. cbn [inputs].
      rewrite lookup_insert_eq. by rewrite lookup_insert_eq. }
    assert (Hstep : forall buffer,
              sendInput_loop 4 count slot 0 s1 buffer =
              sendInput_loop 3 (uint32 (count + 1)) slot 0 s2
                             (buffer ++ entry count keys plugin)).
    { intros buffer. cbn [sendInput_loop Z.eqb orb].
      unfold checkIfExists. replace (contains s1 slot count) with false by (by rewrite <- Hn).
      cbn [negb]. rewrite Hb1. fold s2. unfold input. rewrite Hi2. cbn [fst snd].
      unfold entry. by rewrite <- !app_assoc. }
    pose proof (sendInput_loop_prefix 3 (uint32 (count + 1)) slot 0 s2
                  ([1; slot; 4] ++ entry count keys plugin)) as [rest Hrest].
    pose proof (sendInput_loop_keeps 3 (uint32 (count + 1)) slot 0 s2
                  ([1; slot; 4] ++ entry count keys plugin) slot count _ Hi2) as Hkeep.
    destruct (sendInput_loop 3 (uint32 (count + 1)) slot 0 s2
                ([1; slot; 4] ++ entry count keys plugin)) as [s3 buffer3] eqn:H3.
    cbn [fst snd] in Hrest, Hkeep. subst buffer3.
    exists s1, s3, rest. split; [done|]. split; [done|]. split.
    + rewrite readDatagram_request by done. unfold sendInput.
      rewrite Hstep, H3. by rewrite <- app_assoc.
    + intros spectator Hsp. rewrite readDatagram_request by done.
      unfold sendInput. rewrite sendInput_loop_spectator by done.
      cbn [storedEntries]. rewrite Hkeep.
      eexists. reflexivity.
Qed.

Lemma spectator_gets_stored_inputs_witness :
  (0 <= 100 < 2 ^ 32 /\ 1 <> 0 /\
   readDatagram 7%nat (playerInputRequest 0 100 1) emptyServer = Some (emptyServer, [])) /\
  (0 <= 2864434397 < 2 ^ 32 /\ buttonsOf emptyServer 0 = [] /\
   contains emptyServer 0 100 = false /\
   exists s1 s2 rest,
     readDatagram 7%nat (keyInfoClient 0 100 2864434397 2) emptyServer = Some (s1, []) /\
     readDatagram 7%nat (playerInputRequest 0 100 0) s1 =
       Some (s2, [(7%nat, [1; 0; 4] ++ entry 100 2864434397 2 ++ rest)])).
Proof.
  destruct spectator_gets_stored_inputs as [Hspectator Hplayer].
  split.
  - split; [lia|]. split; [discriminate|].
    apply (Hspectator 7%nat 0 100 1 emptyServer); [lia|discriminate].
  - split; [lia|]. split; [reflexivity|]. split; [reflexivity|].
    destruct (Hplayer 7%nat 0 100 2864434397 2 emptyServer)
      as (s1 & s2 & rest & H1 & _ & H2 & _); [lia|lia|reflexivity|reflexivity|].
    by exists s1, s2, rest.
Defined.

(** C3 as stated fails: a [KeyInfoClient] for slot 0 at counter 100 with
    keys 0xAABBCCDD and plugin 2, then a [PlayerInputRequest] for slot 0 at
    counter 100 with spectator 1, on a server that holds nothing.  The
    input is queued, nothing is stored at counter 100, and no datagram is
    sent. *)
Lemma spectator_request_after_key_info_sends_nothing :
  readPendingDatagrams
    [(7%nat, keyInfoClient 0 100 2864434397 2); (7%nat, playerInputRequest 0 100 1)]
    emptyServer =
  Some (mkServer ∅ {[0 := [(2864434397, 2)]]}, []).
Proof. vm_compute. reflexivity. Qed.

(** The fourth scenario of the spec: the request of a player. *)
Example player_request_after_key_info :
  readPendingDatagrams
    [(7%nat, keyInfoClient 0 100 2864434397 2); (8%nat, playerInputRequest 0 100 0)]
    emptyServer =
  Some (mkServer {[0 := {[100 := (2864434397, 2); 101 := (2864434397, 2);
                          102 := (2864434397, 2); 103 := (2864434397, 2)]}]}
                 {[0 := []]},
        [(8%nat, [1; 0; 4;
                  0; 0; 0; 100; 170; 187; 204; 221; 2;
                  0; 0; 0; 101; 170; 187; 204; 221; 2;
                  0; 0; 0; 102; 170; 187; 204; 221; 2;
                  0; 0; 0; 103; 170; 187; 204; 221; 2])]).
Proof. vm_compute. reflexivity. Qed.


(** *** Byte order *)

(** X7.  [qToBigEndian] writes four bytes, most significant first, and
    [qFromBigEndian] reads them back: a 32-bit value survives the round
    trip wherever it sits in a datagram, four bytes read and written
    again are the same four bytes, and a read that would run past the
    end of the datagram is not defined. *)
Theorem bigEndian_round_trip :
  (forall z, length (toBigEndian z) = 4%nat /\
             Forall (fun b => 0 <= b < 256) (toBigEndian z)) /\
  (forall z pre post, 0 <= z < 2 ^ 32 ->
     fromBigEndian (pre ++ toBigEndian z ++ post) (length pre) = Some z) /\
  (forall b0 b1 b2 b3 pre post,
     0 <= b0 < 256 -> 0 <= b1 < 256 -> 0 <= b2 < 256 -> 0 <= b3 < 256 ->
     exists z, fromBigEndian (pre ++ [b0; b1; b2; b3] ++ post) (length pre) = Some z /\
               0 <= z < 2 ^ 32 /\ toBigEndian z = [b0; b1; b2; b3]) /\
  (forall data n, (length data < n + 4)%nat -> fromBigEndian data n = None).
Proof.
  split; [|split; [|split]].
  - intros z. split; [reflexivity|].
    unfold toBigEndian. repeat constructor; apply Z.mod_pos_bound; lia.
  - intros z pre post Hz. by apply fromBigEndian_toBigEndian.
  - intros b0 b1 b2 b3 pre post H0 H1 H2 H3.
    exists (((b0 * 256 + b1) * 256 + b2) * 256 + b3).
    split; [|split].
    + unfold fromBigEndian. by rewrite drop_app_length.
    + lia.
    + unfold toBigEndian. change (2 ^ 24) with 16777216.
      change (2 ^ 16) with 65536. change (2 ^ 8) with 256.
      repeat f_equal; Z.to_euclidean_division_equations; lia.
  - intros data n Hl. unfold fromBigEndian.
    assert (Hd : (length (drop n data) < 4)%nat) by (rewrite length_drop; lia).
    destruct (drop n data) as [|b0 [|b1 [|b2 [|b3 rest]]]]; try done.
    cbn in Hd. lia.
Qed.

(** *** Looking an input up *)

Lemma inputsOf_setInput playerNumber count v s slot n :
  inputsOf (setInput playerNumber count v s) slot !! n =
  if decide (slot = playerNumber /\ n = count) then Some v else inputsOf s slot !! n.
Proof.
  unfold inputsOf at 1, setInput. cbn [inputs].
  destruct (decide (slot = playerNumber)) as [->|Hs].
  - rewrite lookup_insert_eq. destruct (decide (n = count)) as [->|Hn].
    + rewrite lookup_insert_eq. by rewrite decide_True.
    + rewrite lookup_insert_ne by done. rewrite decide_False; [done|]. by intros [_ ?].
  - rewrite lookup_insert_ne by done. rewrite decide_False; [done|]. by intros [? _].
Qed.

Lemma inputsOf_setButtons playerNumber q s slot :
  inputsOf (setButtons playerNumber q s) slot = inputsOf s slot.
Proof. reflexivity. Qed.

Lemma buttonsOf_setInput playerNumber count v s slot :
  buttonsOf (setInput playerNumber count v s) slot = buttonsOf s slot.
Proof. reflexivity. Qed.

Lemma buttonsOf_setButtons playerNumber q s slot :
  buttonsOf (setButtons playerNumber q s) slot =
  if decide (slot = playerNumber) then q else buttonsOf s slot.
Proof.
  unfold buttonsOf at 1, setButtons. cbn [buttons].
  destruct (decide (slot = playerNumber)) as [->|Hs].
  - by rewrite lookup_insert_eq.
  - by rewrite lookup_insert_ne.
Qed.

Lemma contains_Some s playerNum count :
  contains s playerNum count = true <-> is_Some (inputsOf s playerNum !! count).
Proof. unfold contains. apply bool_decide_eq_true. Qed.

Lemma contains_None s playerNum count :
  contains s playerNum count = false <-> inputsOf s playerNum !! count = None.
Proof.
  unfold contains. rewrite bool_decide_eq_false, <- eq_None_not_Some. done.
Qed.

(** The value [checkIfExists] stores when the counter is missing: the
    head of the queue, else the input of the counter before, else the
    pair of an absent controller. *)
Definition filler (s : Server) (playerNumber count : Z) : Z * Z :=
  match buttonsOf s playerNumber with
  | first :: _ => first
  | [] =>
      if contains s playerNumber (uint32 (count - 1))
      then input s playerNumber (uint32 (count - 1)) else (0, 0)
  end.

Lemma checkIfExists_missing playerNumber count s :
  contains s playerNumber count = false ->
  checkIfExists playerNumber count s =
  setInput playerNumber count (filler s playerNumber count)
           (match buttonsOf s playerNumber with
            | _ :: rest => setButtons playerNumber rest s
            | [] => s
            end).
Proof.
  intros Hc. unfold checkIfExists, filler. rewrite Hc. cbn [negb].
  destruct (buttonsOf s playerNumber) as [|first rest]; [|done].
  by destruct (contains s playerNumber (uint32 (count - 1))).
Qed.

(** The server that [checkIfExists] fills the counter of. *)
Definition unqueued (s : Server) (playerNumber : Z) : Server :=
  match buttonsOf s playerNumber with
  | _ :: rest => setButtons playerNumber rest s
  | [] => s
  end.

Lemma inputsOf_unqueued s playerNumber slot :
  inputsOf (unqueued s playerNumber) slot = inputsOf s slot.
Proof. unfold unqueued. by destruct (buttonsOf s playerNumber). Qed.

Lemma buttonsOf_unqueued s playerNumber slot :
  buttonsOf (unqueued s playerNumber) slot =
  if decide (slot = playerNumber) then tail (buttonsOf s playerNumber) else buttonsOf s slot.
Proof.
  unfold unqueued. destruct (buttonsOf s playerNumber) as [|first rest] eqn:Hq.
  - destruct (decide (slot = playerNumber)) as [->|]; [by rewrite Hq|done].
  - apply buttonsOf_setButtons.
Qed.

Lemma checkIfExists_stores playerNumber count s :
  contains s playerNumber count = false ->
  inputsOf (checkIfExists playerNumber count s) playerNumber !! count =
    Some (filler s playerNumber count) /\
  buttonsOf (checkIfExists playerNumber count s) playerNumber =
    tail (buttonsOf s playerNumber).
Proof.
  intros Hc. rewrite checkIfExists_missing by done. fold (unqueued s playerNumber). split.
  - rewrite inputsOf_setInput. by rewrite decide_True.
  - rewrite buttonsOf_setInput, buttonsOf_unqueued. by rewrite decide_True.
Qed.

Lemma checkIfExists_elsewhere playerNumber count s slot n :
  (slot, n) <> (playerNumber, count) ->
  inputsOf (checkIfExists playerNumber count s) slot !! n = inputsOf s slot !! n.
Proof.
  intros Hne. destruct (contains s playerNumber count) eqn:Hc.
  - unfold checkIfExists. by rewrite Hc.
  - rewrite checkIfExists_missing by done. fold (unqueued s playerNumber).
    rewrite inputsOf_setInput, inputsOf_unqueued.
    rewrite decide_False; [done|]. intros [-> ->]. done.
Qed.

Lemma checkIfExists_other_queue playerNumber count s slot :
  slot <> playerNumber ->
  buttonsOf (checkIfExists playerNumber count s) slot = buttonsOf s slot.
Proof.
  intros Hne. destruct (contains s playerNumber count) eqn:Hc.
  - unfold checkIfExists. by rewrite Hc.
  - rewrite checkIfExists_missing by done. fold (unqueued s playerNumber).
    rewrite buttonsOf_setInput, buttonsOf_unqueued. by rewrite decide_False.
Qed.

Lemma contains_checkIfExists playerNumber count s :
  contains (checkIfExists playerNumber count s) playerNumber count = true.
Proof.
  destruct (contains s playerNumber count) eqn:Hc.
  - unfold checkIfExists. by rewrite Hc.
  - rewrite checkIfExists_missing by done. apply contains_Some.
    rewrite inputsOf_setInput. rewrite decide_True by done. by eexists.
Qed.

(** X8.  [checkIfExists] makes sure the counter has an input and never
    overwrites one.  A stored counter leaves the server as it is.  A
    missing counter gets the head of the player's queue, which is taken
    off the queue; with an empty queue it gets the input of the counter
    before, and [(0, 0)] if that is missing too.  No other counter, no
    other player's inputs and no other player's queue change. *)
Theorem checkIfExists_fills playerNumber count s :
  let s' := checkIfExists playerNumber count s in
  contains s' playerNumber count = true /\
  (contains s playerNumber count = true -> s' = s) /\
  (contains s playerNumber count = false ->
     inputsOf s' playerNumber !! count = Some (filler s playerNumber count) /\
     buttonsOf s' playerNumber = tail (buttonsOf s playerNumber)) /\
  (forall slot n, (slot, n) <> (playerNumber, count) ->
     inputsOf s' slot !! n = inputsOf s slot !! n) /\
  (forall slot, slot <> playerNumber -> buttonsOf s' slot = buttonsOf s slot).
Proof.
  cbn zeta. split; [apply contains_checkIfExists|]. split; [|split; [|split]].
  - intros Hc. unfold checkIfExists. by rewrite Hc.
  - apply checkIfExists_stores.
  - intros slot n. apply checkIfExists_elsewhere.
  - intros slot. apply checkIfExists_other_queue.
Qed.

(** *** The request of a player *)

(** The four counters of a request are all stored. *)
Fixpoint allStored (turns : nat) (count playerNum : Z) (s : Server) : bool :=
  match turns with
  | O => true
  | S turns' =>
      contains s playerNum count && allStored turns' (uint32 (count + 1)) playerNum s
  end.

Lemma sendInput_loop_settled turns : forall count playerNum spectator s buffer,
  allStored turns count playerNum s = true ->
  sendInput_loop turns count playerNum spectator s buffer =
  (s, buffer ++ storedEntries turns count playerNum s).
Proof.
  induction turns as [|turns IH]; intros count playerNum spectator s buffer Ha;
    cbn [sendInput_loop storedEntries].
  - by rewrite app_nil_r.
  - cbn [allStored] in Ha. apply andb_true_iff in Ha as [Hc Ha].
    rewrite Hc, orb_true_r. unfold checkIfExists. rewrite Hc. cbn [negb].
    apply contains_Some in Hc as [[keys plugin] Hv].
    unfold input. rewrite Hv. cbn [fst snd].
    rewrite IH by done. unfold entry. by rewrite <- !app_assoc.
Qed.

Lemma allStored_keeps turns : forall count playerNum s s',
  (forall n v, inputsOf s playerNum !! n = Some v -> inputsOf s' playerNum !! n = Some v) ->
  allStored turns count playerNum s = true -> allStored turns count playerNum s' = true.
Proof.
  induction turns as [|turns IH]; intros count playerNum s s' Hk; [done|].
  cbn [allStored]. rewrite !andb_true_iff. intros [Hc Ha]. split; [|by eapply IH].
  apply contains_Some in Hc as [v Hv]. apply contains_Some. rewrite (Hk _ _ Hv). by eexists.
Qed.

Lemma sendInput_loop_player turns : forall count playerNum s buffer,
  let r := sendInput_loop turns count playerNum 0 s buffer in
  r.2 = buffer ++ storedEntries turns count playerNum r.1 /\
  allStored turns count playerNum r.1 = true.
Proof.
  induction turns as [|turns IH]; intros count playerNum s buffer;
    cbn [sendInput_loop storedEntries allStored Z.eqb orb].
  - cbn. by rewrite app_nil_r.
  - set (s1 := checkIfExists playerNum count s).
    pose proof (contains_checkIfExists playerNum count s) as Hc. fold s1 in Hc.
    apply contains_Some in Hc as [[keys plugin] Hv].
    unfold input. rewrite Hv. cbn [fst snd].
    specialize (IH (uint32 (count + 1)) playerNum s1
                   (((buffer ++ toBigEndian count) ++ toBigEndian keys) ++ [plugin])).
    pose proof (sendInput_loop_keeps turns (uint32 (count + 1)) playerNum 0 s1
                  (((buffer ++ toBigEndian count) ++ toBigEndian keys) ++ [plugin])
                  playerNum count _ Hv) as Hk.
    cbn zeta in IH.
    destruct (sendInput_loop turns (uint32 (count + 1)) playerNum 0 s1 _) as [s2 out].
    cbn [fst snd] in *. destruct IH as [-> Ha]. rewrite Hk. split.
    + unfold entry. by rewrite <- !app_assoc.
    + rewrite Ha, andb_true_r. apply contains_Some. by eexists.
Qed.

Lemma length_storedEntries turns : forall count playerNum s,
  allStored turns count playerNum s = true ->
  length (storedEntries turns count playerNum s) = (9 * turns)%nat.
Proof.
  induction turns as [|turns IH]; intros count playerNum s Ha; [done|].
  cbn [allStored] in Ha. apply andb_true_iff in Ha as [Hc Ha].
  cbn [storedEntries]. apply contains_Some in Hc as [[keys plugin] Hv].
  rewrite Hv, length_app, IH by done. cbn. lia.
Qed.

(** X9.  A request with [spectator = 0] is always answered, with one
    datagram to the sender of 39 bytes: the header [1, playerNum, 4] and
    an entry for each of the four counters from [count] on.  It stores
    what it sends and keeps what was stored.  After it the server is
    settled for these counters: the same request again, from any address
    and with any spectator byte, gets the same bytes and changes
    nothing. *)
Theorem player_request_settles count address playerNum s :
  let r := sendInput count address playerNum 0 s in
  let answer := [1; playerNum; 4] ++ storedEntries 4 count playerNum r.1 in
  r.2 = [(address, answer)] /\
  length answer = 39%nat /\
  allStored 4 count playerNum r.1 = true /\
  (forall slot n v, inputsOf s slot !! n = Some v -> inputsOf r.1 slot !! n = Some v) /\
  (forall address' spectator,
     sendInput count address' playerNum spectator r.1 = (r.1, [(address', answer)])).
Proof.
  cbn zeta. unfold sendInput.
  pose proof (sendInput_loop_player 4 count playerNum s [1; playerNum; 4]) as Hp.
  assert (Hk : forall slot n v, inputsOf s slot !! n = Some v ->
             inputsOf (sendInput_loop 4 count playerNum 0 s [1; playerNum; 4]).1 slot !! n
             = Some v) by (intros; by apply sendInput_loop_keeps).
  cbn zeta in Hp.
  destruct (sendInput_loop 4 count playerNum 0 s [1; playerNum; 4]) as [s1 out].
  cbn [fst snd] in *. destruct Hp as [-> Ha].
  assert (Hl : length ([1; playerNum; 4] ++ storedEntries 4 count playerNum s1) = 39%nat)
    by (rewrite length_app, length_storedEntries by done; reflexivity).
  split; [|split; [done|split; [done|split; [done|]]]].
  - rewrite Hl. reflexivity.
  - intros address' spectator. rewrite sendInput_loop_settled by done.
    rewrite Hl. reflexivity.
Qed.

(** *** Inputs are served in the order they arrived *)

(** The entries a player is sent for [turns] counters from [count] on
    when none of them is stored: each counter takes the head of the
    queue, and once the queue is empty the input served last. *)
Fixpoint servedEntries (turns : nat) (count : Z) (queue : list (Z * Z)) (last : Z * Z)
    : list Z :=
  match turns with
  | O => []
  | S turns' =>
      let v := match queue with first :: _ => first | [] => last end in
      entry count v.1 v.2 ++ servedEntries turns' (uint32 (count + 1)) (tail queue) v
  end.

Lemma uint32_small z : 0 <= z < 2 ^ 32 -> uint32 z = z.
Proof. intros Hz. unfold uint32. by apply Z.mod_small. Qed.

Lemma uint32_succ_offset count j : uint32 (uint32 (count + 1) + j) = uint32 (count + (j + 1)).
Proof.
  unfold uint32. rewrite Zplus_mod_idemp_l. f_equal. lia.
Qed.

Lemma sendInput_loop_fresh turns : forall count playerNum s buffer,
  0 <= count < 2 ^ 32 -> Z.of_nat turns <= 2 ^ 32 ->
  (forall j, 0 <= j < Z.of_nat turns -> inputsOf s playerNum !! uint32 (count + j) = None) ->
  let r := sendInput_loop turns count playerNum 0 s buffer in
  r.2 = buffer ++ servedEntries turns count (buttonsOf s playerNum)
                                (filler (setButtons playerNum [] s) playerNum count) /\
  buttonsOf r.1 playerNum = drop turns (buttonsOf s playerNum) /\
  (forall slot, slot <> playerNum ->
     buttonsOf r.1 slot = buttonsOf s slot /\ inputsOf r.1 slot = inputsOf s slot).
Proof.
  induction turns as [|turns IH]; intros count playerNum s buffer Hc Ht Hfresh;
    cbn [sendInput_loop servedEntries Z.eqb orb].
  { cbn. rewrite app_nil_r, drop_0. done. }
  assert (Hmiss : contains s playerNum count = false).
  { apply contains_None. rewrite <- (uint32_small count) at 1 by done.
    rewrite <- (Z.add_0_r count) at 1. apply Hfresh. lia. }
  destruct (checkIfExists_stores playerNum count s Hmiss) as [Hv Hb].
  pose proof (checkIfExists_elsewhere playerNum count s) as Hother.
  pose proof (checkIfExists_other_queue playerNum count s) as Hq.
  set (s1 := checkIfExists playerNum count s) in *.
  set (v := filler s playerNum count) in *.
  assert (Hv1 : v = match buttonsOf s playerNum with
                    | first :: _ => first
                    | [] => filler (setButtons playerNum [] s) playerNum count
                    end).
  { unfold v, filler. rewrite buttonsOf_setButtons, decide_True by done.
    by destruct (buttonsOf s playerNum). }
  unfold input. rewrite Hv. cbn [fst snd].
  assert (Hc1 : 0 <= uint32 (count + 1) < 2 ^ 32) by apply gameserver.uint32_range.
  assert (Hprev : uint32 (uint32 (count + 1) - 1) = count).
  { unfold uint32. rewrite Zminus_mod_idemp_l.
    replace (count + 1 - 1) with count by lia. by apply Z.mod_small. }
  assert (Hfresh1 : forall j, 0 <= j < Z.of_nat turns ->
            inputsOf s1 playerNum !! uint32 (uint32 (count + 1) + j) = None).
  { intros j Hj. rewrite uint32_succ_offset.
    rewrite Hother; [apply Hfresh; lia|].
    intros [= E]. revert E. unfold uint32. change (2 ^ 32) with 4294967296 in *.
    intros E. Z.to_euclidean_division_equations. lia. }
  specialize (IH (uint32 (count + 1)) playerNum s1
                 (((buffer ++ toBigEndian count) ++ toBigEndian v.1) ++ [v.2])
                 Hc1 ltac:(lia) Hfresh1).
  cbn zeta in IH.
  assert (Hfill1 : filler (setButtons playerNum [] s1) playerNum (uint32 (count + 1)) = v).
  { unfold filler. rewrite buttonsOf_setButtons, decide_True by done.
    rewrite Hprev. unfold contains, input. rewrite inputsOf_setButtons, Hv.
    by rewrite bool_decide_true by eauto. }
  destruct (sendInput_loop turns (uint32 (count + 1)) playerNum 0 s1 _) as [s2 out].
  cbn [fst snd] in *. destruct IH as (-> & Hb2 & Ho2).
  split; [|split].
  - rewrite Hb, Hfill1, <- Hv1. unfold entry. by rewrite <- !app_assoc.
  - rewrite Hb2, Hb. destruct (buttonsOf s playerNum); [|done]. cbn [tail]. by rewrite !drop_nil.
  - intros slot Hne. destruct (Ho2 slot Hne) as [-> ->]. split; [by apply Hq|].
    unfold inputsOf. apply map_eq. intros n.
    apply (Hother slot n). intros [= ? _]. done.
Qed.

Lemma length_servedEntries turns : forall count queue last,
  length (servedEntries turns count queue last) = (9 * turns)%nat.
Proof.
  induction turns as [|turns IH]; intros count queue last; [done|].
  cbn [servedEntries]. rewrite length_app, IH. cbn. lia.
Qed.

Lemma readPendingDatagrams_app l1 : forall l2 s,
  readPendingDatagrams (l1 ++ l2) s =
  r1 ← readPendingDatagrams l1 s;
  r2 ← readPendingDatagrams l2 r1.1;
  Some (r2.1, r1.2 ++ r2.2).
Proof.
  induction l1 as [|[sender data] l1 IH]; intros l2 s.
  - cbn. by destruct (readPendingDatagrams l2 s) as [[? ?]|].
  - cbn [app readPendingDatagrams].
    destruct (readDatagram sender data s) as [[s1 out1]|]; [|done].
    cbn [mbind option_bind fst snd]. rewrite IH.
    destruct (readPendingDatagrams l1 s1) as [[s2 out2]|]; [|done].
    cbn [mbind option_bind fst snd].
    destruct (readPendingDatagrams l2 s2) as [[s3 out3]|]; [|done].
    cbn. by rewrite app_assoc.
Qed.

(** The [KeyInfoClient] datagrams of a player that sends the inputs [l],
    each a frame counter, the keys and the plugin byte. *)
Definition keyInfos (sender : Addr) (slot : Z) (l : list (Z * Z * Z))
    : list (Addr * list Z) :=
  (fun ckp => (sender, keyInfoClient slot ckp.1.1 ckp.1.2 ckp.2)) <$> l.

Definition queued (l : list (Z * Z * Z)) : list (Z * Z) :=
  (fun ckp => (ckp.1.2, ckp.2)) <$> l.

Lemma readPendingDatagrams_keyInfos sender slot l : forall s,
  Forall (fun ckp => 0 <= ckp.1.1 < 2 ^ 32 /\ 0 <= ckp.1.2 < 2 ^ 32) l ->
  exists s1,
    readPendingDatagrams (keyInfos sender slot l) s = Some (s1, []) /\
    inputs s1 = inputs s /\
    buttonsOf s1 slot = buttonsOf s slot ++ queued l /\
    (forall other, other <> slot -> buttonsOf s1 other = buttonsOf s other).
Proof.
  induction l as [|[[c k] p] l IH]; intros s Hl.
  - exists s. cbn. by rewrite app_nil_r.
  - apply Forall_cons in Hl as [[Hc Hk] Hl]. cbn in Hc, Hk.
    cbn [keyInfos fmap list_fmap readPendingDatagrams fst snd].
    rewrite readDatagram_keyInfo by done. cbn [mbind option_bind fst snd].
    destruct (IH (setButtons slot (buttonsOf s slot ++ [(k, p)]) s) Hl)
      as (s1 & Heq & Hi & Hb & Ho).
    unfold keyInfos in Heq. rewrite Heq. cbn [mbind option_bind fst snd app].
    exists s1. split; [done|]. split; [done|]. split.
    + rewrite Hb, buttonsOf_setButtons, decide_True by done.
      cbn [queued fmap list_fmap fst snd]. by rewrite <- app_assoc.
    + intros other Hne. rewrite Ho by done.
      by rewrite buttonsOf_setButtons, decide_False.
Qed.

(** X10.  Inputs reach the players in the order they arrived, one per
    frame.  After the [KeyInfoClient] datagrams of a slot (their frame
    counters are not used), a request with [spectator = 0] at a counter
    from which nothing is stored is answered with one datagram: the
    counters [count], [count + 1], ... take the queued inputs from the
    head of the queue, the ones that were queued before first, and when
    the queue is empty the input served last is repeated (for the first
    counter: the input of the counter before, or [(0, 0)]).  The four
    inputs served leave the queue. *)
Theorem inputs_served_in_order sender requester slot l count s :
  Forall (fun ckp => 0 <= ckp.1.1 < 2 ^ 32 /\ 0 <= ckp.1.2 < 2 ^ 32) l ->
  0 <= count < 2 ^ 32 ->
  (forall j, 0 <= j < 4 -> inputsOf s slot !! uint32 (count + j) = None) ->
  let queue := buttonsOf s slot ++ queued l in
  let last := if contains s slot (uint32 (count - 1))
              then input s slot (uint32 (count - 1)) else (0, 0) in
  exists s',
    readPendingDatagrams
      (keyInfos sender slot l ++ [(requester, playerInputRequest slot count 0)]) s =
    Some (s', [(requester, [1; slot; 4] ++ servedEntries 4 count queue last)]) /\
    buttonsOf s' slot = drop 4 queue /\
    (forall other, other <> slot ->
       buttonsOf s' other = buttonsOf s other /\ inputsOf s' other = inputsOf s other).
Proof.
  intros Hl Hc Hfresh queue last.
  destruct (readPendingDatagrams_keyInfos sender slot l s Hl) as (s1 & Heq & Hi & Hb & Ho).
  assert (Hin : forall other, inputsOf s1 other = inputsOf s other)
    by (intros other; unfold inputsOf; by rewrite Hi).
  rewrite readPendingDatagrams_app, Heq. cbn [mbind option_bind fst snd app].
  cbn [readPendingDatagrams]. rewrite readDatagram_request by done.
  cbn [mbind option_bind fst snd]. unfold sendInput.
  destruct (sendInput_loop_fresh 4 count slot s1 [1; slot; 4]) as (Hout & Hq & Hrest);
    [done|done|by intros j Hj; rewrite Hin; apply Hfresh|].
  assert (Hlast : filler (setButtons slot [] s1) slot count = last).
  { unfold filler. rewrite buttonsOf_setButtons, decide_True by done.
    unfold last, contains, input. by rewrite !inputsOf_setButtons, !Hin. }
  rewrite Hlast, Hb in Hout. fold queue in Hout. rewrite Hb in Hq. fold queue in Hq.
  destruct (sendInput_loop 4 count slot 0 s1 [1; slot; 4]) as [s2 out].
  cbn [fst snd] in *. subst out.
  exists s2. split; [|split; [done|]].
  - rewrite length_app, length_servedEntries. cbn [length Nat.ltb Nat.leb Nat.add Nat.mul].
    by rewrite app_nil_r.
  - intros other Hne. destruct (Hrest other Hne) as [-> ->].
    by rewrite Ho, Hin.
Qed.

Lemma inputs_served_in_order_witness :
  Forall (fun ckp : Z * Z * Z => 0 <= ckp.1.1 < 2 ^ 32 /\ 0 <= ckp.1.2 < 2 ^ 32)
         [(900, 17, 2); (901, 34, 2)] /\
  0 <= 100 < 2 ^ 32 /\
  exists s',
    readPendingDatagrams
      (keyInfos 7%nat 0 [(900, 17, 2); (901, 34, 2)] ++
       [(8%nat, playerInputRequest 0 100 0)]) emptyServer =
    Some (s', [(8%nat, [1; 0; 4] ++
                       entry 100 17 2 ++ entry 101 34 2 ++ entry 102 34 2 ++
                       entry 103 34 2)]).
Proof.
  assert (Hl : Forall (fun ckp : Z * Z * Z => 0 <= ckp.1.1 < 2 ^ 32 /\ 0 <= ckp.1.2 < 2 ^ 32)
                      [(900, 17, 2); (901, 34, 2)])
    by (repeat constructor; cbn; lia).
  assert (Hc : 0 <= 100 < 2 ^ 32) by lia.
  split; [exact Hl|]. split; [exact Hc|].
  destruct (inputs_served_in_order 7%nat 8%nat 0 [(900, 17, 2); (901, 34, 2)] 100
              emptyServer Hl Hc) as (s' & Heq & _).
  - intros j Hj. apply lookup_empty.
  - exists s'. etrans; [exact Heq|]. reflexivity.
Defined.

End cppserver.

(** ** The first relay of server.cpp *)

Module cppserver_first.

(** The earlier revision of server.cpp serves the four controllers in
    one datagram.  An input is one 32-bit word of keys; [inputs] and
    [buttons], members of [Server] declared in server.h, are one hash
    from frame counter to keys and one queue of keys for each
    controller, maps from the controller number here.  Words go into
    and come out of a datagram by [memcpy], in the byte order of the
    host. *)
Definition Addr := nat.

Record Server := mkServer {
  inputs : gmap Z (gmap Z Z);
  buttons : gmap Z (list Z)
}.

Definition emptyServer : Server := mkServer ∅ ∅.

Definition inputsOf (s : Server) (playerNumber : Z) : gmap Z Z :=
  match inputs s !! playerNumber with Some h => h | None => ∅ end.

Definition buttonsOf (s : Server) (playerNumber : Z) : list Z :=
  match buttons s !! playerNumber with Some q => q | None => [] end.

Definition setInput (playerNumber count v : Z) (s : Server) : Server :=
  mkServer (<[playerNumber := <[count := v]> (inputsOf s playerNumber)]> (inputs s))
           (buttons s).

Definition setButtons (playerNumber : Z) (q : list Z) (s : Server) : Server :=
  mkServer (inputs s) (<[playerNumber := q]> (buttons s)).

Definition contains (s : Server) (playerNumber count : Z) : bool :=
  bool_decide (is_Some (inputsOf s playerNumber !! count)).

Definition input (s : Server) (playerNumber count : Z) : Z :=
  match inputsOf s playerNumber !! count with Some v => v | None => 0 end.

Definition checkIfExists (playerNumber count : Z) (s : Server) : Server :=
  if negb (contains s playerNumber count) then
    match buttonsOf s playerNumber with
    | first :: rest => setInput playerNumber count first (setButtons playerNumber rest s)
    | [] =>
        if contains s playerNumber (uint32 (count - 1)) then
          setInput playerNumber count (input s playerNumber (uint32 (count - 1))) s
        else setInput playerNumber count 0 s
    end
  else s.

(** What [checkIfExists] does to the hash and the queue of its
    controller. *)
Definition fill (count : Z) (hq : gmap Z Z * list Z) : gmap Z Z * list Z :=
  let '(h, q) := hq in
  match h !! count with
  | Some _ => (h, q)
  | None =>
      match q with
      | first :: rest => (<[count := first]> h, rest)
      | [] =>
          (<[count := match h !! uint32 (count - 1) with Some v => v | None => 0 end]> h, [])
      end
  end.

Definition view (s : Server) (playerNumber : Z) : gmap Z Z * list Z :=
  (inputsOf s playerNumber, buttonsOf s playerNumber).

Section Host.

(** [hostBytes z]: the four bytes of the [uint32_t] [z] in memory;
    [hostWord data at]: the [uint32_t] that [memcpy] reads from the four
    bytes of [data] at offset [at], undefined past the end. *)
Variable hostBytes : Z -> list Z.
Variable hostWord : list Z -> nat -> option Z.
Hypothesis hostBytes_length : forall z, length (hostBytes z) = 4%nat.
Hypothesis hostWord_hostBytes : forall z pre post,
  0 <= z < 2 ^ 32 -> hostWord (pre ++ hostBytes z ++ post) (length pre) = Some z.

Fixpoint sendInput_loop (players : list Z) (count : Z) (s : Server) (buffer : list Z)
    : Server * list Z :=
  match players with
  | [] => (s, buffer)
  | i :: rest =>
      let s := checkIfExists i count s in
      sendInput_loop rest count s (buffer ++ hostBytes (input s i count))
  end.

Definition sendInput (count : Z) (address : Addr) (s : Server)
    : Server * list (Addr * list Z) :=
  let buffer := [1] ++ hostBytes count in
  let '(s, buffer) := sendInput_loop [0; 1; 2; 3] count s buffer in
  (s, [(address, buffer)]).

(** One turn of the loop of [readPendingDatagrams].  The player number
    and the counter are read before the type of the packet is looked
    at. *)
Definition readDatagram (sender : Addr) (incomingData : list Z) (s : Server)
    : option (Server * list (Addr * list Z)) :=
  playerNumber ← incomingData !! 1%nat;
  count ← hostWord incomingData 2;
  kind ← incomingData !! 0%nat;
  if kind =? 0 then
    keys ← hostWord incomingData 6;
    let s := setButtons playerNumber (buttonsOf s playerNumber ++ [keys]) s in
    let '(s, out1) := sendInput (uint32 (count + 2)) sender s in
    let '(s, out2) := sendInput (uint32 (count + 3)) sender s in
    Some (s, out1 ++ out2)
  else if kind =? 2 then Some (sendInput count sender s)
  else Some (s, []).

Fixpoint readPendingDatagrams (pending : list (Addr * list Z)) (s : Server)
    : option (Server * list (Addr * list Z)) :=
  match pending with
  | [] => Some (s, [])
  | (sender, incomingData) :: rest =>
      r ← readDatagram sender incomingData s;
      r' ← readPendingDatagrams rest r.1;
      Some (r'.1, r.2 ++ r'.2)
  end.

(** The datagram a client sends with its keys, and the one the server
    answers with: the counter and the keys of the four controllers. *)
Definition keyInfoClient (playerNumber count keys : Z) : list Z :=
  [0; playerNumber] ++ hostBytes count ++ hostBytes keys.

Definition keyInfoServer (count : Z) (keys : list Z) : list Z :=
  [1] ++ hostBytes count ++ concat (hostBytes <$> keys).

(** The keys controller [i] is served at [count]. *)
Definition served (s : Server) (count i : Z) : Z :=
  match (fill count (view s i)).1 !! count with Some v => v | None => 0 end.

Lemma view_setButtons playerNumber q s i :
  view (setButtons playerNumber q s) i =
  if decide (i = playerNumber) then (inputsOf s i, q) else view s i.
Proof.
  clear. unfold view, inputsOf, buttonsOf, setButtons. cbn [inputs buttons].
  destruct (decide (i = playerNumber)) as [->|Hne].
  - by rewrite lookup_insert_eq.
  - by rewrite lookup_insert_ne.
Qed.

Lemma view_setInput playerNumber count v s i :
  view (setInput playerNumber count v s) i =
  if decide (i = playerNumber) then (<[count := v]> (inputsOf s i), buttonsOf s i)
  else view s i.
Proof.
  clear. unfold view, inputsOf at 1, buttonsOf, setInput. cbn [inputs buttons].
  destruct (decide (i = playerNumber)) as [->|Hne].
  - by rewrite lookup_insert_eq.
  - by rewrite lookup_insert_ne.
Qed.

Lemma view_checkIfExists playerNumber count s i :
  view (checkIfExists playerNumber count s) i =
  if decide (i = playerNumber) then fill count (view s i) else view s i.
Proof.
  clear. unfold checkIfExists, contains, input, fill.
  destruct (decide (i = playerNumber)) as [->|Hne].
  - unfold view at 2. destruct (inputsOf s playerNumber !! count) as [v|] eqn:Hc.
    + by rewrite bool_decide_true by eauto.
    + rewrite bool_decide_false by (by intros [? ?]). cbn [negb].
      destruct (buttonsOf s playerNumber) as [|first rest] eqn:Hq.
      * destruct (inputsOf s playerNumber !! uint32 (count - 1)) as [v|] eqn:Hp.
        -- rewrite bool_decide_true by eauto. rewrite view_setInput, decide_True by done.
           by rewrite Hq.
        -- rewrite bool_decide_false by (by intros [? ?]).
           rewrite view_setInput, decide_True by done. by rewrite Hq.
      * rewrite view_setInput, decide_True by done.
        unfold buttonsOf, inputsOf, setButtons. cbn [buttons inputs].
        by rewrite lookup_insert_eq.
  - destruct (negb _); [|done].
    destruct (buttonsOf s playerNumber) as [|first rest].
    + destruct (bool_decide _); by rewrite view_setInput, decide_False.
    + by rewrite view_setInput, decide_False, view_setButtons, decide_False.
Qed.

Lemma input_view s i count :
  input s i count = match (view s i).1 !! count with Some v => v | None => 0 end.
Proof. reflexivity. Qed.

(** The datagram of [sendInput], and the server after it. *)
Lemma sendInput_eq count address s :
  exists s',
    sendInput count address s =
      (s', [(address,
             keyInfoServer count
               [served s count 0; served s count 1; served s count 2; served s count 3])]) /\
    (forall i, view s' i =
               if decide (0 <= i < 4) then fill count (view s i) else view s i).
Proof.
  clear hostWord hostWord_hostBytes hostBytes_length.
  unfold sendInput. cbn [sendInput_loop].
  set (s1 := checkIfExists 0 count s).
  set (s2 := checkIfExists 1 count s1).
  set (s3 := checkIfExists 2 count s2).
  set (s4 := checkIfExists 3 count s3).
  assert (H1 : forall i, view s1 i = if decide (i = 0) then fill count (view s i) else view s i)
    by (intros; apply view_checkIfExists).
  assert (H2 : forall i, view s2 i =
            if decide (i = 1) then fill count (view s i) else view s1 i).
  { intros i. unfold s2. rewrite view_checkIfExists.
    destruct (decide (i = 1)) as [->|]; [|done]. by rewrite H1, decide_False. }
  assert (H3 : forall i, view s3 i =
            if decide (i = 2) then fill count (view s i) else view s2 i).
  { intros i. unfold s3. rewrite view_checkIfExists.
    destruct (decide (i = 2)) as [->|]; [|done]. by rewrite H2, decide_False, H1, decide_False. }
  assert (H4 : forall i, view s4 i =
            if decide (i = 3) then fill count (view s i) else view s3 i).
  { intros i. unfold s4. rewrite view_checkIfExists.
    destruct (decide (i = 3)) as [->|]; [|done].
    by rewrite H3, decide_False, H2, decide_False, H1, decide_False. }
  exists s4. split.
  - rewrite !input_view. rewrite (H1 0), (H2 1), (H3 2), (H4 3). rewrite !decide_True by done.
    unfold keyInfoServer, served. cbn [fmap list_fmap concat].
    by rewrite app_nil_r, <- !app_assoc.
  - intros i. rewrite H4, H3, H2, H1.
    destruct (decide (i = 3)) as [->|]; [by rewrite decide_True by lia|].
    destruct (decide (i = 2)) as [->|]; [by rewrite decide_True by lia|].
    destruct (decide (i = 1)) as [->|]; [by rewrite decide_True by lia|].
    destruct (decide (i = 0)) as [->|]; [by rewrite decide_True by lia|].
    rewrite decide_False; [done|lia].
Qed.

Lemma length_keyInfoServer count k0 k1 k2 k3 :
  length (keyInfoServer count [k0; k1; k2; k3]) = 21%nat.
Proof.
  clear hostWord hostWord_hostBytes.
  unfold keyInfoServer. cbn [fmap list_fmap concat].
  rewrite !length_app, !hostBytes_length. reflexivity.
Qed.

(** X11.  The first relay answers a client two frames ahead.  A
    [KeyInfoClient] of controller [playerNumber] (one of 0..3) at
    counter [count] is answered with two datagrams to its sender, of 21
    bytes each: the inputs of the four controllers for [count + 2] and
    for [count + 3].  When the controller has nothing queued and nothing
    stored for these two counters, both carry the keys just sent in its
    place: the first takes them from the queue, the second repeats
    them. *)
Theorem key_info_answered_two_frames_ahead sender playerNumber count keys s :
  0 <= playerNumber < 4 -> 0 <= count < 2 ^ 32 -> 0 <= keys < 2 ^ 32 ->
  buttonsOf s playerNumber = [] ->
  inputsOf s playerNumber !! uint32 (count + 2) = None ->
  inputsOf s playerNumber !! uint32 (count + 3) = None ->
  exists s' first second,
    readDatagram sender (keyInfoClient playerNumber count keys) s =
      Some (s', [(sender, keyInfoServer (uint32 (count + 2)) first);
                 (sender, keyInfoServer (uint32 (count + 3)) second)]) /\
    length (keyInfoServer (uint32 (count + 2)) first) = 21%nat /\
    length (keyInfoServer (uint32 (count + 3)) second) = 21%nat /\
    first !! Z.to_nat playerNumber = Some keys /\
    second !! Z.to_nat playerNumber = Some keys /\
    buttonsOf s' playerNumber = [] /\
    inputsOf s' playerNumber !! uint32 (count + 2) = Some keys /\
    inputsOf s' playerNumber !! uint32 (count + 3) = Some keys.
Proof.
  intros Hp Hc Hk Hq H2 H3.
  assert (Hw2 : hostWord (keyInfoClient playerNumber count keys) 2 = Some count).
  { unfold keyInfoClient.
    by apply (hostWord_hostBytes count [0; playerNumber] (hostBytes keys)). }
  assert (Hw6 : hostWord (keyInfoClient playerNumber count keys) 6 = Some keys).
  { unfold keyInfoClient.
    replace ([0; playerNumber] ++ hostBytes count ++ hostBytes keys)
      with (([0; playerNumber] ++ hostBytes count) ++ hostBytes keys ++ [])
      by (by rewrite app_nil_r, <- app_assoc).
    replace 6%nat with (length ([0; playerNumber] ++ hostBytes count))
      by (rewrite length_app, hostBytes_length; reflexivity).
    by apply hostWord_hostBytes. }
  assert (Hl1 : keyInfoClient playerNumber count keys !! 1%nat = Some playerNumber)
    by reflexivity.
  assert (Hl0 : keyInfoClient playerNumber count keys !! 0%nat = Some 0) by reflexivity.
  unfold readDatagram. rewrite Hl1, Hw2, Hl0, Hw6.
  cbn [mbind option_bind Z.eqb]. rewrite Hq. cbn [app].
  set (s0 := setButtons playerNumber [keys] s).
  set (c2 := uint32 (count + 2)). set (c3 := uint32 (count + 3)).
  fold c2 in H2. fold c3 in H3.
  assert (Hne : c3 <> c2).
  { unfold c2, c3, uint32. change (2 ^ 32) with 4294967296 in *.
    Z.to_euclidean_division_equations. lia. }
  assert (Hprev : uint32 (c3 - 1) = c2).
  { unfold c2, c3, uint32. rewrite Zminus_mod_idemp_l. f_equal. lia. }
  assert (Hv0 : view s0 playerNumber = (inputsOf s playerNumber, [keys]))
    by (unfold s0; by rewrite view_setButtons, decide_True).
  destruct (sendInput_eq c2 sender s0) as (s1 & -> & Hv1).
  destruct (sendInput_eq c3 sender s1) as (s2 & -> & Hv2).
  assert (Hf1 : fill c2 (view s0 playerNumber) = (<[c2 := keys]> (inputsOf s playerNumber), [])).
  { rewrite Hv0. unfold fill. by rewrite H2. }
  assert (Hp1 : view s1 playerNumber = (<[c2 := keys]> (inputsOf s playerNumber), [])).
  { rewrite Hv1, decide_True by done. exact Hf1. }
  assert (Hf2 : fill c3 (view s1 playerNumber) =
                (<[c3 := keys]> (<[c2 := keys]> (inputsOf s playerNumber)), [])).
  { rewrite Hp1. unfold fill. rewrite lookup_insert_ne by done. rewrite H3.
    by rewrite Hprev, lookup_insert_eq. }
  assert (Hp2 : view s2 playerNumber =
                (<[c3 := keys]> (<[c2 := keys]> (inputsOf s playerNumber)), [])).
  { rewrite Hv2, decide_True by done. exact Hf2. }
  assert (Hs1 : served s0 c2 playerNumber = keys)
    by (unfold served; rewrite Hf1; cbn [fst]; by rewrite lookup_insert_eq).
  assert (Hs2 : served s1 c3 playerNumber = keys)
    by (unfold served; rewrite Hf2; cbn [fst]; by rewrite lookup_insert_eq).
  unfold view in Hp2. injection Hp2 as Hi2 Hb2.
  eexists s2, _, _. split; [reflexivity|].
  split; [apply length_keyInfoServer|]. split; [apply length_keyInfoServer|].
  assert (Hcase : playerNumber = 0 \/ playerNumber = 1 \/ playerNumber = 2 \/ playerNumber = 3)
    by lia.
  split; [|split; [|split; [done|split]]].
  - destruct Hcase as [E'|[E'|[E'|E']]]; rewrite E' in *; cbn; by rewrite Hs1.
  - destruct Hcase as [E'|[E'|[E'|E']]]; rewrite E' in *; cbn; by rewrite Hs2.
  - by rewrite Hi2, lookup_insert_ne, lookup_insert_eq.
  - by rewrite Hi2, lookup_insert_eq.
Qed.

End Host.

(** The bytes of a little-endian host. *)
Definition littleEndian (z : Z) : list Z :=
  [z mod 256; z / 2 ^ 8 mod 256; z / 2 ^ 16 mod 256; z / 2 ^ 24 mod 256].

Definition fromLittleEndian (data : list Z) (at_ : nat) : option Z :=
  match drop at_ data with
  | b0 :: b1 :: b2 :: b3 :: _ => Some (((b3 * 256 + b2) * 256 + b1) * 256 + b0)
  | _ => None
  end.

Lemma fromLittleEndian_littleEndian z pre post :
  0 <= z < 2 ^ 32 -> fromLittleEndian (pre ++ littleEndian z ++ post) (length pre) = Some z.
Proof.
  intros Hz. unfold fromLittleEndian. rewrite drop_app_length. cbn.
  f_equal. change (2 ^ 24) with 16777216. change (2 ^ 16) with 65536.
  change (2 ^ 8) with 256. change (2 ^ 32) with 4294967296 in Hz.
  Z.to_euclidean_division_equations. lia.
Qed.

Lemma key_info_answered_two_frames_ahead_witness :
  (forall z, length (littleEndian z) = 4%nat) /\
  (forall z pre post, 0 <= z < 2 ^ 32 ->
     fromLittleEndian (pre ++ littleEndian z ++ post) (length pre) = Some z) /\
  exists s' first second,
    readDatagram littleEndian fromLittleEndian 7%nat
                 (keyInfoClient littleEndian 1 100 2864434397) emptyServer =
      Some (s', [(7%nat, keyInfoServer littleEndian 102 first);
                 (7%nat, keyInfoServer littleEndian 103 second)]) /\
    first !! 1%nat = Some 2864434397 /\
    second !! 1%nat = Some 2864434397.
Proof.
  split; [reflexivity|]. split; [exact fromLittleEndian_littleEndian|].
  destruct (key_info_answered_two_frames_ahead littleEndian fromLittleEndian
              (fun z => eq_refl) fromLittleEndian_littleEndian 7%nat 1 100 2864434397
              emptyServer)
    as (s' & first & second & Heq & _ & _ & H1 & H2 & _);
    [lia|lia|lia|reflexivity|reflexivity|reflexivity|].
  exists s', first, second. split; [exact Heq|]. split; [exact H1|exact H2].
Defined.

End cppserver_first.

(** ** Package lobbyserver *)

Module lobbyserver.

Abbreviation GameServer := gameserver.GameServer.
Abbreviation Client := gameserver.Client.
Abbreviation Conn := gameserver.Conn.

(** *** Constants *)

Definition Accepted : Z := 0.
Definition BadPassword : Z := 1.
Definition MismatchVersion : Z := 2.
Definition RoomFull : Z := 3.
Definition DuplicateName : Z := 4.
Definition RoomDeleted : Z := 5.
Definition BadName : Z := 6.
Definition BadEmulator : Z := 7.
Definition BadAuth : Z := 8.
Definition Other : Z := 9.

Definition TypeRequestPlayers := "request_players"%string.
Definition TypeReplyPlayers := "reply_players"%string.
Definition TypeRequestGetRooms := "request_get_rooms"%string.
Definition TypeReplyGetRooms := "reply_get_rooms"%string.
Definition TypeRequestCreateRoom := "request_create_room"%string.
Definition TypeReplyCreateRoom := "reply_create_room"%string.
Definition TypeRequestJoinRoom := "request_join_room"%string.
Definition TypeReplyJoinRoom := "reply_join_room"%string.
Definition TypeRequestChatMessage := "request_chat_message"%string.
Definition TypeReplyChatMessage := "reply_chat_message"%string.
Definition TypeRequestBeginGame := "request_begin_game"%string.
Definition TypeReplyBeginGame := "reply_begin_game"%string.
Definition TypeRequestMotd := "request_motd"%string.
Definition TypeReplyMotd := "reply_motd"%string.
Definition TypeRequestVersion := "request_version"%string.
Definition TypeReplyVersion := "reply_version"%string.

Definition NetplayAPIVersion := "MPN-4"%string.

(** *** Data *)

(** [Logger] is left out. *)
Record LobbyServer := mkLobbyServer {
  GameServers : gmap string GameServer;
  Name : string;
  Motd : string;
  BasePort : Z;
  MaxGames : Z;
  DisableBroadcast : bool;
  EnableAuth : bool;
  ActivePorts : list Z
}.

(** The field [Type] of the source is [MsgType] here. *)
Record SocketMessage := mkSocketMessage {
  Features : gmap string string;
  GameName : string;
  Protected : bool;
  Password : string;
  Message : string;
  ClientSha : string;
  Emulator : string;
  PlayerName : string;
  RoomName : string;
  MD5 : string;
  AuthTime : string;
  MsgType : string;
  Auth : string;
  PlayerNames : list string;
  Accept : Z;
  NetplayVersion : string;
  Port : Z
}.

(** [var sendMessage SocketMessage] *)
Definition zeroMessage : SocketMessage :=
  mkSocketMessage ∅ "" false "" "" "" "" "" "" "" "" "" "" [] 0 "" 0.

Definition set_GameServers (x : gmap string GameServer) (s : LobbyServer) : LobbyServer :=
  let '(mkLobbyServer _ a2 a3 a4 a5 a6 a7 a8) := s in
  mkLobbyServer x a2 a3 a4 a5 a6 a7 a8.

Definition set_ActivePorts (x : list Z) (s : LobbyServer) : LobbyServer :=
  let '(mkLobbyServer a1 a2 a3 a4 a5 a6 a7 _) := s in
  mkLobbyServer a1 a2 a3 a4 a5 a6 a7 x.

Definition set_Features (x : gmap string string) (m : SocketMessage) : SocketMessage :=
  let '(mkSocketMessage _ a2 a3 a4 a5 a6 a7 a8 a9 a10 a11 a12 a13 a14 a15 a16 a17) := m in
  mkSocketMessage x a2 a3 a4 a5 a6 a7 a8 a9 a10 a11 a12 a13 a14 a15 a16 a17.

Definition set_GameName (x : string) (m : SocketMessage) : SocketMessage :=
  let '(mkSocketMessage a1 _ a3 a4 a5 a6 a7 a8 a9 a10 a11 a12 a13 a14 a15 a16 a17) := m in
  mkSocketMessage a1 x a3 a4 a5 a6 a7 a8 a9 a10 a11 a12 a13 a14 a15 a16 a17.

Definition set_Protected (x : bool) (m : SocketMessage) : SocketMessage :=
  let '(mkSocketMessage a1 a2 _ a4 a5 a6 a7 a8 a9 a10 a11 a12 a13 a14 a15 a16 a17) := m in
  mkSocketMessage a1 a2 x a4 a5 a6 a7 a8 a9 a10 a11 a12 a13 a14 a15 a16 a17.

Definition set_Message (x : string) (m : SocketMessage) : SocketMessage :=
  let '(mkSocketMessage a1 a2 a3 a4 _ a6 a7 a8 a9 a10 a11 a12 a13 a14 a15 a16 a17) := m in
  mkSocketMessage a1 a2 a3 a4 x a6 a7 a8 a9 a10 a11 a12 a13 a14 a15 a16 a17.

Definition set_PlayerName (x : string) (m : SocketMessage) : SocketMessage :=
  let '(mkSocketMessage a1 a2 a3 a4 a5 a6 a7 _ a9 a10 a11 a12 a13 a14 a15 a16 a17) := m in
  mkSocketMessage a1 a2 a3 a4 a5 a6 a7 x a9 a10 a11 a12 a13 a14 a15 a16 a17.

Definition set_RoomName (x : string) (m : SocketMessage) : SocketMessage :=
  let '(mkSocketMessage a1 a2 a3 a4 a5 a6 a7 a8 _ a10 a11 a12 a13 a14 a15 a16 a17) := m in
  mkSocketMessage a1 a2 a3 a4 a5 a6 a7 a8 x a10 a11 a12 a13 a14 a15 a16 a17.

Definition set_MD5 (x : string) (m : SocketMessage) : SocketMessage :=
  let '(mkSocketMessage a1 a2 a3 a4 a5 a6 a7 a8 a9 _ a11 a12 a13 a14 a15 a16 a17) := m in
  mkSocketMessage a1 a2 a3 a4 a5 a6 a7 a8 a9 x a11 a12 a13 a14 a15 a16 a17.

Definition set_MsgType (x : string) (m : SocketMessage) : SocketMessage :=
  let '(mkSocketMessage a1 a2 a3 a4 a5 a6 a7 a8 a9 a10 a11 _ a13 a14 a15 a16 a17) := m in
  mkSocketMessage a1 a2 a3 a4 a5 a6 a7 a8 a9 a10 a11 x a13 a14 a15 a16 a17.

Definition set_PlayerNames (x : list string) (m : SocketMessage) : SocketMessage :=
  let '(mkSocketMessage a1 a2 a3 a4 a5 a6 a7 a8 a9 a10 a11 a12 a13 _ a15 a16 a17) := m in
  mkSocketMessage a1 a2 a3 a4 a5 a6 a7 a8 a9 a10 a11 a12 a13 x a15 a16 a17.

Definition set_Accept (x : Z) (m : SocketMessage) : SocketMessage :=
  let '(mkSocketMessage a1 a2 a3 a4 a5 a6 a7 a8 a9 a10 a11 a12 a13 a14 _ a16 a17) := m in
  mkSocketMessage a1 a2 a3 a4 a5 a6 a7 a8 a9 a10 a11 a12 a13 a14 x a16 a17.

Definition set_Port (x : Z) (m : SocketMessage) : SocketMessage :=
  let '(mkSocketMessage a1 a2 a3 a4 a5 a6 a7 a8 a9 a10 a11 a12 a13 a14 a15 a16 _) := m in
  mkSocketMessage a1 a2 a3 a4 a5 a6 a7 a8 a9 a10 a11 a12 a13 a14 a15 a16 x.

(** *** Effects *)

Inductive Goroutine :=
| MonitorActivity (port : Z)
| ManageBuffer (port : Z)
| ManagePlayers (port : Z)
| watchGameServer (name : string) (port : Z).


(** [Send]: [sendData], whose error is only logged.  [Publish]: the
    request that [publishDiscord] posts to the webhook [channel], whose
    error is only logged.  [Panic]: a run-time panic; it is the last
    event of the handler. *)
Inductive Event :=
| Send (ws : Conn) (m : SocketMessage)
| Log (what : string)
| Room (e : gameserver.Event)
| Go (what : Goroutine)
| Publish (message channel : string)
| Panic (what : string).

Definition isSend (e : Event) : bool :=
  match e with Send _ _ => true | _ => false end.

Definition sends (ev : list Event) : list Event := List.filter isSend ev.

(** *** strconv.ParseInt(s, 10, 64)

    An optional sign, then at least one decimal digit and nothing else;
    an error ([None]) on any other text and when the value is not an
    [int64]. *)
Definition digit (c : ascii) : option Z :=
  let n := Z.of_N (N_of_ascii c) in
  if (48 <=? n) && (n <=? 57) then Some (n - 48) else None.

Fixpoint parseDigits (s : string) (acc : Z) : option Z :=
  match s with
  | EmptyString => Some acc
  | String c rest =>
      match digit c with
      | Some d => parseDigits rest (10 * acc + d)
      | None => None
      end
  end.

Definition ParseUint (s : string) : option Z :=
  match s with
  | EmptyString => None
  | _ => un ← parseDigits s 0; if un <? 2 ^ 64 then Some un else None
  end.

Definition ParseInt (s : string) : option Z :=
  match s with
  | EmptyString => None
  | String c rest =>
      let '(neg, body) :=
        if Ascii.eqb c "+" then (false, rest)
        else if Ascii.eqb c "-" then (true, rest)
        else (false, s) in
      un ← ParseUint body;
      if neg then (if un >? 2 ^ 63 then None else Some (- un))
      else (if un >=? 2 ^ 63 then None else Some un)
  end.

(** *** Time

    A [time.Time] is a number of nanoseconds since the Unix epoch and a
    [time.Duration] an [int64] of nanoseconds.  [Time.Sub] saturates. *)
Definition minDuration : Z := - 2 ^ 63.
Definition maxDuration : Z := 2 ^ 63 - 1.
Definition Minute : Z := 60 * 1000000000.

Definition UnixMilli (msec : Z) : Z := msec * 1000000.

Definition Sub (t u : Z) : Z :=
  let d := t - u in
  if d <? minDuration then minDuration
  else if d >? maxDuration then maxDuration
  else d.

(** [float64(d)] for an [int64] [d]: the nearest double, ties to even.
    The value of that double is an integer, which is what is returned. *)
Definition float64_of_int (d : Z) : Z :=
  let a := Z.abs d in
  if a <? 2 ^ 53 then d
  else
    let e := Z.log2 a - 52 in
    let q := a / 2 ^ e in
    let r := a mod 2 ^ e in
    let half := 2 ^ (e - 1) in
    let q' := if (r >? half) || ((r =? half) && Z.odd q) then q + 1 else q in
    Z.sgn d * (q' * 2 ^ e).

(** [time.Duration(x)] for a double of integer value [x].  When [x] is
    not an [int64] the Go specification leaves the result to the
    implementation; [overflow] is that result. *)
Definition int64_of_float (overflow : Z) (x : Z) : Z :=
  if (- 2 ^ 63 <=? x) && (x <? 2 ^ 63) then x else overflow.

(** What the compilers of two build targets of the repository give. *)
Definition overflow_amd64 : Z := - 2 ^ 63.
Definition overflow_arm64 : Z := 2 ^ 63 - 1.

(** *** fmt.Sprintf("%x", bytes) *)
Definition hexDigit (n : Z) : ascii :=
  ascii_of_N (Z.to_N (if n <? 10 then 48 + n else 87 + n)).

Fixpoint hex (bytes : list Z) : string :=
  match bytes with
  | [] => EmptyString
  | b :: rest => String (hexDigit (b / 16)) (String (hexDigit (b mod 16)) (hex rest))
  end.

(** *** The handler

    What the handler takes from outside the sources is a parameter:
    - [range_map]: the order in which [range] enumerates a map;
    - [Getenv], [ToUpper], [Sum256]: [os.Getenv], [strings.ToUpper] and
      the SHA-256 digest of a byte string;
    - [overflow]: see [int64_of_float];
    - [remoteIP]: the host part of [ws.Request().RemoteAddr] (empty when
      [net.SplitHostPort] fails);
    - [createTCPServer], [createUDPServer]: the two methods of
      [GameServer] that bind the listeners, which are not in the sources.
      The first returns the port, or [0]; the second reports an error
      with [false];
    - [getVersion]: the revision in the build information;
    - [NewRequest]: whether [retryablehttp.NewRequest] returns a request
      for the URL it is given; it returns an error, and no request, for
      a URL that does not parse. *)

Section Handler.

Local Set Default Proof Using "Type*".

Variable range_map : forall A : Type, gmap string A -> list (string * A).
Hypothesis range_map_perm :
  forall (A : Type) (m : gmap string A), range_map A m ≡ₚ map_to_list m.

Variable Getenv : string -> string.
Variable ToUpper : string -> string.
Variable Sum256 : string -> list Z.
Variable overflow : Z.
Variable remoteIP : Conn -> string.
Variable createTCPServer : Z -> Z -> GameServer -> GameServer * Z.
Variable createUDPServer : GameServer -> GameServer * bool.
Variable getVersion : string.
Variable NewRequest : string -> bool.

Arguments range_map {A} _.

(** Proofs start by dropping the parameters their statement does not
    name, so that the solvers cannot pick them up. *)
Ltac only_range :=
  clear Getenv ToUpper Sum256 overflow remoteIP createTCPServer createUDPServer getVersion
        NewRequest.
Ltac no_parameters :=
  clear range_map_perm Getenv ToUpper Sum256 overflow remoteIP createTCPServer
        createUDPServer getVersion NewRequest;
  clear range_map.

(** [findGameServer]: [None] is the pair [("", nil)]. *)
Definition findGameServer (s : LobbyServer) (port : Z) : option (string * GameServer) :=
  List.find (fun iv => gameserver.Port iv.2 =? port) (range_map (GameServers s)).

(** [updatePlayers] for a non-nil room.  [PlayerNames[v.Number] = i]
    panics when the seat number is not an index of the four-entry slice. *)
Fixpoint playerNames (players : list (string * Client)) (names : list string)
    : option (list string) :=
  match players with
  | [] => Some names
  | (i, v) :: rest =>
      names ← store names (gameserver.Number v) i;
      playerNames rest names
  end.

Definition updatePlayers (g : GameServer) : option (list Event) :=
  let sendMessage := set_PlayerNames (replicate 4 ""%string) zeroMessage in
  let sendMessage := set_MsgType TypeReplyPlayers sendMessage in
  names ← playerNames (range_map (gameserver.Players g)) (PlayerNames sendMessage);
  let sendMessage := set_PlayerNames names sendMessage in
  Some ((fun iv => Send (gameserver.Socket iv.2) sendMessage) <$> range_map (gameserver.Players g)).

(** [publishDiscord]: the events and whether the function returns.
    [json.Marshal] of a map of strings has no error.  When
    [retryablehttp.NewRequest] returns an error the function logs it and
    goes on: the next statement sets a header of the request, which is
    nil, and the function panics. *)
Definition publishDiscord (message channel : string) : list Event * bool :=
  if NewRequest channel then ([Publish message channel], true)
  else ([Log "could not create request"; Panic "nil pointer dereference"], false).

(** [fmt.Sprintf("%d", i)] for [i] in 0..9. *)
Definition decimalDigit (i : Z) : string :=
  String (ascii_of_N (Z.to_N (48 + i))) EmptyString.

(** [announceDiscord]: the loop over the public channels, which a panic
    of [publishDiscord] leaves, and the function. *)
Fixpoint announce_loop (message emulator : string) (idx : list Z) : list Event * bool :=
  match idx with
  | [] => ([], true)
  | i :: rest =>
      let channel := Getenv (ToUpper emulator ++ "_CHANNEL_" ++ decimalDigit i)%string in
      if negb (String.eqb channel "") then
        let '(ev, returned) := publishDiscord message channel in
        if returned then
          let '(ev', returned) := announce_loop message emulator rest in
          (ev ++ ev', returned)
        else (ev, false)
      else announce_loop message emulator rest
  end.

Definition announceDiscord (s : LobbyServer) (g : GameServer) : list Event * bool :=
  let roomType :=
    if negb (String.eqb (gameserver.Password g) "") then "private"%string
    else "public"%string in
  let message :=
    ("New " ++ roomType ++ " netplay room running in " ++ Name s ++
     " has been created! Come play " ++ gameserver.GameName g)%string in
  let '(ev, returned) :=
    if String.eqb roomType "public" then
      announce_loop message (gameserver.Emulator g) [0; 1; 2; 3; 4; 5; 6; 7; 8; 9]
    else ([], true) in
  if returned then
    let devChannel := Getenv (ToUpper (gameserver.Emulator g) ++ "_DEV_CHANNEL")%string in
    if negb (String.eqb devChannel "") then
      let '(ev', returned) := publishDiscord message devChannel in
      (ev ++ ev', returned)
    else (ev, true)
  else (ev, false).

(** [validateAuth]; [now] is the reading of [time.Now().UTC()]. *)
Definition validateAuth (s : LobbyServer) (now : Z) (receivedMessage : SocketMessage) : bool :=
  if negb (EnableAuth s) then true
  else
    match ParseInt (AuthTime receivedMessage) with
    | None => false
    | Some timeAsInt =>
        let receivedTime := UnixMilli timeAsInt in
        let timeDifference := Sub now receivedTime in
        let absTimeDifference :=
          int64_of_float overflow (Z.abs (float64_of_int timeDifference)) in
        let maxAllowableDifference := 15 * Minute in
        if absTimeDifference >? maxAllowableDifference then false
        else
          let authCode := Getenv (ToUpper (Emulator receivedMessage) ++ "_AUTH") in
          if String.eqb authCode "" then false
          else
            String.eqb (Auth receivedMessage)
                       (hex (Sum256 (AuthTime receivedMessage ++ authCode)))
    end.

(** [GameServer.CreateNetworkServers] (first variant).  A failure of
    [createUDPServer] closes the TCP listener; the field is not reset. *)
Definition CreateNetworkServers (basePort maxGames : Z) (now : Z) (g : GameServer)
    : GameServer * Z * list Event :=
  let '(g, port) := createTCPServer basePort maxGames g in
  if port =? 0 then (g, port, [])
  else
    let '(g, ok) := createUDPServer g in
    if negb ok then
      (g, 0,
       Log "error creating UDP server" ::
       match gameserver.TCPListener g with
       | Some l => [Room (gameserver.EvCloseTCP l)]
       | None => []
       end)
    else
      let g := gameserver.set_LastActivity now g in
      let g := gameserver.set_LastPacketReceived now g in
      (g, port, [Go (MonitorActivity port)]).

(** The reply of a failed check. *)
Definition refuse (code : Z) (text : string) (sendMessage : SocketMessage) : SocketMessage :=
  set_Message text (set_Accept code sendMessage).

(** [case TypeRequestCreateRoom]. The result is the connection's
    [authenticated] flag, the server, the events, and whether the case
    is left in the normal way: [announceDiscord] runs after the room is
    in the registry and before [sendData], and when it panics the reply
    is not sent. *)
Definition createRoom (now : Z) (ws : Conn) (authenticated : bool)
    (receivedMessage : SocketMessage) (s : LobbyServer)
    : bool * LobbyServer * list Event * bool :=
  let sendMessage := set_MsgType TypeReplyCreateRoom zeroMessage in
  let '(authenticated, s, sendMessage, ev, returned) :=
    if bool_decide (is_Some (GameServers s !! RoomName receivedMessage)) then
      (authenticated, s,
       refuse DuplicateName "Room with this name already exists" sendMessage, [], true)
    else if negb (String.eqb (NetplayVersion receivedMessage) NetplayAPIVersion) then
      (authenticated, s,
       refuse MismatchVersion
         "Client and server not at same API version. Please update your emulator"
         sendMessage, [], true)
    else if String.eqb (RoomName receivedMessage) "" then
      (authenticated, s, refuse BadName "Room name cannot be empty" sendMessage, [], true)
    else if String.eqb (PlayerName receivedMessage) "" then
      (authenticated, s, refuse BadName "Player name cannot be empty" sendMessage, [], true)
    else if String.eqb (Emulator receivedMessage) "" then
      (authenticated, s, refuse BadEmulator "Emulator name cannot be empty" sendMessage, [],
       true)
    else if negb (validateAuth s now receivedMessage) then
      (authenticated, s, refuse BadAuth "Bad authentication code" sendMessage,
       [Log "bad auth code"], true)
    else
      let authenticated := true in
      let '(g, port, ev) :=
        CreateNetworkServers (BasePort s) (MaxGames s) now gameserver.zeroGameServer in
      let sendMessage := set_Port port sendMessage in
      if Port sendMessage =? 0 then
        (authenticated, s, refuse Other "Failed to create room" sendMessage, ev, true)
      else
        let g := gameserver.set_Password (Password receivedMessage) g in
        let g := gameserver.set_GameName (GameName receivedMessage) g in
        let g := gameserver.set_MD5 (MD5 receivedMessage) g in
        let g := gameserver.set_ClientSha (ClientSha receivedMessage) g in
        let g := gameserver.set_Password (Password receivedMessage) g in
        let g := gameserver.set_Emulator (Emulator receivedMessage) g in
        let g := gameserver.set_Players ∅ g in
        let g := gameserver.set_Features (Features receivedMessage) g in
        let g := gameserver.set_PlayerName (PlayerName receivedMessage) g in
        let ip := remoteIP ws in
        let g := gameserver.set_Players
                   (<[PlayerName receivedMessage := gameserver.mkClient ws ip 0]>
                      (gameserver.Players g)) g in
        let s := set_GameServers (<[RoomName receivedMessage := g]> (GameServers s)) s in
        let sendMessage := set_Accept Accepted sendMessage in
        let sendMessage := set_RoomName (RoomName receivedMessage) sendMessage in
        let sendMessage := set_GameName (gameserver.GameName g) sendMessage in
        let sendMessage := set_PlayerName (PlayerName receivedMessage) sendMessage in
        let sendMessage := set_Features (Features receivedMessage) sendMessage in
        let '(announced, returned) := announceDiscord s g in
        (authenticated, s, sendMessage, ev ++ Log "Created new room" :: announced, returned)
  in
  if returned then (authenticated, s, ev ++ [Send ws sendMessage], true)
  else (authenticated, s, ev, false).

(** [case TypeRequestGetRooms].  [sendMessage] is one variable that every
    turn of the loop overwrites and sends. *)
Fixpoint getRooms_loop (ws : Conn) (emulator : string)
    (rooms : list (string * GameServer)) (sendMessage : SocketMessage)
    : list Event :=
  match rooms with
  | [] => []
  | (i, v) :: rest =>
      if gameserver.Running v then getRooms_loop ws emulator rest sendMessage
      else if negb (String.eqb emulator (gameserver.Emulator v)) then
        getRooms_loop ws emulator rest sendMessage
      else
        let sendMessage :=
          set_Protected (negb (String.eqb (gameserver.Password v) "")) sendMessage in
        let sendMessage := set_Accept Accepted sendMessage in
        let sendMessage := set_RoomName i sendMessage in
        let sendMessage := set_MD5 (gameserver.MD5 v) sendMessage in
        let sendMessage := set_Port (gameserver.Port v) sendMessage in
        let sendMessage := set_GameName (gameserver.GameName v) sendMessage in
        let sendMessage := set_Features (gameserver.Features v) sendMessage in
        let sendMessage := set_PlayerName (gameserver.PlayerName v) sendMessage in
        Send ws sendMessage :: getRooms_loop ws emulator rest sendMessage
  end.

Definition getRooms (now : Z) (ws : Conn) (authenticated : bool)
    (receivedMessage : SocketMessage) (s : LobbyServer)
    : bool * LobbyServer * list Event :=
  let sendMessage := set_MsgType TypeReplyGetRooms zeroMessage in
  if negb (String.eqb (NetplayVersion receivedMessage) NetplayAPIVersion) then
    (authenticated, s, [])
  else if String.eqb (Emulator receivedMessage) "" then
    (authenticated, s, [])
  else if negb (validateAuth s now receivedMessage) then
    (authenticated, s, [Log "bad auth code"])
  else
    (true, s,
     getRooms_loop ws (Emulator receivedMessage) (range_map (GameServers s)) sendMessage).

(** [case TypeRequestJoinRoom]. *)
Definition duplicateName (name : string) (players : list (string * Client)) : bool :=
  fold_left (fun dup iv => if String.eqb name iv.1 then true else dup) players false.

Definition goodNumber (number : Z) (players : list (string * Client)) : bool :=
  fold_left (fun good iv => if gameserver.Number iv.2 =? number then false else good)
            players true.

(** [for number = 0; number < 4; number++ { ... if goodNumber { break } }]:
    [fuel] turns are left, and the loop falls through with [number = 4]. *)
Fixpoint seatNumber (fuel : nat) (number : Z) (players : list (string * Client)) : Z :=
  match fuel with
  | O => number
  | S fuel' =>
      if goodNumber number players then number
      else seatNumber fuel' (number + 1) players
  end.

Definition joinRoom (ws : Conn) (authenticated : bool)
    (receivedMessage : SocketMessage) (s : LobbyServer)
    : LobbyServer * list Event :=
  if negb authenticated then
    (s, [Log "User tried to join room without being authenticated"])
  else
    let sendMessage := set_MsgType TypeReplyJoinRoom zeroMessage in
    let '(s, sendMessage, accepted, message, ev) :=
      match findGameServer s (Port receivedMessage) with
      | Some (roomName, g) =>
          let duplicateName :=
            duplicateName (PlayerName receivedMessage) (range_map (gameserver.Players g)) in
          if negb (String.eqb (gameserver.Password g) "") &&
             negb (String.eqb (gameserver.Password g) (Password receivedMessage)) then
            (s, sendMessage, BadPassword, "Incorrect password"%string, [])
          else if negb (String.eqb (gameserver.ClientSha g) (ClientSha receivedMessage)) then
            (s, sendMessage, MismatchVersion, "Client versions do not match"%string, [])
          else if negb (String.eqb (gameserver.MD5 g) (MD5 receivedMessage)) then
            (s, sendMessage, MismatchVersion, "ROM does not match room ROM"%string, [])
          else if Z.of_nat (size (gameserver.Players g)) >=? 4 then
            (s, sendMessage, RoomFull, "Room is full"%string, [])
          else if String.eqb (PlayerName receivedMessage) "" then
            (s, sendMessage, BadName, "Player name cannot be empty"%string, [])
          else if duplicateName then
            (s, sendMessage, DuplicateName, "Player name already in use"%string, [])
          else
            let number := seatNumber 4 0 (range_map (gameserver.Players g)) in
            let ip := remoteIP ws in
            let g := gameserver.set_Players
                       (<[PlayerName receivedMessage := gameserver.mkClient ws ip number]>
                          (gameserver.Players g)) g in
            let s := set_GameServers (<[roomName := g]> (GameServers s)) s in
            let sendMessage := set_RoomName roomName sendMessage in
            let sendMessage := set_GameName (gameserver.GameName g) sendMessage in
            let sendMessage := set_PlayerName (PlayerName receivedMessage) sendMessage in
            let sendMessage := set_Features (gameserver.Features g) sendMessage in
            let sendMessage := set_Port (gameserver.Port g) sendMessage in
            (s, sendMessage, 0, ""%string, [Log "new player joining room"])
      | None =>
          (s, sendMessage, RoomDeleted, "room has been deleted"%string,
           [Log "server not found (room deleted)"])
      end in
    let sendMessage := set_Accept accepted sendMessage in
    let sendMessage := set_Message message sendMessage in
    (s, ev ++ [Send ws sendMessage]).

(** [case TypeRequestBeginGame]; [now] is the reading of [time.Now()]. *)
Definition beginGame (now : Z) (authenticated : bool)
    (receivedMessage : SocketMessage) (s : LobbyServer)
    : LobbyServer * list Event :=
  if negb authenticated then
    (s, [Log "User tried to begin game without being authenticated"])
  else
    let sendMessage := set_MsgType TypeReplyBeginGame zeroMessage in
    match findGameServer s (Port receivedMessage) with
    | Some (roomName, g) =>
        if gameserver.Running g then (s, [Log "game running"])
        else
          let g := gameserver.set_Running true g in
          let g := gameserver.set_StartTime now g in
          let s := set_GameServers (<[roomName := g]> (GameServers s)) s in
          let sendMessage := set_Port (gameserver.Port g) sendMessage in
          (s,
           Log "starting game" ::
           Go (watchGameServer roomName (gameserver.Port g)) ::
           ((fun iv => Send (gameserver.Socket iv.2) sendMessage)
              <$> range_map (gameserver.Players g)))
    | None => (s, [Log "server not found"])
    end.

(** The branch of [wsHandler] for [io.EOF].  The room behind a map entry
    is reached through a pointer: what the inner loop does to [v] is
    written back under its name. *)
Fixpoint leaveLobby (ws : Conn) (players : list (string * Client)) (v : GameServer)
    : option (GameServer * list Event) :=
  match players with
  | [] => Some (v, [])
  | (k, w) :: rest =>
      if Nat.eqb (gameserver.Socket w) ws then
        let v := gameserver.set_Players (delete k (gameserver.Players v)) v in
        ev ← updatePlayers v;
        r ← leaveLobby ws rest v;
        Some (r.1, Log "Player has left lobby" :: ev ++ r.2)
      else leaveLobby ws rest v
  end.

Fixpoint closedConnection (ws : Conn) (rooms : list (string * GameServer)) (s : LobbyServer)
    : option (LobbyServer * list Event) :=
  match rooms with
  | [] => Some (s, [])
  | (i, v) :: rest =>
      if negb (gameserver.Running v) then
        r ← leaveLobby ws (range_map (gameserver.Players v)) v;
        let '(v, ev) := r in
        let s := set_GameServers (<[i := v]> (GameServers s)) s in
        if (size (gameserver.Players v) =? 0)%nat then
          let '(v, closes) := gameserver.CloseServers v in
          let s := set_GameServers (delete i (GameServers s)) s in
          r' ← closedConnection ws rest s;
          Some (r'.1, ev ++ Log "No more players in lobby, deleting" ::
                      (Room <$> closes) ++ r'.2)
        else
          r' ← closedConnection ws rest s;
          Some (r'.1, ev ++ r'.2)
      else closedConnection ws rest s
  end.

Definition handleEOF (ws : Conn) (s : LobbyServer) : option (LobbyServer * list Event) :=
  closedConnection ws (range_map (GameServers s)) s.

(** [removePort] *)
Fixpoint removePort (port : Z) (ports : list Z) : list Z :=
  match ports with
  | [] => []
  | p :: rest => if p =? port then rest else p :: removePort port rest
  end.

(** [handlePlayerDrop]: the first seat found with the socket is deleted
    and the function returns. *)
Definition dropFrom (ws : Conn) (g : GameServer) : option string :=
  fst <$> List.find (fun kw => Nat.eqb (gameserver.Socket kw.2) ws)
                    (range_map (gameserver.Players g)).

Fixpoint playerDrop (ws : Conn) (rooms : list (string * GameServer)) (s : LobbyServer)
    : LobbyServer * list Event :=
  match rooms with
  | [] => (s, [])
  | (roomName, g) :: rest =>
      match dropFrom ws g with
      | Some playerName =>
          let g := gameserver.set_Players (delete playerName (gameserver.Players g)) g in
          let s := set_GameServers (<[roomName := g]> (GameServers s)) s in
          if (size (gameserver.Players g) =? 0)%nat then
            let s := set_ActivePorts (removePort (gameserver.Port g) (ActivePorts s)) s in
            let s := set_GameServers (delete roomName (GameServers s)) s in
            (s, [Log "Player dropped"; Log "Room deleted due to no active players"])
          else (s, [Log "Player dropped"])
      | None => playerDrop ws rest s
      end
  end.

Definition handlePlayerDrop (ws : Conn) (s : LobbyServer) : LobbyServer * list Event :=
  playerDrop ws (range_map (GameServers s)) s.

(** [updateLastActivity], which runs on every message before the
    [switch]. *)
Fixpoint lastActivity (now : Z) (ws : Conn) (rooms : list (string * GameServer))
    (s : LobbyServer) : LobbyServer :=
  match rooms with
  | [] => s
  | (name, g) :: rest =>
      if existsb (fun kw => Nat.eqb (gameserver.Socket kw.2) ws)
                 (range_map (gameserver.Players g)) then
        set_GameServers (<[name := gameserver.set_LastActivity now g]> (GameServers s)) s
      else lastActivity now ws rest s
  end.

Definition updateLastActivity (now : Z) (ws : Conn) (s : LobbyServer) : LobbyServer :=
  lastActivity now ws (range_map (GameServers s)) s.

(** [case TypeRequestPlayers], [case TypeRequestChatMessage],
    [case TypeRequestMotd] and [case TypeRequestVersion]. *)
Definition requestPlayers (authenticated : bool) (receivedMessage : SocketMessage)
    (s : LobbyServer) : option (list Event) :=
  if negb authenticated then
    Some [Log "User tried to request players without being authenticated"]
  else
    match findGameServer s (Port receivedMessage) with
    | Some (_, g) => updatePlayers g
    | None => Some [Log "server not found"]
    end.

Definition chatMessage (authenticated : bool) (receivedMessage : SocketMessage)
    (s : LobbyServer) : list Event :=
  if negb authenticated then
    [Log "User tried to send a chat message without being authenticated"]
  else
    let sendMessage := set_MsgType TypeReplyChatMessage zeroMessage in
    let sendMessage :=
      set_Message (PlayerName receivedMessage ++ ": " ++ Message receivedMessage)
                  sendMessage in
    match findGameServer s (Port receivedMessage) with
    | Some (_, g) =>
        (fun kw => Send (gameserver.Socket kw.2) sendMessage)
          <$> range_map (gameserver.Players g)
    | None => [Log "server not found"]
    end.

Definition motd (ws : Conn) (authenticated : bool) (s : LobbyServer) : list Event :=
  if negb authenticated then
    [Log "User tried to request the motd without being authenticated"]
  else
    [Send ws (set_Message (Motd s) (set_MsgType TypeReplyMotd zeroMessage))].

Definition version (ws : Conn) : list Event :=
  [Send ws (set_Message getVersion (set_MsgType TypeReplyVersion zeroMessage))].

(** What [websocket.JSON.Receive] returns to the loop of [wsHandler]: a
    message, [io.EOF], the error of a connection reset by the peer, or
    another error.  (The message is marshalled and unmarshalled once more
    before the [switch], which gives the same message.) *)
Inductive Received :=
| GotMessage (m : SocketMessage)
| GotEOF
| GotReset
| GotError.

(** One turn of the loop of [wsHandler]: the flag of the connection, the
    server, the events, and whether the loop goes on.  The loop does not
    go on when the handler returns, and when [publishDiscord] panics in
    it: the last event is the [Panic] then, and the server is the one the
    panic leaves.  [None] is a panic of [updatePlayers]. *)
Definition wsHandler_turn (now : Z) (ws : Conn) (authenticated : bool)
    (received : Received) (s : LobbyServer)
    : option (bool * LobbyServer * list Event * bool) :=
  match received with
  | GotEOF =>
      r ← handleEOF ws s;
      Some (authenticated, r.1, r.2, false)
  | GotReset =>
      let '(s, ev) := handlePlayerDrop ws s in
      Some (authenticated, s, Log "could not read WS message" :: ev, false)
  | GotError => Some (authenticated, s, [Log "could not read WS message"], true)
  | GotMessage receivedMessage =>
      let s := updateLastActivity now ws s in
      let kind := MsgType receivedMessage in
      if String.eqb kind TypeRequestCreateRoom then
        let '(authenticated, s, ev, returned) :=
          createRoom now ws authenticated receivedMessage s in
        Some (authenticated, s, ev, returned)
      else if String.eqb kind TypeRequestGetRooms then
        let '(authenticated, s, ev) := getRooms now ws authenticated receivedMessage s in
        Some (authenticated, s, ev, true)
      else if String.eqb kind TypeRequestJoinRoom then
        let '(s, ev) := joinRoom ws authenticated receivedMessage s in
        Some (authenticated, s, ev, true)
      else if String.eqb kind TypeRequestPlayers then
        ev ← requestPlayers authenticated receivedMessage s;
        Some (authenticated, s, ev, true)
      else if String.eqb kind TypeRequestChatMessage then
        Some (authenticated, s, chatMessage authenticated receivedMessage s, true)
      else if String.eqb kind TypeRequestBeginGame then
        let '(s, ev) := beginGame now authenticated receivedMessage s in
        Some (authenticated, s, ev, true)
      else if String.eqb kind TypeRequestMotd then
        Some (authenticated, s, motd ws authenticated s, true)
      else if String.eqb kind TypeRequestVersion then
        Some (authenticated, s, version ws, true)
      else Some (authenticated, s, [Log "not a valid lobby message type"], true)
  end.

(** *** Creating a room *)

Ltac refused :=
  repeat split; try done; intros; try tauto; try congruence; try (split; reflexivity).

(** The webhooks that [announceDiscord] goes through for a room, in
    order: the public channels 0..9 of the emulator that are set, when
    the room has no password, and then the developers' channel, when it
    is set. *)
Definition publicChannels (emulator : string) : list string :=
  List.filter (fun channel => negb (String.eqb channel ""))
    ((fun i => Getenv (ToUpper emulator ++ "_CHANNEL_" ++ decimalDigit i)%string)
       <$> [0; 1; 2; 3; 4; 5; 6; 7; 8; 9]).

Definition devChannels (emulator : string) : list string :=
  List.filter (fun channel => negb (String.eqb channel ""))
    [Getenv (ToUpper emulator ++ "_DEV_CHANNEL")%string].

Definition channels (emulator password : string) : list string :=
  (if String.eqb password "" then publicChannels emulator else []) ++ devChannels emulator.

(** The text that is posted. *)
Definition announcement (s : LobbyServer) (g : GameServer) : string :=
  ("New " ++ (if String.eqb (gameserver.Password g) "" then "public" else "private") ++
   " netplay room running in " ++ Name s ++
   " has been created! Come play " ++ gameserver.GameName g)%string.

(** [publishDiscord] on the URLs of a list, one after the other, as
    long as it returns. *)
Fixpoint published (message : string) (urls : list string) : list Event * bool :=
  match urls with
  | [] => ([], true)
  | channel :: rest =>
      let '(ev, returned) := publishDiscord message channel in
      if returned then
        let '(ev', returned) := published message rest in (ev ++ ev', returned)
      else (ev, false)
  end.

Definition isPublish (e : Event) : bool :=
  match e with Publish _ _ => true | _ => false end.

Definition publishes (ev : list Event) : list Event := List.filter isPublish ev.

Lemma published_app message urls urls' :
  published message (urls ++ urls') =
  let '(ev, returned) := published message urls in
  if returned then
    let '(ev', returned) := published message urls' in (ev ++ ev', returned)
  else (ev, false).
Proof.
  clear range_map range_map_perm Getenv ToUpper.
  induction urls as [|channel urls IH]; cbn [app published].
  - by destruct (published message urls').
  - destruct (publishDiscord message channel) as [ev [|]]; [|done].
    rewrite IH. destruct (published message urls) as [ev1 [|]]; [|done].
    destruct (published message urls') as [ev2 r]. by rewrite app_assoc.
Qed.

Lemma announce_loop_published message emulator idx :
  announce_loop message emulator idx =
  published message
    (List.filter (fun channel => negb (String.eqb channel ""))
       ((fun i => Getenv (ToUpper emulator ++ "_CHANNEL_" ++ decimalDigit i)%string) <$> idx)).
Proof.
  clear range_map range_map_perm.
  induction idx as [|i idx IH]; [done|].
  cbn [announce_loop fmap list_fmap List.filter].
  destruct (negb (String.eqb _ "")); [|done].
  cbn [published]. by rewrite IH.
Qed.

Lemma announceDiscord_published s g :
  announceDiscord s g =
  published (announcement s g) (channels (gameserver.Emulator g) (gameserver.Password g)).
Proof.
  clear range_map range_map_perm.
  unfold announceDiscord, channels, announcement, devChannels.
  rewrite published_app.
  destruct (String.eqb (gameserver.Password g) ""); cbn [negb].
  - change (String.eqb "public" "public") with true. cbv iota.
    rewrite announce_loop_published. fold (publicChannels (gameserver.Emulator g)).
    destruct (published _ (publicChannels _)) as [ev [|]]; [|done].
    cbn [List.filter]. destruct (negb (String.eqb _ "")); cbn [published].
    + destruct (publishDiscord _ _) as [ev' [|]]; by rewrite ?app_nil_r.
    + by rewrite ?app_nil_r.
  - change (String.eqb "private" "public") with false. cbv iota. cbn [published].
    cbn [List.filter]. destruct (negb (String.eqb _ "")); cbn [published].
    + destruct (publishDiscord _ _) as [ev' [|]]; by rewrite ?app_nil_r.
    + by rewrite ?app_nil_r.
Qed.

(** Either every URL gets its request, or the first URL that
    [NewRequest] refuses ends the run in a panic. *)
Lemma published_cases message urls :
  (Forall (fun channel => NewRequest channel = true) urls /\
   published message urls = (Publish message <$> urls, true)) \/
  (exists before channel after,
     urls = before ++ channel :: after /\
     Forall (fun channel => NewRequest channel = true) before /\
     NewRequest channel = false /\
     published message urls =
       ((Publish message <$> before) ++
        [Log "could not create request"; Panic "nil pointer dereference"], false)).
Proof.
  clear range_map range_map_perm Getenv ToUpper.
  induction urls as [|channel urls IH].
  - left. by split.
  - cbn [published]. unfold publishDiscord.
    destruct (NewRequest channel) eqn:Hc.
    + destruct IH as [[Hall ->]|(before & c & after & -> & Hall & Hbad & ->)].
      * left. split; [by constructor|done].
      * right. exists (channel :: before), c, after.
        split; [done|]. split; [by constructor|]. by split.
    + right. exists [], channel, urls. by repeat split.
Qed.

Lemma sends_fmap_Publish message urls : sends (Publish message <$> urls) = [].
Proof. no_parameters. induction urls as [|u urls IH]; [done|]. by cbn. Qed.

Lemma publishes_fmap_Publish message urls :
  publishes (Publish message <$> urls) = Publish message <$> urls.
Proof.
  no_parameters. induction urls as [|u urls IH]; [done|].
  unfold publishes in *. cbn. by rewrite IH.
Qed.

Lemma sends_CreateNetworkServers basePort maxGames now g :
  sends (CreateNetworkServers basePort maxGames now g).2 = [] /\
  publishes (CreateNetworkServers basePort maxGames now g).2 = [].
Proof.
  clear range_map range_map_perm Getenv ToUpper NewRequest.
  unfold CreateNetworkServers.
  destruct (createTCPServer _ _ _) as [g1 p1].
  destruct (p1 =? 0); [done|].
  destruct (createUDPServer g1) as [g2 ok2].
  destruct ok2; cbn [negb]; [done|]. cbn [snd]. by destruct (gameserver.TCPListener g2).
Qed.

(** The room that [request_create_room] puts in the registry, and the
    reply that accepts the request. *)
Definition created (now : Z) (ws : Conn) (m : SocketMessage) (s : LobbyServer) : GameServer :=
  let g := (CreateNetworkServers (BasePort s) (MaxGames s) now gameserver.zeroGameServer).1.1 in
  let g := gameserver.set_Password (Password m) g in
  let g := gameserver.set_GameName (GameName m) g in
  let g := gameserver.set_MD5 (MD5 m) g in
  let g := gameserver.set_ClientSha (ClientSha m) g in
  let g := gameserver.set_Emulator (Emulator m) g in
  let g := gameserver.set_Features (Features m) g in
  let g := gameserver.set_PlayerName (PlayerName m) g in
  gameserver.set_Players {[PlayerName m := gameserver.mkClient ws (remoteIP ws) 0]} g.

Lemma created_fields now ws (m : SocketMessage) s :
  let g := created now ws m s in
  gameserver.Players g = {[PlayerName m := gameserver.mkClient ws (remoteIP ws) 0]} /\
  gameserver.Password g = Password m /\
  gameserver.GameName g = GameName m /\
  gameserver.MD5 g = MD5 m /\
  gameserver.ClientSha g = ClientSha m /\
  gameserver.Emulator g = Emulator m /\
  gameserver.Features g = Features m /\
  gameserver.PlayerName g = PlayerName m.
Proof.
  clear range_map range_map_perm Getenv ToUpper NewRequest.
  unfold created.
  destruct (CreateNetworkServers _ _ _ _) as [[g p] ev]. cbn [fst]. by destruct g.
Qed.

Definition accepted (port : Z) (m : SocketMessage) : SocketMessage :=
  set_Features (Features m)
    (set_PlayerName (PlayerName m)
       (set_GameName (GameName m)
          (set_RoomName (RoomName m)
             (set_Accept Accepted
                (set_Port port (set_MsgType TypeReplyCreateRoom zeroMessage)))))).

(** [createRoom] once the six checks have passed and a port is there:
    the room is in the registry, and what follows is up to
    [announceDiscord]. *)
Lemma createRoom_allocated now ws authenticated (m : SocketMessage) (s : LobbyServer) :
  let r := CreateNetworkServers (BasePort s) (MaxGames s) now gameserver.zeroGameServer in
  let g := created now ws m s in
  let s' := set_GameServers (<[RoomName m := g]> (GameServers s)) s in
  let announced := published (announcement s g) (channels (Emulator m) (Password m)) in
  GameServers s !! RoomName m = None -> NetplayVersion m = "MPN-4"%string ->
  RoomName m <> ""%string -> PlayerName m <> ""%string -> Emulator m <> ""%string ->
  validateAuth s now m = true -> r.1.2 <> 0 ->
  createRoom now ws authenticated m s =
    if announced.2 then
      (true, s',
       r.2 ++ Log "Created new room" :: announced.1 ++ [Send ws (accepted r.1.2 m)], true)
    else (true, s', r.2 ++ Log "Created new room" :: announced.1, false).
Proof.
  clear range_map range_map_perm.
  intros r g s' announced Ht Hv Hr Hp He Ha Hport.
  unfold createRoom, NetplayAPIVersion.
  rewrite bool_decide_false by (rewrite Ht; by intros [? ?]).
  rewrite Hv. cbn [String.eqb Ascii.eqb Bool.eqb negb].
  destruct (String.eqb_spec (RoomName m) "") as [|_]; [done|].
  destruct (String.eqb_spec (PlayerName m) "") as [|_]; [done|].
  destruct (String.eqb_spec (Emulator m) "") as [|_]; [done|].
  rewrite Ha. cbn [negb].
  subst announced s' g. unfold created, accepted. subst r.
  destruct (CreateNetworkServers (BasePort s) (MaxGames s) now gameserver.zeroGameServer)
    as [[g p] ev]. cbn [fst snd] in *.
  replace (Port (set_Port p (set_MsgType TypeReplyCreateRoom zeroMessage))) with p by done.
  destruct (Z.eqb_spec p 0) as [|_]; [done|].
  rewrite announceDiscord_published.
  match goal with
  | |- context [published ?a ?c] =>
      replace c with (channels (Emulator m) (Password m)) by (by destruct g);
      replace a with
        (announcement s
           (gameserver.set_Players
              {[PlayerName m := gameserver.mkClient ws (remoteIP ws) 0]}
              (gameserver.set_PlayerName (PlayerName m)
                 (gameserver.set_Features (Features m)
                    (gameserver.set_Emulator (Emulator m)
                       (gameserver.set_ClientSha (ClientSha m)
                          (gameserver.set_MD5 (MD5 m)
                             (gameserver.set_GameName (GameName m)
                                (gameserver.set_Password (Password m) g)))))))))
        by (by destruct g, s)
  end.
  destruct (published _ _) as [evA [|]]; cbn [fst snd].
  - rewrite <- app_assoc. cbn [app].
    destruct g as [st pl tl ul rg tf cd gn pw cs md em ts gd port hs run ft pn buf la lp ct].
    cbn. rewrite insert_empty. by destruct s.
  - destruct g as [st pl tl ul rg tf cd gn pw cs md em ts gd port hs run ft pn buf la lp ct].
    cbn. rewrite insert_empty. by destruct s.
Qed.

Lemma published_panics message urls :
  Exists (fun channel => NewRequest channel = false) urls ->
  exists before channel after,
    urls = before ++ channel :: after /\
    Forall (fun channel => NewRequest channel = true) before /\
    NewRequest channel = false /\
    published message urls =
      ((Publish message <$> before) ++
       [Log "could not create request"; Panic "nil pointer dereference"], false).
Proof.
  clear range_map range_map_perm Getenv ToUpper.
  intros Hbad. destruct (published_cases message urls) as [[Hall _]|H]; [|done].
  exfalso. apply Exists_exists in Hbad as (channel & Hin & Hc).
  rewrite Forall_forall in Hall. specialize (Hall channel Hin). congruence.
Qed.

(** C1.  A [request_create_room] that passes the six checks and gets a
    port is not answered when [announceDiscord] meets a webhook whose URL
    [retryablehttp.NewRequest] refuses.  [publishDiscord] logs the error
    and goes on to set a header of the request, which is nil.  By then the
    room is in the registry with the creator on seat 0, the connection
    counts as authenticated, and the channels before the bad one have
    been posted to.  The handler ends in the panic: nothing is sent to
    the requester. *)
Theorem create_room_panics_before_reply now ws authenticated (m : SocketMessage)
    (s : LobbyServer) :
  let port := (CreateNetworkServers (BasePort s) (MaxGames s) now gameserver.zeroGameServer).1.2 in
  GameServers s !! RoomName m = None -> NetplayVersion m = "MPN-4"%string ->
  RoomName m <> ""%string -> PlayerName m <> ""%string -> Emulator m <> ""%string ->
  validateAuth s now m = true -> port <> 0 ->
  Exists (fun channel => NewRequest channel = false) (channels (Emulator m) (Password m)) ->
  exists s' g ev before channel after,
    createRoom now ws authenticated m s = (true, s', ev, false) /\
    GameServers s' = <[RoomName m := g]> (GameServers s) /\
    gameserver.Players g = {[PlayerName m := gameserver.mkClient ws (remoteIP ws) 0]} /\
    sends ev = [] /\
    last ev = Some (Panic "nil pointer dereference") /\
    channels (Emulator m) (Password m) = before ++ channel :: after /\
    Forall (fun channel => NewRequest channel = true) before /\
    NewRequest channel = false /\
    publishes ev = Publish (announcement s g) <$> before.
Proof.
  clear range_map range_map_perm.
  intros port Ht Hv Hr Hp He Ha Hport Hbad.
  rewrite (createRoom_allocated now ws authenticated m s) by done.
  set (g := created now ws m s).
  destruct (published_panics (announcement s g) _ Hbad)
    as (before & channel & after & Hurls & Hall & Hc & ->).
  cbn [fst snd].
  destruct (sends_CreateNetworkServers (BasePort s) (MaxGames s) now
              gameserver.zeroGameServer) as [Hsends Hpublishes].
  exists (set_GameServers (<[RoomName m := g]> (GameServers s)) s), g.
  eexists. exists before, channel, after. split; [reflexivity|].
  split; [by destruct s|].
  split; [apply created_fields|].
  split.
  { unfold sends in *. rewrite List.filter_app, Hsends. cbn [app List.filter isSend].
    rewrite List.filter_app. fold (sends (Publish (announcement s g) <$> before)).
    by rewrite sends_fmap_Publish. }
  split.
  { rewrite app_comm_cons, app_assoc.
    change [Log "could not create request"; Panic "nil pointer dereference"]
      with ([Log "could not create request"] ++ [Panic "nil pointer dereference"]).
    rewrite app_assoc. apply last_snoc. }
  split; [done|]. split; [done|]. split; [done|].
  unfold publishes in *. rewrite List.filter_app, Hpublishes. cbn [app List.filter isPublish].
  rewrite List.filter_app. fold (publishes (Publish (announcement s g) <$> before)).
  rewrite publishes_fmap_Publish. cbn. by rewrite app_nil_r.
Qed.

(** The six checks and the allocation of the port. *)
Definition passes (now : Z) (m : SocketMessage) (s : LobbyServer) : Prop :=
  GameServers s !! RoomName m = None /\ NetplayVersion m = "MPN-4"%string /\
  RoomName m <> ""%string /\ PlayerName m <> ""%string /\ Emulator m <> ""%string /\
  validateAuth s now m = true /\
  (CreateNetworkServers (BasePort s) (MaxGames s) now gameserver.zeroGameServer).1.2 <> 0.

#[local] Instance passes_dec now m s : Decision (passes now m s).
Proof. unfold passes. apply _. Defined.

(** A request that fails a check is answered with the code of the
    first check that fails, and the registry stays as it was. *)
Lemma createRoom_refused now ws authenticated (m : SocketMessage) (s : LobbyServer) :
  let taken := is_Some (GameServers s !! RoomName m) in
  let port := (CreateNetworkServers (BasePort s) (MaxGames s) now gameserver.zeroGameServer).1.2 in
  ~ passes now m s ->
  exists authenticated' pre reply,
    createRoom now ws authenticated m s = (authenticated', s, pre ++ [Send ws reply], true) /\
    sends pre = [] /\
    MsgType reply = TypeReplyCreateRoom /\
    (authenticated' = true -> authenticated = true \/ validateAuth s now m = true) /\
    (taken -> Accept reply = DuplicateName) /\
    (~ taken -> NetplayVersion m <> "MPN-4"%string -> Accept reply = MismatchVersion) /\
    (~ taken -> NetplayVersion m = "MPN-4"%string -> RoomName m = ""%string ->
       Accept reply = BadName) /\
    (~ taken -> NetplayVersion m = "MPN-4"%string -> RoomName m <> ""%string ->
     PlayerName m = ""%string -> Accept reply = BadName) /\
    (~ taken -> NetplayVersion m = "MPN-4"%string -> RoomName m <> ""%string ->
     PlayerName m <> ""%string -> Emulator m = ""%string -> Accept reply = BadEmulator) /\
    (~ taken -> NetplayVersion m = "MPN-4"%string -> RoomName m <> ""%string ->
     PlayerName m <> ""%string -> Emulator m <> ""%string ->
     validateAuth s now m = false -> Accept reply = BadAuth) /\
    (~ taken -> NetplayVersion m = "MPN-4"%string -> RoomName m <> ""%string ->
     PlayerName m <> ""%string -> Emulator m <> ""%string ->
     validateAuth s now m = true -> port = 0 -> Accept reply = Other).
Proof.
  clear range_map range_map_perm getVersion.
  intros taken port Hfail.
  unfold createRoom, NetplayAPIVersion.
  destruct (decide taken) as [Ht|Ht].
  { rewrite bool_decide_true by done.
    eexists _, [], _. split; [reflexivity|]. refused. }
  rewrite bool_decide_false by done.
  destruct (String.eqb_spec (NetplayVersion m) "MPN-4") as [Hv|Hv]; cbn [negb].
  2:{ eexists _, [], _. split; [reflexivity|]. refused. }
  destruct (String.eqb_spec (RoomName m) "") as [Hr|Hr].
  { eexists _, [], _. split; [reflexivity|]. refused. }
  destruct (String.eqb_spec (PlayerName m) "") as [Hp|Hp].
  { eexists _, [], _. split; [reflexivity|]. refused. }
  destruct (String.eqb_spec (Emulator m) "") as [He|He].
  { eexists _, [], _. split; [reflexivity|]. refused. }
  destruct (validateAuth s now m) eqn:Ha; cbn [negb].
  2:{ eexists _, [Log _], _. split; [reflexivity|]. refused. }
  pose proof (sends_CreateNetworkServers (BasePort s) (MaxGames s) now
                gameserver.zeroGameServer) as [Hev _].
  assert (Hport : port = 0).
  { destruct (decide (port = 0)) as [|Hne]; [done|]. exfalso. apply Hfail.
    split; [|done]. destruct (GameServers s !! RoomName m) eqn:E; [|done].
    exfalso. apply Ht. by eexists. }
  subst port.
  destruct (CreateNetworkServers (BasePort s) (MaxGames s) now gameserver.zeroGameServer)
    as [[g p] ev] eqn:Hc.
  cbn [fst snd] in *. subst p. cbn.
  eexists _, ev, _. split; [reflexivity|]. refused.
Qed.

(** A request that is not answered: it has passed the checks, and the
    events end in the panic of [publishDiscord]. *)
Lemma createRoom_panicked now ws authenticated (m : SocketMessage) (s : LobbyServer) :
  (createRoom now ws authenticated m s).2 = false ->
  passes now m s /\
  Exists (fun channel => NewRequest channel = false) (channels (Emulator m) (Password m)) /\
  sends (createRoom now ws authenticated m s).1.2 = [] /\
  last (createRoom now ws authenticated m s).1.2 = Some (Panic "nil pointer dereference").
Proof.
  clear range_map range_map_perm.
  destruct (decide (passes now m s)) as [Hpass|Hfail].
  2:{ destruct (createRoom_refused now ws authenticated m s Hfail)
        as (a' & pre & reply & -> & _). discriminate. }
  destruct Hpass as (Ht & Hv & Hr & Hp & He & Ha & Hport).
  rewrite (createRoom_allocated now ws authenticated m s) by done.
  set (g := created now ws m s).
  destruct (published_cases (announcement s g) (channels (Emulator m) (Password m)))
    as [[Hall ->]|(before & channel & after & Hurls & _ & Hc & ->)]; cbn [fst snd];
    [discriminate|].
  intros _. split; [done|]. split.
  { rewrite Hurls. apply Exists_app. right. by left. }
  destruct (sends_CreateNetworkServers (BasePort s) (MaxGames s) now
              gameserver.zeroGameServer) as [Hsends _].
  split.
  - unfold sends in *. rewrite List.filter_app, Hsends. cbn [app List.filter isSend].
    rewrite List.filter_app. fold (sends (Publish (announcement s g) <$> before)).
    by rewrite sends_fmap_Publish.
  - rewrite app_comm_cons, app_assoc.
    change [Log "could not create request"; Panic "nil pointer dereference"]
      with ([Log "could not create request"] ++ [Panic "nil pointer dereference"]).
    rewrite app_assoc. apply last_snoc.
Qed.

(** X27.  The reply to [request_create_room].  The case sends nothing only
    when the request passes the six checks, gets a port, and
    [announceDiscord] meets a webhook whose URL [NewRequest] refuses.
    Otherwise one [reply_create_room] goes to the requester.  Its accept
    code is that of the first check that fails, in the order: the room
    name is taken (DuplicateName), the API version is not MPN-4
    (MismatchVersion), the room name is empty (BadName), the player name
    is empty (BadName), the emulator is empty (BadEmulator), the
    authentication fails (BadAuth), no port could be allocated (Other).
    A refusal leaves the registry as it was.  When no check fails the
    reply is Accepted and carries the room name, the game name, the
    creator's name, the features and the allocated port, and the new
    room holds the creator alone, on seat 0. *)
Theorem create_room_reply now ws authenticated (m : SocketMessage) (s : LobbyServer) :
  let taken := is_Some (GameServers s !! RoomName m) in
  let port := (CreateNetworkServers (BasePort s) (MaxGames s) now gameserver.zeroGameServer).1.2 in
  exists authenticated' s' ev returned,
    createRoom now ws authenticated m s = (authenticated', s', ev, returned) /\
    (returned = false <->
       passes now m s /\
       Exists (fun channel => NewRequest channel = false)
              (channels (Emulator m) (Password m))) /\
    (returned = true ->
     exists pre reply,
       ev = pre ++ [Send ws reply] /\
       sends pre = [] /\
       MsgType reply = TypeReplyCreateRoom /\
       (taken -> Accept reply = DuplicateName /\ s' = s) /\
       (~ taken -> NetplayVersion m <> "MPN-4"%string ->
          Accept reply = MismatchVersion /\ s' = s) /\
       (~ taken -> NetplayVersion m = "MPN-4"%string -> RoomName m = ""%string ->
          Accept reply = BadName /\ s' = s) /\
       (~ taken -> NetplayVersion m = "MPN-4"%string -> RoomName m <> ""%string ->
        PlayerName m = ""%string ->
          Accept reply = BadName /\ s' = s) /\
       (~ taken -> NetplayVersion m = "MPN-4"%string -> RoomName m <> ""%string ->
        PlayerName m <> ""%string -> Emulator m = ""%string ->
          Accept reply = BadEmulator /\ s' = s) /\
       (~ taken -> NetplayVersion m = "MPN-4"%string -> RoomName m <> ""%string ->
        PlayerName m <> ""%string -> Emulator m <> ""%string ->
        validateAuth s now m = false ->
          Accept reply = BadAuth /\ s' = s) /\
       (~ taken -> NetplayVersion m = "MPN-4"%string -> RoomName m <> ""%string ->
        PlayerName m <> ""%string -> Emulator m <> ""%string ->
        validateAuth s now m = true -> port = 0 ->
          Accept reply = Other /\ s' = s) /\
       (passes now m s ->
          Accept reply = Accepted /\
          RoomName reply = RoomName m /\
          GameName reply = GameName m /\
          PlayerName reply = PlayerName m /\
          Features reply = Features m /\
          Port reply = port /\
          authenticated' = true /\
          (exists g,
              GameServers s' = <[RoomName m := g]> (GameServers s) /\
              gameserver.Players g =
                {[PlayerName m := gameserver.mkClient ws (remoteIP ws) 0]}))).
Proof.
  clear range_map range_map_perm.
  intros taken port.
  destruct (decide (passes now m s)) as [Hpass|Hfail].
  { destruct Hpass as (Ht & Hv & Hr & Hp & He & Ha & Hport).
    assert (Hnot : ~ taken) by (unfold taken; rewrite Ht; by intros [? ?]).
    rewrite (createRoom_allocated now ws authenticated m s) by done.
    set (g := created now ws m s).
    destruct (published_cases (announcement s g) (channels (Emulator m) (Password m)))
      as [[Hall ->]|(before & channel & after & Hurls & _ & Hc & ->)]; cbn [fst snd].
    - eexists _, _, _, _. split; [reflexivity|]. split.
      + split; [done|]. intros [_ Hbad]. exfalso.
        apply Exists_exists in Hbad as (channel & Hin & Hc).
        rewrite Forall_forall in Hall. specialize (Hall channel Hin). congruence.
      + intros _. eexists (_ ++ Log "Created new room" :: _), _.
        split; [by rewrite <- app_assoc|].
        split.
        { destruct (sends_CreateNetworkServers (BasePort s) (MaxGames s) now
                      gameserver.zeroGameServer) as [Hsends _].
          unfold sends in *. rewrite List.filter_app, Hsends. cbn [app List.filter isSend].
          apply sends_fmap_Publish. }
        split; [done|].
        do 7 (split; [intros; tauto || congruence|]).
        intros _. repeat (split; [reflexivity|]).
        exists g. split; [by destruct s|]. apply created_fields.
    - eexists _, _, _, _. split; [reflexivity|]. split; [|done].
      split; [intros _|done]. split; [by repeat split|].
      rewrite Hurls. apply Exists_app. right. by left. }
  destruct (createRoom_refused now ws authenticated m s Hfail)
    as (a' & pre & reply & -> & Hpre & Hty & _ & H1 & H2 & H3 & H4 & H5 & H6 & H7).
  exists a', s, (pre ++ [Send ws reply]), true. split; [reflexivity|]. split.
  { split; [done|]. by intros [? _]. }
  intros _. exists pre, reply. split; [done|]. split; [done|]. split; [done|].
  split; [by auto|]. split; [by auto|]. split; [by auto|]. split; [by auto|].
  split; [by auto|]. split; [by auto|]. split; [by auto|]. done.
Qed.
(** *** Listing rooms *)

(** The reply that lists room [v] registered under [name]. *)
Definition roomReply (name : string) (v : GameServer) : SocketMessage :=
  mkSocketMessage (gameserver.Features v) (gameserver.GameName v)
    (negb (String.eqb (gameserver.Password v) "")) "" "" "" ""
    (gameserver.PlayerName v) name (gameserver.MD5 v) "" TypeReplyGetRooms "" []
    Accepted "" (gameserver.Port v).

Definition listed (emulator : string) (iv : string * GameServer) : bool :=
  negb (gameserver.Running iv.2) && String.eqb emulator (gameserver.Emulator iv.2).

Lemma range_map_elem_of {A} (m : gmap string A) i x :
  (i, x) ∈ range_map m <-> m !! i = Some x.
Proof. rewrite range_map_perm. apply elem_of_map_to_list. Qed.

Lemma range_map_NoDup {A} (m : gmap string A) : NoDup (range_map m).*1.
Proof. rewrite range_map_perm. apply NoDup_fst_map_to_list. Qed.

Lemma getRooms_loop_eq ws emulator rooms (sendMessage : SocketMessage) :
  Password sendMessage = ""%string -> Message sendMessage = ""%string ->
  ClientSha sendMessage = ""%string -> Emulator sendMessage = ""%string ->
  AuthTime sendMessage = ""%string -> MsgType sendMessage = TypeReplyGetRooms ->
  Auth sendMessage = ""%string -> PlayerNames sendMessage = [] ->
  NetplayVersion sendMessage = ""%string ->
  getRooms_loop ws emulator rooms sendMessage =
  (fun iv => Send ws (roomReply iv.1 iv.2)) <$> List.filter (listed emulator) rooms.
Proof.
  revert sendMessage.
  induction rooms as [|[i v] rooms IH]; intros sm H1 H2 H3 H4 H5 H6 H7 H8 H9; [done|].
  cbn [getRooms_loop List.filter]. unfold listed at 1. cbn [fst snd].
  destruct (gameserver.Running v); cbn [negb andb]; [by apply IH|].
  destruct (String.eqb emulator (gameserver.Emulator v)); cbn [negb]; [|by apply IH].
  cbn [fmap list_fmap]. f_equal.
  - f_equal. destruct sm. cbn in *. unfold roomReply. congruence.
  - apply IH; by destruct sm.
Qed.

(** C10.  A [request_get_rooms] that passes the three checks (API
    version, non-empty emulator, authentication) is answered with one
    [reply_get_rooms] per room that is not running and whose emulator is
    the one of the request, sent to the requester, with accept code
    Accepted and the room's name, game name, MD5, port, features and
    creator, and [protected] set exactly when the password is not
    empty.  No other room is listed, none is listed twice, and the
    registry is not changed. *)
Theorem get_rooms_lists_open_rooms now ws authenticated (m : SocketMessage) (s : LobbyServer) :
  NetplayVersion m = "MPN-4"%string ->
  Emulator m <> ""%string ->
  validateAuth s now m = true ->
  exists ev,
    getRooms now ws authenticated m s = (true, s, ev) /\
    ev = (fun iv => Send ws (roomReply iv.1 iv.2))
           <$> List.filter (listed (Emulator m)) (range_map (GameServers s)) /\
    NoDup ev /\
    (forall e, e ∈ ev -> exists name v,
        e = Send ws (roomReply name v) /\ GameServers s !! name = Some v /\
        gameserver.Running v = false /\ gameserver.Emulator v = Emulator m) /\
    (forall name v,
        GameServers s !! name = Some v ->
        gameserver.Running v = false -> gameserver.Emulator v = Emulator m ->
        Send ws (roomReply name v) ∈ ev) /\
    (forall name v, Protected (roomReply name v) = true <-> gameserver.Password v <> ""%string).
Proof.
  clear remoteIP createTCPServer createUDPServer getVersion NewRequest.
  intros Hv He Ha. unfold getRooms, NetplayAPIVersion.
  rewrite Hv, Ha. cbn [String.eqb negb].
  destruct (String.eqb_spec "MPN-4" "MPN-4") as [_|?]; [|done].
  destruct (String.eqb_spec (Emulator m) "") as [?|_]; [done|]. cbn [negb].
  eexists. split; [reflexivity|].
  rewrite getRooms_loop_eq by done.
  split; [reflexivity|].
  assert (Hin : forall iv, iv ∈ List.filter (listed (Emulator m)) (range_map (GameServers s)) <->
             GameServers s !! iv.1 = Some iv.2 /\ gameserver.Running iv.2 = false /\
             gameserver.Emulator iv.2 = Emulator m).
  { intros [i v]. rewrite list_elem_of_In, List.filter_In, <- list_elem_of_In.
    rewrite range_map_elem_of. unfold listed. cbn [fst snd].
    rewrite andb_true_iff, negb_true_iff, String.eqb_eq. naive_solver. }
  split; [|split; [|split]].
  - apply (NoDup_fmap_2_strong _).
    + intros [i v] [i' v'] H1 H2 Hf.
      apply Hin in H1 as (H1 & _). apply Hin in H2 as (H2 & _).
      apply (f_equal (fun e => match e with Send _ r => RoomName r | _ => ""%string end)) in Hf.
      cbn in *. subst i'. congruence.
    + apply NoDup_fmap_1 with (f := fst).
      eapply sublist_NoDup; [apply (range_map_NoDup (GameServers s))|].
      apply fmap_sublist. clear. induction (range_map (GameServers s)) as [|x l IH]; [done|].
      cbn [List.filter]. destruct (listed _ x); by constructor.
  - intros e (iv & -> & Hiv)%list_elem_of_fmap. apply Hin in Hiv as (? & ? & ?).
    by exists iv.1, iv.2.
  - intros name v H1 H2 H3. apply list_elem_of_fmap. exists (name, v).
    split; [done|]. by apply Hin.
  - intros name v. unfold roomReply. cbn.
    rewrite negb_true_iff. by destruct (String.eqb_spec (gameserver.Password v) "").
Qed.

(** *** Resolving a room by its port *)

Lemma findGameServer_Some s port roomName g :
  findGameServer s port = Some (roomName, g) ->
  GameServers s !! roomName = Some g /\ gameserver.Port g = port.
Proof.
  unfold findGameServer. intros [Hin Hp]%List.find_some.
  apply list_elem_of_In, range_map_elem_of in Hin. cbn in Hp. split; [done|lia].
Qed.

Lemma findGameServer_None s port :
  findGameServer s port = None <->
  forall roomName g, GameServers s !! roomName = Some g -> gameserver.Port g <> port.
Proof.
  unfold findGameServer. split.
  - intros Hn roomName g Hg%range_map_elem_of%list_elem_of_In.
    apply (List.find_none _ _ Hn) in Hg. cbn in Hg. lia.
  - intros Hn. destruct (List.find _ _) as [[roomName g]|] eqn:Hf; [|done].
    apply List.find_some in Hf as [Hin Hp]. exfalso.
    apply list_elem_of_In, range_map_elem_of in Hin. apply (Hn _ _ Hin). cbn in Hp. lia.
Qed.

(** *** Starting the game *)





(** Without authentication the request is logged and dropped. *)
Lemma begin_game_unauthenticated now (m : SocketMessage) (s : LobbyServer) :
  beginGame now false m s =
  (s, [Log "User tried to begin game without being authenticated"]).
Proof. reflexivity. Qed.

(** *** Joining a room *)

Lemma duplicateName_fold name players acc :
  fold_left (fun dup (iv : string * Client) => if String.eqb name iv.1 then true else dup)
            players acc =
  acc || existsb (fun iv => String.eqb name iv.1) players.
Proof.
  revert acc. induction players as [|[k c] players IH]; intros acc; cbn.
  - by rewrite orb_false_r.
  - rewrite IH. destruct (String.eqb name k), acc; cbn; by rewrite ?orb_true_r.
Qed.

Lemma duplicateName_spec name (players : gmap string Client) :
  duplicateName name (range_map players) = true <-> is_Some (players !! name).
Proof.
  unfold duplicateName. rewrite duplicateName_fold. cbn.
  rewrite existsb_exists. split.
  - intros ([k c] & Hin%list_elem_of_In%range_map_elem_of & ->%String.eqb_eq). eauto.
  - intros [c Hc]. exists (name, c). split.
    + by apply list_elem_of_In, range_map_elem_of.
    + apply String.eqb_refl.
Qed.

Lemma goodNumber_fold number players acc :
  fold_left (fun good (iv : string * Client) =>
               if gameserver.Number iv.2 =? number then false else good) players acc =
  acc && forallb (fun iv => negb (gameserver.Number iv.2 =? number)) players.
Proof.
  revert acc. induction players as [|[k c] players IH]; intros acc; cbn.
  - by rewrite andb_true_r.
  - rewrite IH. destruct (gameserver.Number c =? number), acc; cbn; by rewrite ?andb_false_r.
Qed.

(** A seat number is free when no seat of the room has it. *)
Definition freeSeat (players : gmap string Client) (number : Z) : Prop :=
  forall k c, players !! k = Some c -> gameserver.Number c <> number.

Lemma goodNumber_spec number (players : gmap string Client) :
  goodNumber number (range_map players) = true <-> freeSeat players number.
Proof.
  unfold goodNumber, freeSeat. rewrite goodNumber_fold. cbn.
  rewrite forallb_forall. split.
  - intros H k c Hc%range_map_elem_of%list_elem_of_In.
    apply H in Hc. cbn in Hc. apply negb_true_iff in Hc. lia.
  - intros H [k c] Hin%list_elem_of_In%range_map_elem_of.
    cbn. apply negb_true_iff. apply Z.eqb_neq. eauto.
Qed.

Lemma seatNumber_spec fuel start players :
  let r := seatNumber fuel start players in
  start <= r <= start + Z.of_nat fuel /\
  (forall n, start <= n < r -> goodNumber n players = false) /\
  (r < start + Z.of_nat fuel -> goodNumber r players = true).
Proof.
  revert start. induction fuel as [|fuel IH]; intros start; cbn [seatNumber].
  - cbn. repeat split; try lia.
  - destruct (goodNumber start players) eqn:Hg.
    + cbn zeta. repeat split; try lia. done.
    + specialize (IH (start + 1)). cbn zeta in *.
      destruct IH as (H1 & H2 & H3). repeat split; try lia.
      * intros n0 Hn. destruct (decide (n0 = start)) as [->|]; [done|]. apply H2. lia.
      * intros Hr. apply H3. lia.
Qed.

Lemma size_delete_S (players : gmap string Client) k c :
  players !! k = Some c -> size players = S (size (delete k players)).
Proof.
  intros Hk. rewrite map_size_delete, Hk.
  assert (size players <> 0%nat) by (apply (map_size_ne_0_lookup_2 _ k); eauto).
  cbn. lia.
Qed.

(** Four seats with the four numbers are four seats. *)
Lemma four_numbers_four_seats (players : gmap string Client) :
  (forall n, 0 <= n < 4 -> ~ freeSeat players n) -> (4 <= size players)%nat.
Proof.
  intros H.
  assert (Hex : forall n, 0 <= n < 4 ->
            exists k c, players !! k = Some c /\ gameserver.Number c = n).
  { intros n Hn. apply H in Hn.
    destruct (decide (Exists (fun kc => gameserver.Number kc.2 = n) (map_to_list players)))
      as [(kc & Hin & Hkc)%Exists_exists|Hno].
    - exists kc.1, kc.2. split; [|done]. apply elem_of_map_to_list. by destruct kc.
    - exfalso. apply Hn. intros k c Hc Hnum. apply Hno, Exists_exists.
      exists (k, c). split; [by apply elem_of_map_to_list|done]. }
  destruct (Hex 0) as (k0 & c0 & H0 & N0); [lia|].
  destruct (Hex 1) as (k1 & c1 & H1 & N1); [lia|].
  destruct (Hex 2) as (k2 & c2 & H2 & N2); [lia|].
  destruct (Hex 3) as (k3 & c3 & H3 & N3); [lia|].
  assert (k0 <> k1 /\ k0 <> k2 /\ k0 <> k3 /\ k1 <> k2 /\ k1 <> k3 /\ k2 <> k3)
    as (? & ? & ? & ? & ? & ?) by (repeat split; intros ->; simplify_eq; lia).
  rewrite (size_delete_S players k0 c0) by done.
  rewrite (size_delete_S (delete k0 players) k1 c1) by (by rewrite lookup_delete_ne).
  rewrite (size_delete_S (delete k1 (delete k0 players)) k2 c2)
    by (by rewrite !lookup_delete_ne).
  rewrite (size_delete_S (delete k2 (delete k1 (delete k0 players))) k3 c3)
    by (by rewrite !lookup_delete_ne).
  lia.
Qed.

(** The seat the loop picks in a room with fewer than four seats. *)
Lemma seatNumber_lowest_free (players : gmap string Client) :
  (size players < 4)%nat ->
  let number := seatNumber 4 0 (range_map players) in
  0 <= number < 4 /\ freeSeat players number /\
  (forall n, 0 <= n < number -> ~ freeSeat players n).
Proof.
  intros Hsize number.
  destruct (seatNumber_spec 4 0 (range_map players)) as (H1 & H2 & H3). fold number in H1, H2, H3.
  assert (Hlow : forall n, 0 <= n < number -> ~ freeSeat players n).
  { intros n Hn Hfree%goodNumber_spec. rewrite H2 in Hfree; [done|lia]. }
  assert (number < 4).
  { destruct (decide (number < 4)) as [|Hge]; [done|]. exfalso.
    assert (4 <= size players)%nat; [|lia].
    apply four_numbers_four_seats. intros n Hn. apply Hlow. lia. }
  split; [lia|]. split; [|done]. apply goodNumber_spec, H3. lia.
Qed.

Lemma GameServers_set_GameServers x (s : LobbyServer) :
  GameServers (set_GameServers x s) = x.
Proof. by destruct s. Qed.

Lemma Players_set_Players x (g : GameServer) :
  gameserver.Players (gameserver.set_Players x g) = x.
Proof. by destruct g. Qed.

(** The room after [name] has joined it from [ws] on seat [number]. *)
Definition joined (ws : Conn) (name : string) (number : Z) (g : GameServer) : GameServer :=
  gameserver.set_Players
    (<[name := gameserver.mkClient ws (remoteIP ws) number]> (gameserver.Players g)) g.

(** C2.  On an authenticated connection the reply to [request_join_room]
    is one [reply_join_room] sent to the requester, and its accept code is
    that of the first check that fails, in the order: no room has the
    port (RoomDeleted), the room has a password and it is not the one of
    the request (BadPassword), the client builds differ (MismatchVersion),
    the MD5s differ (MismatchVersion), four seats are taken (RoomFull),
    the player name is empty (BadName), the player name is in the room
    (DuplicateName).  A refusal leaves the server, and so the seats of the
    room, as they were.  When no check fails the reply is Accepted and
    the room in the registry has one seat more: the joiner, under the
    player name of the request, with the connection and its address, on
    the lowest number of 0..3 that no seat of the room has.  Every other
    seat of the room and every other room is as it was. *)
Theorem join_room_reply ws (m : SocketMessage) (s : LobbyServer) :
  exists s' pre reply,
    joinRoom ws true m s = (s', pre ++ [Send ws reply]) /\
    sends pre = [] /\
    MsgType reply = TypeReplyJoinRoom /\
    match findGameServer s (Port m) with
    | None => Accept reply = RoomDeleted /\ s' = s
    | Some (roomName, g) =>
        let badPassword :=
          gameserver.Password g <> ""%string /\ gameserver.Password g <> Password m in
        let full := (4 <= size (gameserver.Players g))%nat in
        let duplicate := is_Some (gameserver.Players g !! PlayerName m) in
        GameServers s !! roomName = Some g /\
        gameserver.Port g = Port m /\
        (badPassword -> Accept reply = BadPassword /\ s' = s) /\
        (~ badPassword -> gameserver.ClientSha g <> ClientSha m ->
           Accept reply = MismatchVersion /\ s' = s) /\
        (~ badPassword -> gameserver.ClientSha g = ClientSha m ->
         gameserver.MD5 g <> MD5 m ->
           Accept reply = MismatchVersion /\ s' = s) /\
        (~ badPassword -> gameserver.ClientSha g = ClientSha m ->
         gameserver.MD5 g = MD5 m -> full ->
           Accept reply = RoomFull /\ s' = s) /\
        (~ badPassword -> gameserver.ClientSha g = ClientSha m ->
         gameserver.MD5 g = MD5 m -> ~ full -> PlayerName m = ""%string ->
           Accept reply = BadName /\ s' = s) /\
        (~ badPassword -> gameserver.ClientSha g = ClientSha m ->
         gameserver.MD5 g = MD5 m -> ~ full -> PlayerName m <> ""%string ->
         duplicate ->
           Accept reply = DuplicateName /\ s' = s) /\
        (~ badPassword -> gameserver.ClientSha g = ClientSha m ->
         gameserver.MD5 g = MD5 m -> ~ full -> PlayerName m <> ""%string ->
         ~ duplicate ->
           exists number g',
             Accept reply = Accepted /\
             0 <= number < 4 /\
             freeSeat (gameserver.Players g) number /\
             (forall n, 0 <= n < number -> ~ freeSeat (gameserver.Players g) n) /\
             s' = set_GameServers
                    (<[roomName := joined ws (PlayerName m) number g]> (GameServers s)) s /\
             GameServers s' !! roomName = Some g' /\
             (forall name, name <> roomName -> GameServers s' !! name = GameServers s !! name) /\
             gameserver.Players g' !! PlayerName m =
               Some (gameserver.mkClient ws (remoteIP ws) number) /\
             (forall k, k <> PlayerName m ->
                gameserver.Players g' !! k = gameserver.Players g !! k) /\
             size (gameserver.Players g') = S (size (gameserver.Players g)) /\
             gameserver.Port g' = gameserver.Port g /\
             RoomName reply = roomName /\
             GameName reply = gameserver.GameName g /\
             PlayerName reply = PlayerName m /\
             Features reply = gameserver.Features g /\
             Port reply = gameserver.Port g)
    end.
Proof.
  clear Getenv ToUpper Sum256 overflow createTCPServer createUDPServer getVersion NewRequest.
  unfold joinRoom. cbn [negb].
  destruct (findGameServer s (Port m)) as [[roomName g]|] eqn:Hf.
  2:{ eexists _, [Log _], _. split; [reflexivity|]. by repeat split. }
  destruct (findGameServer_Some _ _ _ _ Hf) as [Hg Hp].
  pose proof (duplicateName_spec (PlayerName m) (gameserver.Players g)) as Hdup.
  destruct (String.eqb_spec (gameserver.Password g) "") as [Hpw|Hpw]; cbn [negb andb];
    [|destruct (String.eqb_spec (gameserver.Password g) (Password m)) as [Hpm|Hpm];
      cbn [negb]].
  3:{ eexists _, [], _. split; [reflexivity|]. refused. }
  all: destruct (String.eqb_spec (gameserver.ClientSha g) (ClientSha m)) as [Hsha|Hsha];
    cbn [negb]; [|eexists _, [], _; split; [reflexivity|]; refused].
  all: destruct (String.eqb_spec (gameserver.MD5 g) (MD5 m)) as [Hmd|Hmd];
    cbn [negb]; [|eexists _, [], _; split; [reflexivity|]; refused].
  all: destruct (Z.geb_spec (Z.of_nat (size (gameserver.Players g))) 4) as [Hfull|Hfull];
    [eexists _, [], _; split; [reflexivity|]; refused; lia|].
  all: destruct (String.eqb_spec (PlayerName m) "") as [Hn|Hn];
    [eexists _, [], _; split; [reflexivity|]; refused; lia|].
  all: destruct (duplicateName _ _) eqn:Hd;
    [eexists _, [], _; split; [reflexivity|]; refused;
     try lia; exfalso; match goal with H : ~ is_Some _ |- _ => apply H end; by apply Hdup|].
  all: assert (Hnd : ~ is_Some (gameserver.Players g !! PlayerName m))
         by (rewrite <- Hdup; congruence).
  all: destruct (seatNumber_lowest_free (gameserver.Players g)) as (Hs1 & Hs2 & Hs3); [lia|].
  all: eexists _, [Log _], _; split; [reflexivity|].
  all: split; [done|]; split; [done|]; split; [done|]; split; [done|].
  all: do 6 (split; [intros; try tauto; try congruence; try lia|]).
  all: intros _ _ _ _ _ _; exists (seatNumber 4 0 (range_map (gameserver.Players g))),
         (joined ws (PlayerName m) (seatNumber 4 0 (range_map (gameserver.Players g))) g).
  all: split; [reflexivity|].
  all: split; [exact Hs1|]; split; [exact Hs2|]; split; [exact Hs3|].
  all: split; [by destruct g|].
  all: unfold joined; cbn [fst]; rewrite GameServers_set_GameServers, Players_set_Players.
  all: split; [by rewrite lookup_insert_eq|].
  all: split; [by intros name Hne; rewrite lookup_insert_ne|].
  all: split; [by rewrite lookup_insert_eq|].
  all: split; [by intros k Hne; rewrite lookup_insert_ne|].
  all: split; [apply map_size_insert_None; by apply eq_None_not_Some|].
  all: by destruct g.
Qed.

(** Without authentication the request is logged and dropped. *)
Lemma join_room_unauthenticated ws (m : SocketMessage) (s : LobbyServer) :
  joinRoom ws false m s =
  (s, [Log "User tried to join room without being authenticated"]).
Proof. reflexivity. Qed.

(** *** A connection closes *)

(** The seats of a room that are not on connection [ws]. *)
Definition stay (ws : Conn) (players : gmap string Client) : gmap string Client :=
  filter (fun kw => gameserver.Socket kw.2 <> ws) players.

(** What the [io.EOF] branch makes of room [v]: a running room is kept as
    it is; another room loses the seats of [ws] and, if no seat is left,
    its entry. *)
Definition roomAfterEOF (ws : Conn) (v : GameServer) : option GameServer :=
  if gameserver.Running v then Some v
  else if decide (stay ws (gameserver.Players v) = ∅) then None
  else Some (gameserver.set_Players (stay ws (gameserver.Players v)) v).

Definition seatsInRange (g : GameServer) : Prop :=
  forall k c, gameserver.Players g !! k = Some c -> 0 <= gameserver.Number c < 4.

Lemma playerNames_Some players names :
  length names = 4%nat ->
  (forall k c, (k, c) ∈ players -> 0 <= gameserver.Number c < 4) ->
  is_Some (playerNames players names).
Proof.
  no_parameters.
  revert names. induction players as [|[k c] players IH]; intros names Hl Hr; [by eexists|].
  cbn [playerNames]. rewrite store_Some by (specialize (Hr k c); rewrite Hl; set_solver).
  cbn. apply IH; [by rewrite length_insert|].
  intros k' c' Hin. apply (Hr k' c'). set_solver.
Qed.

Lemma updatePlayers_Some g : seatsInRange g -> is_Some (updatePlayers g).
Proof.
  intros Hr. unfold updatePlayers.
  destruct (playerNames_Some (range_map (gameserver.Players g)) (replicate 4 ""%string))
    as [names Hn]; [done| |].
  - intros k c Hin%range_map_elem_of. eauto.
  - replace (PlayerNames _) with (replicate 4 ""%string) by done.
    rewrite Hn. by eexists.
Qed.

Definition leave (ws : Conn) (players : gmap string Client) (kw : string * Client)
    : gmap string Client :=
  if Nat.eqb (gameserver.Socket kw.2) ws then delete kw.1 players else players.

Lemma leave_lookup ws l (players : gmap string Client) k :
  fold_left (leave ws) l players !! k =
  if decide (Exists (fun kw => kw.1 = k /\ gameserver.Socket kw.2 = ws) l) then None
  else players !! k.
Proof.
  revert players. induction l as [|[k' w] l IH]; intros players; cbn [fold_left].
  - rewrite decide_False; [done|]. by intros ?%Exists_nil.
  - rewrite IH. unfold leave. cbn [fst snd].
    destruct (decide (Exists _ l)) as [He|He].
    + rewrite decide_True; [done|]. by apply Exists_cons_tl.
    + destruct (Nat.eqb_spec (gameserver.Socket w) ws) as [Hw|Hw].
      * destruct (decide (k' = k)) as [->|Hk].
        -- rewrite decide_True; [apply lookup_delete_eq|]. by apply Exists_cons_hd.
        -- rewrite lookup_delete_ne by done.
           rewrite decide_False; [done|]. intros [[? ?]|?]%Exists_cons; done.
      * rewrite decide_False; [done|]. intros [[? ?]|?]%Exists_cons; done.
Qed.

Lemma leave_all ws (players : gmap string Client) :
  fold_left (leave ws) (range_map players) players = stay ws players.
Proof.
  only_range.
  apply map_eq. intros k. rewrite leave_lookup. unfold stay.
  destruct (decide (Exists _ _)) as [He|He].
  - apply Exists_exists in He as ([k' w] & Hin%range_map_elem_of & Hk & Hw). cbn in *. subst k'.
    symmetry. apply map_lookup_filter_None. right. intros w' Hw'. cbn. naive_solver.
  - destruct (players !! k) as [w|] eqn:Hk.
    + symmetry. apply map_lookup_filter_Some. split; [done|]. cbn. intros Hw.
      apply He, Exists_exists. exists (k, w). split; [by apply range_map_elem_of|done].
    + symmetry. apply map_lookup_filter_None. by left.
Qed.

Lemma leaveLobby_spec ws l v :
  seatsInRange v ->
  exists ev,
    leaveLobby ws l v =
    Some (gameserver.set_Players (fold_left (leave ws) l (gameserver.Players v)) v, ev).
Proof.
  revert v. induction l as [|[k w] l IH]; intros v Hr.
  - exists []. cbn. by destruct v.
  - cbn [leaveLobby fold_left]. unfold leave at 2. cbn [fst snd].
    destruct (Nat.eqb (gameserver.Socket w) ws).
    + set (v1 := gameserver.set_Players (delete k (gameserver.Players v)) v).
      assert (Hp1 : gameserver.Players v1 = delete k (gameserver.Players v)) by by destruct v.
      assert (Hr1 : seatsInRange v1).
      { intros k' c'. rewrite Hp1. intros [_ H]%lookup_delete_Some. eauto. }
      destruct (updatePlayers_Some v1 Hr1) as [ev1 ->].
      destruct (IH v1 Hr1) as [ev2 ->]. cbn.
      eexists. rewrite Hp1. by destruct v.
    + by apply IH.
Qed.

(** The events that close the listeners of a room. *)
Definition closes (v : GameServer) : list Event :=
  match gameserver.UDPListener v with
  | Some l => [Room (gameserver.EvCloseUDP l)]
  | None => []
  end ++
  match gameserver.TCPListener v with
  | Some l => [Room (gameserver.EvCloseTCP l)]
  | None => []
  end.

Lemma CloseServers_closes v players :
  Room <$> (gameserver.CloseServers (gameserver.set_Players players v)).2 = closes v.
Proof.
  destruct v as [st pl tl ul rg tf cd gn pw cs md em ts gd port hs run ft pn buf la lp ct].
  by destruct tl, ul.
Qed.

Lemma closedConnection_spec ws rooms s :
  NoDup rooms.*1 ->
  (forall i v, (i, v) ∈ rooms -> GameServers s !! i = Some v /\ seatsInRange v) ->
  exists s' ev,
    closedConnection ws rooms s = Some (s', ev) /\
    s' = set_GameServers (GameServers s') s /\
    (forall i v, (i, v) ∈ rooms -> GameServers s' !! i = roomAfterEOF ws v) /\
    (forall i, i ∉ rooms.*1 -> GameServers s' !! i = GameServers s !! i) /\
    (forall i v e, (i, v) ∈ rooms -> roomAfterEOF ws v = None -> e ∈ closes v -> e ∈ ev).
Proof.
  only_range.
  revert s. induction rooms as [|[i v] rooms IH]; intros s Hnd Hs.
  { exists s, []. split; [done|]. split; [by destruct s|]. set_solver. }
  apply NoDup_cons in Hnd as [Hi Hnd]. cbn [fmap list_fmap fst] in Hi.
  destruct (Hs i v) as [Hiv Hrange]; [set_solver|].
  assert (Hfresh : forall v', (i, v') ∉ rooms).
  { intros v' Hin. apply Hi. apply list_elem_of_fmap. by exists (i, v'). }
  cbn [closedConnection].
  destruct (gameserver.Running v) eqn:Hrun; cbn [negb].
  - destruct (IH s Hnd) as (s' & ev & -> & Hs' & HA & HB & HC); [intros; apply Hs; set_solver|].
    exists s', ev. split; [done|]. split; [done|]. split; [|split].
    + intros i' v' [[= -> ->]|Hin]%elem_of_cons; [|by apply HA].
      rewrite HB by done. unfold roomAfterEOF. by rewrite Hrun.
    + intros i' Hn. apply HB. set_solver.
    + intros i' v' e [[= -> ->]|Hin]%elem_of_cons; [|by eapply HC].
      unfold roomAfterEOF. by rewrite Hrun.
  - destruct (leaveLobby_spec ws (range_map (gameserver.Players v)) v Hrange) as [ev1 ->].
    rewrite leave_all. cbn [mbind option_bind].
    set (v1 := gameserver.set_Players (stay ws (gameserver.Players v)) v).
    assert (Hp1 : gameserver.Players v1 = stay ws (gameserver.Players v)) by by destruct v.
    rewrite Hp1.
    set (s1 := set_GameServers (<[i:=v1]> (GameServers s)) s).
    assert (Hg1 : GameServers s1 = <[i:=v1]> (GameServers s)) by by destruct s.
    destruct (Nat.eqb_spec (size (stay ws (gameserver.Players v))) 0) as [Hz|Hz].
    + apply map_size_empty_iff in Hz.
      destruct (gameserver.CloseServers v1) as [v2 cl] eqn:Hcl.
      set (s2 := set_GameServers (delete i (GameServers s1)) s1).
      assert (Hg2 : GameServers s2 = delete i (GameServers s)).
      { unfold s2. rewrite Hg1, delete_insert_eq. by destruct s1. }
      destruct (IH s2 Hnd) as (s' & ev & -> & Hs' & HA & HB & HC).
      { intros i' v' Hin. destruct (Hs i' v') as [H1 H2]; [set_solver|]. split; [|done].
        rewrite Hg2, lookup_delete_ne; [done|]. intros ->. by apply (Hfresh v'). }
      cbn [mbind option_bind fst snd]. eexists _, _. split; [reflexivity|].
      split; [by rewrite Hs'; destruct s|]. split; [|split].
      * intros i' v' [[= -> ->]|Hin]%elem_of_cons; [|by apply HA].
        rewrite HB, Hg2, lookup_delete_eq by done.
        unfold roomAfterEOF. rewrite Hrun. by rewrite decide_True.
      * intros i' Hn. rewrite HB by set_solver. rewrite Hg2, lookup_delete_ne; set_solver.
      * intros i' v' e [[= -> ->]|Hin]%elem_of_cons.
        -- intros _ He. pose proof (CloseServers_closes v (stay ws (gameserver.Players v))) as Hc.
           fold v1 in Hc. rewrite Hcl in Hc. cbn in Hc. rewrite Hc. set_solver.
        -- intros H1 H2. pose proof (HC i' v' e Hin H1 H2). set_solver.
    + assert (Hne : stay ws (gameserver.Players v) <> ∅) by by rewrite <- map_size_empty_iff.
      destruct (IH s1 Hnd) as (s' & ev & -> & Hs' & HA & HB & HC).
      { intros i' v' Hin. destruct (Hs i' v') as [H1 H2]; [set_solver|]. split; [|done].
        rewrite Hg1, lookup_insert_ne; [done|]. intros ->. by apply (Hfresh v'). }
      cbn [mbind option_bind fst snd]. eexists _, _. split; [reflexivity|].
      split; [by rewrite Hs'; destruct s|]. split; [|split].
      * intros i' v' [[= -> ->]|Hin]%elem_of_cons; [|by apply HA].
        rewrite HB, Hg1, lookup_insert_eq by done.
        unfold roomAfterEOF. rewrite Hrun. by rewrite decide_False.
      * intros i' Hn. rewrite HB by set_solver. rewrite Hg1, lookup_insert_ne; set_solver.
      * intros i' v' e [[= -> ->]|Hin]%elem_of_cons.
        -- unfold roomAfterEOF. rewrite Hrun. by rewrite decide_False.
        -- intros H1 H2. pose proof (HC i' v' e Hin H1 H2). set_solver.
Qed.

(** C9, as the code has it.  When the connection [ws] closes with
    [io.EOF]: a room that is not running loses every seat whose socket is
    [ws] and keeps the others; if it has no seat then, its listeners are
    closed and its entry leaves the registry.  A running room keeps its
    entry and all its seats, the seats of [ws] too.  Nothing else of the
    server changes.  (Seat numbers within 0..3 keep [updatePlayers] from
    panicking.) *)
Theorem eof_leaves_lobby_rooms ws (s : LobbyServer) :
  (forall name g, GameServers s !! name = Some g -> seatsInRange g) ->
  exists s' ev,
    handleEOF ws s = Some (s', ev) /\
    s' = set_GameServers (GameServers s') s /\
    (forall name, GameServers s' !! name = GameServers s !! name ≫= roomAfterEOF ws) /\
    (forall name v, GameServers s !! name = Some v -> gameserver.Running v = true ->
       GameServers s' !! name = Some v) /\
    (forall name v, GameServers s !! name = Some v -> gameserver.Running v = false ->
       match GameServers s' !! name with
       | Some v' =>
           v' = gameserver.set_Players (gameserver.Players v') v /\
           (forall k c, gameserver.Players v' !! k = Some c <->
                        gameserver.Players v !! k = Some c /\ gameserver.Socket c <> ws)
       | None =>
           (forall k c, gameserver.Players v !! k = Some c -> gameserver.Socket c = ws) /\
           (forall e, e ∈ closes v -> e ∈ ev)
       end).
Proof.
  intros Hrange. unfold handleEOF.
  destruct (closedConnection_spec ws (range_map (GameServers s)) s)
    as (s' & ev & Heq & Hs' & HA & HB & HC).
  { apply range_map_NoDup. }
  { intros i v Hin%range_map_elem_of. eauto. }
  assert (Hall : forall name,
             GameServers s' !! name = GameServers s !! name ≫= roomAfterEOF ws).
  { intros name. destruct (GameServers s !! name) as [v|] eqn:Hv; cbn.
    - apply HA. by apply range_map_elem_of.
    - rewrite HB, Hv; [done|].
      intros ([i v] & -> & Hin%range_map_elem_of)%list_elem_of_fmap. cbn in Hv. congruence. }
  exists s', ev. split; [done|]. split; [done|]. split; [done|]. split.
  - intros name v Hv Hrun. rewrite Hall, Hv. cbn. unfold roomAfterEOF. by rewrite Hrun.
  - intros name v Hv Hrun. rewrite Hall, Hv. cbn.
    destruct (roomAfterEOF ws v) as [v'|] eqn:Hafter.
    + unfold roomAfterEOF in Hafter. rewrite Hrun in Hafter.
      destruct (decide _); [done|]. injection Hafter as <-. split; [by destruct v|].
      intros k c. replace (gameserver.Players (gameserver.set_Players _ v))
        with (stay ws (gameserver.Players v)) by by destruct v.
      unfold stay. by rewrite map_lookup_filter_Some.
    + split.
      * unfold roomAfterEOF in Hafter. rewrite Hrun in Hafter.
        destruct (decide _) as [He|]; [|done].
        intros k c Hk. destruct (decide (gameserver.Socket c = ws)) as [|Hne]; [done|].
        exfalso. assert (stay ws (gameserver.Players v) !! k = Some c) as Hst
          by by apply map_lookup_filter_Some.
        by rewrite He in Hst.
      * intros e He. eapply HC; [|done|done]. by apply range_map_elem_of.
Qed.

(** *** A connection is reset *)

(** The server after [handlePlayerDrop] has deleted seat [playerName] of
    room [g], registered under [roomName]. *)
Definition dropped (roomName : string) (g : GameServer) (playerName : string)
    (s : LobbyServer) : LobbyServer :=
  let g' := gameserver.set_Players (delete playerName (gameserver.Players g)) g in
  if decide (delete playerName (gameserver.Players g) = ∅) then
    set_GameServers (delete roomName (GameServers s))
      (set_ActivePorts (removePort (gameserver.Port g) (ActivePorts s)) s)
  else set_GameServers (<[roomName := g']> (GameServers s)) s.

Lemma dropFrom_Some ws g playerName :
  dropFrom ws g = Some playerName ->
  exists c, gameserver.Players g !! playerName = Some c /\ gameserver.Socket c = ws.
Proof.
  unfold dropFrom. destruct (List.find _ _) as [[k c]|] eqn:Hf; [|done].
  intros [= <-]. apply List.find_some in Hf as [Hin Hw].
  exists c. split; [by apply range_map_elem_of, list_elem_of_In|].
  by apply Nat.eqb_eq in Hw.
Qed.

Lemma dropFrom_None ws g :
  dropFrom ws g = None ->
  forall k c, gameserver.Players g !! k = Some c -> gameserver.Socket c <> ws.
Proof.
  unfold dropFrom. destruct (List.find _ _) as [[k c]|] eqn:Hf; [done|].
  intros _ k c Hin%range_map_elem_of%list_elem_of_In.
  apply (List.find_none _ _ Hf) in Hin. by apply Nat.eqb_neq in Hin.
Qed.

(** X12.  On the path of a reset connection ([handlePlayerDrop]) one seat of
    [ws] goes, the first that the two loops meet, whether its room is
    running or not; a room left without a seat loses its entry and its
    port leaves [ActivePorts].  No listener is closed on this path.  With
    no seat of [ws] nothing changes. *)
Lemma handlePlayerDrop_spec ws (s : LobbyServer) :
  (handlePlayerDrop ws s = (s, []) /\
   forall name g k c,
     GameServers s !! name = Some g -> gameserver.Players g !! k = Some c ->
     gameserver.Socket c <> ws) \/
  (exists roomName g playerName c ev,
     GameServers s !! roomName = Some g /\
     gameserver.Players g !! playerName = Some c /\
     gameserver.Socket c = ws /\
     handlePlayerDrop ws s = (dropped roomName g playerName s, ev) /\
     forall e, e ∈ ev -> exists text, e = Log text).
Proof.
  unfold handlePlayerDrop.
  assert (Hgen : forall rooms,
    (forall i v, (i, v) ∈ rooms -> GameServers s !! i = Some v) ->
    (playerDrop ws rooms s = (s, []) /\
     forall name g k c, (name, g) ∈ rooms -> gameserver.Players g !! k = Some c ->
       gameserver.Socket c <> ws) \/
    (exists roomName g playerName c ev,
       GameServers s !! roomName = Some g /\
       gameserver.Players g !! playerName = Some c /\
       gameserver.Socket c = ws /\
       playerDrop ws rooms s = (dropped roomName g playerName s, ev) /\
       forall e, e ∈ ev -> exists text, e = Log text)).
  { induction rooms as [|[roomName g] rooms IH]; intros Hs.
    - left. split; [done|]. intros name g k c Hin. by apply elem_of_nil in Hin.
    - cbn [playerDrop]. destruct (dropFrom ws g) as [playerName|] eqn:Hd.
      + right. destruct (dropFrom_Some _ _ _ Hd) as (c & Hc & Hw).
        exists roomName, g, playerName, c.
        assert (Hp : gameserver.Players
                       (gameserver.set_Players (delete playerName (gameserver.Players g)) g)
                     = delete playerName (gameserver.Players g)) by by destruct g.
        assert (Hport : gameserver.Port
                       (gameserver.set_Players (delete playerName (gameserver.Players g)) g)
                     = gameserver.Port g) by by destruct g.
        rewrite Hp, Hport. unfold dropped.
        destruct (Nat.eqb_spec (size (delete playerName (gameserver.Players g))) 0) as [Hz|Hz].
        * apply map_size_empty_iff in Hz. rewrite decide_True by done.
          eexists. split; [apply Hs; by left|]. split; [done|]. split; [done|]. split.
          -- f_equal. destruct s. cbn. f_equal. by rewrite delete_insert_eq.
          -- intros e [->|[->|?%elem_of_nil]%elem_of_cons]%elem_of_cons; by eauto.
        * rewrite decide_False by (by rewrite <- map_size_empty_iff).
          eexists. split; [apply Hs; by left|]. split; [done|]. split; [done|]. split; [done|].
          intros e [->|?%elem_of_nil]%elem_of_cons; by eauto.
      + destruct IH as [[Heq Hno]|Hyes].
        * intros i v Hin. apply Hs. by right.
        * left. split; [done|].
          intros name g' k c [[= -> ->]|Hin]%elem_of_cons Hk; [|by eapply (Hno name)].
          by eapply dropFrom_None.
        * by right. }
  destruct (Hgen (range_map (GameServers s))) as [[Heq Hno]|Hyes].
  - intros i v Hin. by apply range_map_elem_of.
  - left. split; [done|]. intros name g k c Hg. apply (Hno name). by apply range_map_elem_of.
  - by right.
Qed.

(** *** Authentication *)

Lemma float64_of_int_small d : Z.abs d < 2 ^ 53 -> float64_of_int d = d.
Proof.
  intros H. unfold float64_of_int. destruct (Z.ltb_spec (Z.abs d) (2 ^ 53)); [done|lia].
Qed.

Lemma float64_of_int_big d :
  2 ^ 53 <= Z.abs d < 2 ^ 63 - 512 ->
  2 ^ 53 <= Z.abs (float64_of_int d) < 2 ^ 63.
Proof.
  intros [Hlo Hhi]. unfold float64_of_int.
  destruct (Z.ltb_spec (Z.abs d) (2 ^ 53)); [lia|].
  set (a := Z.abs d) in *.
  assert (Ha : 0 < a) by lia.
  pose proof (Z.log2_spec a Ha) as [Hl1 Hl2].
  assert (53 <= Z.log2 a) by (apply Z.log2_le_pow2; lia).
  assert (Z.log2 a < 63) by (apply Z.log2_lt_pow2; lia).
  rewrite Z.abs_mul.
  replace (Z.abs (Z.sgn d)) with 1 by lia. rewrite Z.mul_1_l.
  assert (Hcase : exists k, 1 <= k <= 10 /\ Z.log2 a = 52 + k) by (exists (Z.log2 a - 52); lia).
  destruct Hcase as (k & Hk & HL). rewrite HL in *.
  replace (52 + k - 52) with k by lia.
  replace (Z.succ (52 + k)) with (53 + k) in Hl2 by lia.
  assert (k = 1 \/ k = 2 \/ k = 3 \/ k = 4 \/ k = 5 \/ k = 6 \/ k = 7 \/ k = 8 \/ k = 9 \/ k = 10)
    as Hks by lia.
  destruct Hks as [-> | [-> | [-> | [-> | [-> | [-> | [-> | [-> | [-> | ->]]]]]]]]];
    cbn [Z.sub Z.add Z.opp Z.pos_sub Pos.add Pos.succ Z.pow Z.pow_pos Pos.iter Z.mul Pos.mul Pos.pred_double Z.succ_double Z.pred_double Z.double] in *;
    match goal with |- context [a / ?P] =>
       pose proof (Z.div_mod a P ltac:(lia)); pose proof (Z.mod_pos_bound a P ltac:(lia)) end;
    destruct ((_ >? _) || _) eqn:Hround;
    try (apply orb_true_iff in Hround as [Hr|[Hr _]%andb_true_iff];
         [apply Z.gtb_lt in Hr|apply Z.eqb_eq in Hr]);
    rewrite ?Z.abs_eq by lia; lia.
Qed.

Lemma Sub_exact t u :
  Z.abs (t - u) < 2 ^ 63 -> Sub t u = t - u.
Proof.
  intros H. unfold Sub, minDuration, maxDuration.
  destruct (Z.ltb_spec (t - u) (- 2 ^ 63)); [lia|].
  destruct (Z.gtb_spec (t - u) (2 ^ 63 - 1)); [lia|done].
Qed.

Lemma Sub_range t u : - 2 ^ 63 <= Sub t u <= 2 ^ 63 - 1.
Proof.
  unfold Sub, minDuration, maxDuration.
  destruct (Z.ltb_spec (t - u) (- 2 ^ 63)); [lia|].
  destruct (Z.gtb_spec (t - u) (2 ^ 63 - 1)); lia.
Qed.

(** The skew check of [validateAuth], as a function of the two times. *)
Definition skewed (now receivedTime : Z) : bool :=
  int64_of_float overflow (Z.abs (float64_of_int (Sub now receivedTime))) >? 15 * Minute.

(** Below the point where the conversion to [float64] and back can
    leave [int64], the check compares the distance of the two times with
    15 minutes. *)
Lemma skewed_in_range now receivedTime :
  Z.abs (now - receivedTime) < 2 ^ 63 - 512 ->
  skewed now receivedTime = (Z.abs (now - receivedTime) >? 15 * Minute).
Proof.
  intros H. unfold skewed. rewrite Sub_exact by lia.
  set (d := now - receivedTime) in *.
  destruct (Z.lt_ge_cases (Z.abs d) (2 ^ 53)) as [Hs|Hb].
  - rewrite float64_of_int_small by done.
    unfold int64_of_float.
    destruct (Z.leb_spec (- 2 ^ 63) (Z.abs d)); [|lia].
    destruct (Z.ltb_spec (Z.abs d) (2 ^ 63)); [done|lia].
  - pose proof (float64_of_int_big d ltac:(lia)) as [H1 H2].
    unfold int64_of_float.
    destruct (Z.leb_spec (- 2 ^ 63) (Z.abs (float64_of_int d))); [|lia].
    destruct (Z.ltb_spec (Z.abs (float64_of_int d)) (2 ^ 63)); [|lia].
    cbn [andb]. unfold Minute.
    destruct (Z.gtb_spec (Z.abs (float64_of_int d)) (15 * (60 * 1000000000)));
      destruct (Z.gtb_spec (Z.abs d) (15 * (60 * 1000000000))); (done || lia).
Qed.

(** Where the conversion leaves [int64], the outcome is the
    implementation's: a target that saturates still refuses. *)
Lemma skewed_saturating now receivedTime :
  15 * Minute < overflow ->
  skewed now receivedTime = (Z.abs (now - receivedTime) >? 15 * Minute).
Proof.
  intros Ho.
  destruct (Z.lt_ge_cases (Z.abs (now - receivedTime)) (2 ^ 63 - 512)) as [Hs|Hb];
    [by apply skewed_in_range|].
  unfold skewed.
  assert (Hbig : 2 ^ 63 - 512 <= Z.abs (Sub now receivedTime)).
  { unfold Sub, minDuration, maxDuration.
    destruct (Z.ltb_spec (now - receivedTime) (- 2 ^ 63)); [lia|].
    destruct (Z.gtb_spec (now - receivedTime) (2 ^ 63 - 1)); lia. }
  pose proof (Sub_range now receivedTime) as Hr.
  set (d := Sub now receivedTime) in *.
  assert (Hf : Z.abs (float64_of_int d) = 2 ^ 63).
  { destruct (Z.eq_dec d (- 2 ^ 63)) as [->|Hne]; [by vm_compute|].
    unfold float64_of_int.
    destruct (Z.ltb_spec (Z.abs d) (2 ^ 53)); [lia|].
    assert (Hl : Z.log2 (Z.abs d) = 62) by (apply Z.log2_unique; lia).
    rewrite Hl. change (62 - 52) with 10. change (10 - 1) with 9.
    rewrite Z.abs_mul. replace (Z.abs (Z.sgn d)) with 1 by lia. rewrite Z.mul_1_l.
    change (2 ^ 10) with 1024. change (2 ^ 9) with 512.
    pose proof (Z.div_mod (Z.abs d) 1024 ltac:(lia)).
    pose proof (Z.mod_pos_bound (Z.abs d) 1024 ltac:(lia)).
    assert (Hq : Z.abs d / 1024 = 2 ^ 53 - 1) by lia.
    rewrite Hq. change (Z.odd (2 ^ 53 - 1)) with true. rewrite andb_true_r.
    assert (Hge : 512 <= Z.abs d mod 1024) by lia.
    destruct (Z.gtb_spec (Z.abs d mod 1024) 512); cbn [orb].
    + vm_compute. done.
    + destruct (Z.eqb_spec (Z.abs d mod 1024) 512); [by vm_compute|lia]. }
  rewrite Hf. unfold int64_of_float.
  destruct (Z.ltb_spec (2 ^ 63) (2 ^ 63)); [lia|]. rewrite andb_false_r.
  unfold Minute in *.
  destruct (Z.gtb_spec overflow (15 * (60 * 1000000000)));
    destruct (Z.gtb_spec (Z.abs (now - receivedTime)) (15 * (60 * 1000000000))); (done || lia).
Qed.

(** What the claim asks of a message. *)
Definition authentic (now : Z) (m : SocketMessage) : Prop :=
  exists timeAsInt,
    ParseInt (AuthTime m) = Some timeAsInt /\
    Z.abs (now - UnixMilli timeAsInt) <= 15 * Minute /\
    let secret := Getenv (ToUpper (Emulator m) ++ "_AUTH") in
    secret <> ""%string /\
    Auth m = hex (Sum256 (AuthTime m ++ secret)).

Lemma validateAuth_unfold s now (m : SocketMessage) :
  validateAuth s now m =
  if negb (EnableAuth s) then true
  else match ParseInt (AuthTime m) with
       | None => false
       | Some timeAsInt =>
           if skewed now (UnixMilli timeAsInt) then false
           else
             let authCode := Getenv (ToUpper (Emulator m) ++ "_AUTH") in
             if String.eqb authCode "" then false
             else String.eqb (Auth m) (hex (Sum256 (AuthTime m ++ authCode)))
       end.
Proof. reflexivity. Qed.

Lemma validateAuth_iff s now (m : SocketMessage) :
  EnableAuth s = true ->
  (forall timeAsInt, ParseInt (AuthTime m) = Some timeAsInt ->
     skewed now (UnixMilli timeAsInt) =
     (Z.abs (now - UnixMilli timeAsInt) >? 15 * Minute)) ->
  validateAuth s now m = true <-> authentic now m.
Proof.
  intros He Hskew. rewrite validateAuth_unfold, He. cbn [negb]. unfold authentic.
  destruct (ParseInt (AuthTime m)) as [t|] eqn:Ht.
  2:{ split; [done|]. by intros (? & ? & _). }
  rewrite (Hskew t) by done.
  destruct (Z.gtb_spec (Z.abs (now - UnixMilli t)) (15 * Minute)) as [Hgt|Hle].
  { split; [done|]. intros (t' & [= <-] & H & _). lia. }
  cbn zeta.
  destruct (String.eqb_spec (Getenv (ToUpper (Emulator m) ++ "_AUTH")) "") as [Hs|Hs].
  { split; [done|]. by intros (_ & _ & _ & ? & _). }
  rewrite String.eqb_eq. split.
  - intros Ha. by exists t.
  - by intros (_ & _ & _ & _ & ?).
Qed.

(** X13.  [validateAuth] within the range of [time.Duration].  With
    enable-auth set and the two times less than [2^63 - 512] nanoseconds (292 years) apart,
    [validateAuth] accepts exactly when [authTime] parses as a decimal
    integer of milliseconds at most 15 minutes from the clock, either
    way, the variable [<EMULATOR>_AUTH] is not empty, and [auth] is the
    lowercase hex SHA-256 of [authTime] followed by the secret.  Without
    enable-auth it accepts. *)
Theorem validateAuth_within_range s now (m : SocketMessage) :
  (EnableAuth s = false -> validateAuth s now m = true) /\
  (EnableAuth s = true ->
   (forall timeAsInt, ParseInt (AuthTime m) = Some timeAsInt ->
      Z.abs (now - UnixMilli timeAsInt) < 2 ^ 63 - 512) ->
   (validateAuth s now m = true <-> authentic now m)).
Proof.
  split.
  - intros He. unfold validateAuth. by rewrite He.
  - intros He Hr. apply validateAuth_iff; [done|].
    intros t Ht. apply skewed_in_range. by apply Hr.
Qed.

(** X14.  On a target whose conversion of a double that is not an
    [int64] saturates (any result above 15 minutes), [validateAuth] with
    enable-auth set accepts exactly the messages whose [authTime] is at
    most 15 minutes from the clock and whose [auth] is the digest of
    [authTime] and the secret, however far apart the two times are. *)
Theorem validateAuth_saturating s now (m : SocketMessage) :
  15 * Minute < overflow ->
  EnableAuth s = true ->
  (validateAuth s now m = true <-> authentic now m).
Proof.
  intros Ho He. apply validateAuth_iff; [done|].
  intros t Ht. by apply skewed_saturating.
Qed.


(** *** Releasing a port *)

(** X15.  [removePort] takes the first occurrence of the port out of
    [ActivePorts] and nothing else: a list without the port is left as
    it is, one entry goes when the port is there, every other port
    stays, and two removals give the same list in either order. *)
Theorem removePort_first_occurrence port ports :
  (port ∉ ports -> removePort port ports = ports) /\
  (forall before after, ports = before ++ port :: after -> port ∉ before ->
     removePort port ports = before ++ after) /\
  (port ∈ ports -> S (length (removePort port ports)) = length ports) /\
  (forall p, p <> port -> (p ∈ removePort port ports <-> p ∈ ports)) /\
  (forall other,
     removePort port (removePort other ports) = removePort other (removePort port ports)).
Proof.
  no_parameters.
  split; [|split; [|split; [|split]]].
  - induction ports as [|p ports IH]; intros Hn; [done|]. cbn [removePort].
    apply not_elem_of_cons in Hn as [Hp Hn].
    destruct (Z.eqb_spec p port) as [->|_]; [done|]. by rewrite IH.
  - intros before after -> Hn.
    induction before as [|p before IH]; cbn [app removePort].
    + by rewrite Z.eqb_refl.
    + apply not_elem_of_cons in Hn as [Hp Hn].
      destruct (Z.eqb_spec p port) as [->|_]; [done|]. by rewrite IH.
  - induction ports as [|p ports IH]; intros Hin; [by apply elem_of_nil in Hin|].
    cbn [removePort]. destruct (Z.eqb_spec p port) as [->|Hne]; [done|].
    apply elem_of_cons in Hin as [->|Hin]; [done|]. cbn [length]. by rewrite IH.
  - intros p Hne. induction ports as [|q ports IH]; [done|].
    cbn [removePort]. destruct (Z.eqb_spec q port) as [->|Hq].
    + rewrite elem_of_cons. naive_solver.
    + rewrite !elem_of_cons, IH. done.
  - intros other. induction ports as [|p ports IH]; [done|].
    cbn [removePort].
    destruct (Z.eqb_spec p other) as [Eo|Ho], (Z.eqb_spec p port) as [Ep|Hp];
      cbn [removePort].
    + by subst.
    + by destruct (Z.eqb_spec p other).
    + by destruct (Z.eqb_spec p port).
    + destruct (Z.eqb_spec p other); [done|].
      destruct (Z.eqb_spec p port); [done|]. by rewrite IH.
Qed.

(** *** Seats *)

(** The seats of a room are in order when every seat has a number of
    0..3 and no two seats have the same number. *)
Definition seated (g : GameServer) : Prop :=
  forall k c, gameserver.Players g !! k = Some c ->
    0 <= gameserver.Number c < 4 /\
    forall k' c', gameserver.Players g !! k' = Some c' ->
      gameserver.Number c' = gameserver.Number c -> k' = k.

Definition wellSeated (s : LobbyServer) : Prop :=
  forall name g, GameServers s !! name = Some g -> seated g.

(** The [reply_players] message with the names [names]. *)
Definition playersReply (names : list string) : SocketMessage :=
  mkSocketMessage ∅ "" false "" "" "" "" "" "" "" "" TypeReplyPlayers "" names 0 "" 0.

Lemma seated_seatsInRange g : seated g -> seatsInRange g.
Proof. no_parameters. intros Hs k c Hk. by apply (Hs k c). Qed.

Lemma playerNames_lookup players : forall names,
  length names = 4%nat ->
  (forall k c, (k, c) ∈ players -> 0 <= gameserver.Number c < 4) ->
  NoDup ((fun kc => gameserver.Number kc.2) <$> players) ->
  exists names',
    playerNames players names = Some names' /\
    length names' = 4%nat /\
    (forall k c, (k, c) ∈ players -> names' !! Z.to_nat (gameserver.Number c) = Some k) /\
    (forall n, (forall k c, (k, c) ∈ players -> Z.to_nat (gameserver.Number c) <> n) ->
       names' !! n = names !! n).
Proof.
  no_parameters.
  induction players as [|[k c] players IH]; intros names Hl Hr Hnd.
  - exists names. split; [done|]. split; [done|]. split; [|done].
    intros k c Hin. by apply elem_of_nil in Hin.
  - cbn [playerNames]. apply NoDup_cons in Hnd as [Hfresh Hnd]. cbn [fmap list_fmap snd] in Hfresh.
    assert (Hc : 0 <= gameserver.Number c < 4) by (apply (Hr k c); by left).
    rewrite store_Some by lia. cbn [mbind option_bind].
    destruct (IH (<[Z.to_nat (gameserver.Number c) := k]> names)) as (names' & -> & Hl' & Hin' & Hout');
      [by rewrite length_insert|intros; eapply Hr; by right|done|].
    exists names'. split; [done|]. split; [done|]. split.
    + intros k' c' [[= -> ->]|Hin]%elem_of_cons; [|by apply Hin'].
      rewrite Hout'; [apply list_lookup_insert_eq; lia|].
      intros k' c' Hin Heq. apply Hfresh. apply list_elem_of_fmap.
      exists (k', c'). split; [|done]. cbn.
      assert (0 <= gameserver.Number c' < 4) by (eapply Hr; by right). lia.
    + intros n Hn. rewrite Hout'; [|intros; eapply Hn; by right].
      apply list_lookup_insert_ne. apply (Hn k c). by left.
Qed.

Lemma seated_numbers g :
  seated g -> NoDup ((fun kc => gameserver.Number kc.2) <$> range_map (gameserver.Players g)).
Proof.
  only_range. intros Hs.
  apply (NoDup_fmap_2_strong _).
  - intros [k c] [k' c'] H1%range_map_elem_of H2%range_map_elem_of Hn. cbn in Hn.
    destruct (Hs k c H1) as [_ Hu]. specialize (Hu k' c' H2 (eq_sym Hn)). subst k'.
    congruence.
  - apply (NoDup_fmap_1 fst), range_map_NoDup.
Qed.

(** X16.  In a room whose seats are in order [updatePlayers] does not
    panic and sends one [reply_players] to the socket of every seat, all
    with the same four names: entry [n] is the name of the player on
    seat [n], and the empty string when seat [n] is free.  The names do
    not depend on the order in which the map is walked. *)
Theorem updatePlayers_names g :
  seated g ->
  exists names,
    updatePlayers g =
      Some ((fun kw => Send (gameserver.Socket kw.2) (playersReply names))
              <$> range_map (gameserver.Players g)) /\
    length names = 4%nat /\
    (forall k c, gameserver.Players g !! k = Some c ->
       names !! Z.to_nat (gameserver.Number c) = Some k) /\
    (forall n, (n < 4)%nat ->
       (forall k c, gameserver.Players g !! k = Some c ->
          gameserver.Number c <> Z.of_nat n) ->
       names !! n = Some ""%string).
Proof.
  only_range. intros Hs. unfold updatePlayers.
  destruct (playerNames_lookup (range_map (gameserver.Players g)) (replicate 4 ""%string))
    as (names & Hn & Hl & Hin & Hout).
  - done.
  - intros k c Hk%range_map_elem_of. by apply (Hs k c).
  - by apply seated_numbers.
  - exists names. replace (PlayerNames _) with (replicate 4 ""%string) by done.
    rewrite Hn. cbn [mbind option_bind]. split; [done|]. split; [done|]. split.
    + intros k c Hk. apply Hin. by apply range_map_elem_of.
    + intros n Hlt Hfree. rewrite Hout.
      * apply lookup_replicate_2. lia.
      * intros k c Hk%range_map_elem_of Heq.
        destruct (Hs k c Hk) as [Hr _]. apply (Hfree k c Hk). lia.
Qed.

(** *** The seats stay in order *)

Lemma seated_Players g g' :
  (forall k c, gameserver.Players g' !! k = Some c -> gameserver.Players g !! k = Some c) ->
  seated g -> seated g'.
Proof.
  no_parameters. intros Hsub Hs k c Hk.
  destruct (Hs k c (Hsub _ _ Hk)) as [Hr Hu]. split; [done|].
  intros k' c' Hk'. apply Hu. by apply Hsub.
Qed.

Lemma seated_insert g name ws ip number :
  seated g -> 0 <= number < 4 -> freeSeat (gameserver.Players g) number ->
  seated (gameserver.set_Players
            (<[name := gameserver.mkClient ws ip number]> (gameserver.Players g)) g).
Proof.
  no_parameters. intros Hs Hn Hfree k c. rewrite Players_set_Players.
  intros [[<- <-]|[Hne Hk]]%lookup_insert_Some.
  - split; [done|].
    intros k' c' [[<- <-]|[Hne' Hk']]%lookup_insert_Some Hnum; [done|].
    cbn in Hnum. exfalso. by apply (Hfree k' c').
  - destruct (Hs k c Hk) as [Hr Hu]. split; [done|].
    intros k' c' [[<- <-]|[Hne' Hk']]%lookup_insert_Some Hnum.
    + cbn in Hnum. exfalso. by apply (Hfree k c Hk).
    + by apply (Hu k' c').
Qed.

Lemma seated_singleton g name c :
  gameserver.Players g = {[name := c]} -> 0 <= gameserver.Number c < 4 -> seated g.
Proof.
  no_parameters. intros Hp Hc k c'. rewrite Hp.
  intros [<- <-]%lookup_singleton_Some. split; [done|].
  by intros k' c'' [<- <-]%lookup_singleton_Some _.
Qed.

Lemma wellSeated_insert s name g :
  wellSeated s -> seated g ->
  wellSeated (set_GameServers (<[name := g]> (GameServers s)) s).
Proof.
  no_parameters. intros Hs Hg name' g'. rewrite GameServers_set_GameServers.
  intros [[_ <-]|[_ H]]%lookup_insert_Some; [done|]. by apply (Hs name').
Qed.

Lemma wellSeated_delete s name :
  wellSeated s -> wellSeated (set_GameServers (delete name (GameServers s)) s).
Proof.
  no_parameters. intros Hs name' g'. rewrite GameServers_set_GameServers.
  intros [_ H]%lookup_delete_Some. by apply (Hs name').
Qed.

Lemma wellSeated_GameServers s s' :
  GameServers s' = GameServers s -> wellSeated s -> wellSeated s'.
Proof. no_parameters. intros E Hs name g. rewrite E. apply Hs. Qed.

(** [updateLastActivity] stamps the first room that the two loops find
    with a seat of the connection, and no other. *)
Lemma lastActivity_cases now ws rooms s :
  (forall i v, (i, v) ∈ rooms -> GameServers s !! i = Some v) ->
  (lastActivity now ws rooms s = s /\
   forall name g k c, (name, g) ∈ rooms -> gameserver.Players g !! k = Some c ->
     gameserver.Socket c <> ws) \/
  (exists name g k c,
     GameServers s !! name = Some g /\ gameserver.Players g !! k = Some c /\
     gameserver.Socket c = ws /\
     lastActivity now ws rooms s =
       set_GameServers (<[name := gameserver.set_LastActivity now g]> (GameServers s)) s).
Proof.
  only_range.
  induction rooms as [|[name g] rooms IH]; intros Hs.
  - left. split; [done|]. intros name g k c Hin. by apply elem_of_nil in Hin.
  - cbn [lastActivity].
    destruct (existsb _ (range_map (gameserver.Players g))) eqn:He.
    + right. apply existsb_exists in He as ([k c] & Hin & Hw).
      apply list_elem_of_In, range_map_elem_of in Hin. apply Nat.eqb_eq in Hw. cbn in Hw.
      exists name, g, k, c. split; [apply Hs; by left|]. done.
    + destruct IH as [[Heq Hno]|Hyes]; [intros; apply Hs; by right| |by right].
      left. split; [done|].
      intros name' g' k c [[= -> ->]|Hin]%elem_of_cons Hk; [|by eapply Hno].
      intros Hw. apply not_true_iff_false in He. apply He, existsb_exists.
      exists (k, c). split; [by apply list_elem_of_In, range_map_elem_of|].
      by apply Nat.eqb_eq.
Qed.

Lemma updateLastActivity_wellSeated now ws s :
  wellSeated s -> wellSeated (updateLastActivity now ws s).
Proof.
  only_range. intros Hs. unfold updateLastActivity.
  destruct (lastActivity_cases now ws (range_map (GameServers s)) s)
    as [[-> _]|(name & g & k & c & Hg & _ & _ & ->)].
  - intros i v Hin. by apply range_map_elem_of.
  - done.
  - apply wellSeated_insert; [done|].
    apply (seated_Players g); [by destruct g|]. by apply (Hs name).
Qed.

Lemma updateLastActivity_EnableAuth now ws s :
  EnableAuth (updateLastActivity now ws s) = EnableAuth s.
Proof.
  only_range. unfold updateLastActivity.
  destruct (lastActivity_cases now ws (range_map (GameServers s)) s)
    as [[-> _]|(name & g & k & c & _ & _ & _ & ->)].
  - intros i v Hin. by apply range_map_elem_of.
  - done.
  - by destruct s.
Qed.

Lemma createRoom_wellSeated now ws authenticated (m : SocketMessage) s :
  wellSeated s -> wellSeated (createRoom now ws authenticated m s).1.1.2.
Proof.
  clear range_map_perm.
  intros Hs. destruct (decide (passes now m s)) as [Hpass|Hfail].
  2:{ by destruct (createRoom_refused now ws authenticated m s Hfail)
        as (a' & pre & reply & -> & _). }
  destruct Hpass as (Ht & Hv & Hr & Hp & He & Ha & Hport).
  rewrite (createRoom_allocated now ws authenticated m s) by done.
  assert (wellSeated (set_GameServers
            (<[RoomName m := created now ws m s]> (GameServers s)) s)).
  { apply wellSeated_insert; [done|].
    apply (seated_singleton _ (PlayerName m) (gameserver.mkClient ws (remoteIP ws) 0));
      [apply created_fields|cbn; lia]. }
  by destruct (published _ _).2.
Qed.

Lemma getRooms_server now ws authenticated (m : SocketMessage) s :
  (getRooms now ws authenticated m s).1.2 = s.
Proof.
  unfold getRooms.
  destruct (negb (String.eqb (NetplayVersion m) NetplayAPIVersion)); [done|].
  destruct (String.eqb (Emulator m) ""); [done|].
  by destruct (negb (validateAuth s now m)).
Qed.

Lemma joinRoom_wellSeated ws authenticated (m : SocketMessage) s :
  wellSeated s -> wellSeated (joinRoom ws authenticated m s).1.
Proof.
  clear Getenv ToUpper Sum256 overflow createTCPServer createUDPServer getVersion NewRequest.
  intros Hs. unfold joinRoom. destruct authenticated; cbn [negb]; [|done].
  destruct (findGameServer s (Port m)) as [[roomName g]|] eqn:Hf; [|done].
  destruct (findGameServer_Some _ _ _ _ Hf) as [Hg _].
  destruct (_ && _); [done|].
  destruct (negb (String.eqb (gameserver.ClientSha g) (ClientSha m))); [done|].
  destruct (negb (String.eqb (gameserver.MD5 g) (MD5 m))); [done|].
  destruct (Z.geb_spec (Z.of_nat (size (gameserver.Players g))) 4) as [|Hsize]; [done|].
  destruct (String.eqb (PlayerName m) ""); [done|].
  destruct (duplicateName _ _); [done|]. cbn [fst].
  destruct (seatNumber_lowest_free (gameserver.Players g)) as (H1 & H2 & _); [lia|].
  apply wellSeated_insert; [done|].
  apply seated_insert; [by apply (Hs roomName)|done|done].
Qed.

Lemma beginGame_wellSeated now authenticated (m : SocketMessage) s :
  wellSeated s -> wellSeated (beginGame now authenticated m s).1.
Proof.
  only_range.
  intros Hs. unfold beginGame. destruct authenticated; cbn [negb]; [|done].
  destruct (findGameServer s (Port m)) as [[roomName g]|] eqn:Hf; [|done].
  destruct (findGameServer_Some _ _ _ _ Hf) as [Hg _].
  destruct (gameserver.Running g); [done|]. cbn [fst].
  apply wellSeated_insert; [done|].
  apply (seated_Players g); [by destruct g|]. by apply (Hs roomName).
Qed.

Lemma requestPlayers_Some authenticated (m : SocketMessage) s :
  wellSeated s -> is_Some (requestPlayers authenticated m s).
Proof.
  only_range.
  intros Hs. unfold requestPlayers. destruct authenticated; cbn [negb]; [|by eexists].
  destruct (findGameServer s (Port m)) as [[roomName g]|] eqn:Hf; [|by eexists].
  destruct (findGameServer_Some _ _ _ _ Hf) as [Hg _].
  apply updatePlayers_Some, seated_seatsInRange. by apply (Hs roomName).
Qed.

Lemma handleEOF_wellSeated ws s :
  wellSeated s ->
  exists s' ev, handleEOF ws s = Some (s', ev) /\ wellSeated s'.
Proof.
  only_range.
  intros Hs. unfold handleEOF.
  destruct (closedConnection_spec ws (range_map (GameServers s)) s)
    as (s' & ev & Heq & _ & HA & HB & _).
  { apply range_map_NoDup. }
  { intros i v Hin%range_map_elem_of. split; [done|].
    apply seated_seatsInRange. by apply (Hs i). }
  exists s', ev. split; [done|]. intros name g' Hg'.
  destruct (GameServers s !! name) as [v|] eqn:Hv.
  - rewrite (HA name v) in Hg' by by apply range_map_elem_of.
    unfold roomAfterEOF in Hg'.
    destruct (gameserver.Running v); [injection Hg' as <-; by apply (Hs name)|].
    destruct (decide _); [done|]. injection Hg' as <-.
    apply (seated_Players v); [|by apply (Hs name)].
    intros k c. rewrite Players_set_Players. unfold stay.
    by intros [? _]%map_lookup_filter_Some.
  - rewrite HB, Hv in Hg'; [done|].
    intros ([i v] & -> & Hin%range_map_elem_of)%list_elem_of_fmap. cbn in Hv. congruence.
Qed.

Lemma playerDrop_wellSeated ws rooms : forall s,
  (forall i v, (i, v) ∈ rooms -> GameServers s !! i = Some v) ->
  wellSeated s -> wellSeated (playerDrop ws rooms s).1.
Proof.
  only_range.
  induction rooms as [|[roomName g] rooms IH]; intros s Hin Hs; [done|].
  cbn [playerDrop]. destruct (dropFrom ws g) as [playerName|].
  - assert (Hg : seated (gameserver.set_Players (delete playerName (gameserver.Players g)) g)).
    { apply (seated_Players g); [|apply (Hs roomName), Hin; by left].
      intros k c. rewrite Players_set_Players. by intros [_ ?]%lookup_delete_Some. }
    destruct (size _ =? 0)%nat; cbn [fst].
    + apply (wellSeated_GameServers
               (set_GameServers
                  (delete roomName (<[roomName := gameserver.set_Players
                        (delete playerName (gameserver.Players g)) g]> (GameServers s))) s)).
      * by destruct s.
      * rewrite delete_insert_eq. by apply wellSeated_delete.
    + by apply wellSeated_insert.
  - apply IH; [|done]. intros i v Hiv. apply Hin. by right.
Qed.

(** X17.  Every turn of the handler keeps the seats in order.  From a
    server in which every room has seat numbers within 0..3 and no
    number twice, a turn of [wsHandler] on any connection, with any
    value of its authenticated flag and whatever was received, leaves a
    server with the same property, also when the turn ends in the panic
    of [publishDiscord]; and the index [PlayerNames[v.Number]] of
    [updatePlayers] is in range whenever it is evaluated, so that
    [updatePlayers] does not panic.  No name is written over another. *)
Theorem handler_keeps_seats now ws authenticated received s :
  wellSeated s ->
  exists authenticated' s' ev again,
    wsHandler_turn now ws authenticated received s = Some (authenticated', s', ev, again) /\
    wellSeated s'.
Proof.
  intros Hs. destruct received as [m| | |]; cbn [wsHandler_turn].
  - pose proof (updateLastActivity_wellSeated now ws s Hs) as Hs1.
    set (s1 := updateLastActivity now ws s) in *.
    destruct (String.eqb (MsgType m) TypeRequestCreateRoom).
    { pose proof (createRoom_wellSeated now ws authenticated m s1 Hs1) as H.
      destruct (createRoom now ws authenticated m s1) as [[[a s'] ev] returned].
      by eexists _, _, _, _. }
    destruct (String.eqb (MsgType m) TypeRequestGetRooms).
    { pose proof (getRooms_server now ws authenticated m s1) as H.
      destruct (getRooms now ws authenticated m s1) as [[a s'] ev]. cbn in H. subst s'.
      by eexists _, _, _, _. }
    destruct (String.eqb (MsgType m) TypeRequestJoinRoom).
    { pose proof (joinRoom_wellSeated ws authenticated m s1 Hs1) as H.
      destruct (joinRoom ws authenticated m s1) as [s' ev]. by eexists _, _, _, _. }
    destruct (String.eqb (MsgType m) TypeRequestPlayers).
    { destruct (requestPlayers_Some authenticated m s1 Hs1) as [ev ->].
      by eexists _, _, _, _. }
    destruct (String.eqb (MsgType m) TypeRequestChatMessage); [by eexists _, _, _, _|].
    destruct (String.eqb (MsgType m) TypeRequestBeginGame).
    { pose proof (beginGame_wellSeated now authenticated m s1 Hs1) as H.
      destruct (beginGame now authenticated m s1) as [s' ev]. by eexists _, _, _, _. }
    destruct (String.eqb (MsgType m) TypeRequestMotd); [by eexists _, _, _, _|].
    destruct (String.eqb (MsgType m) TypeRequestVersion); by eexists _, _, _, _.
  - destruct (handleEOF_wellSeated ws s Hs) as (s' & ev & -> & Hs').
    by eexists _, _, _, _.
  - unfold handlePlayerDrop.
    pose proof (playerDrop_wellSeated ws (range_map (GameServers s)) s) as H.
    destruct (playerDrop ws (range_map (GameServers s)) s) as [s' ev].
    eexists _, _, _, _. split; [done|]. apply H; [|done].
    intros i v Hin. by apply range_map_elem_of.
  - by eexists _, _, _, _.
Qed.

(** *** Who is served *)

Lemma validateAuth_EnableAuth s s' now (m : SocketMessage) :
  EnableAuth s = EnableAuth s' -> validateAuth s now m = validateAuth s' now m.
Proof. intros E. unfold validateAuth. by rewrite E. Qed.

Lemma createRoom_flag now ws (m : SocketMessage) s :
  (createRoom now ws false m s).1.1.1 = true -> validateAuth s now m = true.
Proof.
  clear range_map range_map_perm.
  destruct (decide (passes now m s)) as [Hpass|Hfail].
  - intros _. apply Hpass.
  - destruct (createRoom_refused now ws false m s Hfail)
      as (a' & pre & reply & -> & _ & _ & Hflag & _).
    cbn [fst]. intros ->. by destruct Hflag.
Qed.

Lemma getRooms_flag now ws (m : SocketMessage) s :
  (getRooms now ws false m s).1.1 = true -> validateAuth s now m = true.
Proof.
  unfold getRooms.
  destruct (negb (String.eqb (NetplayVersion m) NetplayAPIVersion)); [done|].
  destruct (String.eqb (Emulator m) ""); [done|].
  by destruct (validateAuth s now m).
Qed.

(** X18.  Who is served.  A connection that has not authenticated
    never makes [updatePlayers] panic, and its flag is set only by a
    [request_create_room] or a [request_get_rooms] that passes
    [validateAuth].  The loop of the handler goes on after every
    message but one: a [request_create_room] that passed [validateAuth]
    and ended in the panic of [publishDiscord], to which nothing is
    sent.  Any other message but [request_version] is logged and
    dropped: nothing is sent and the server is as [updateLastActivity]
    left it. *)
Theorem only_validateAuth_authenticates now ws (m : SocketMessage) s :
  exists authenticated' s' ev again,
    wsHandler_turn now ws false (GotMessage m) s = Some (authenticated', s', ev, again) /\
    (authenticated' = true ->
       (MsgType m = TypeRequestCreateRoom \/ MsgType m = TypeRequestGetRooms) /\
       validateAuth s now m = true) /\
    (again = false ->
       MsgType m = TypeRequestCreateRoom /\ validateAuth s now m = true /\
       Exists (fun channel => NewRequest channel = false)
              (channels (Emulator m) (Password m)) /\
       sends ev = [] /\ last ev = Some (Panic "nil pointer dereference")) /\
    (MsgType m <> TypeRequestCreateRoom -> MsgType m <> TypeRequestGetRooms ->
     MsgType m <> TypeRequestVersion ->
       authenticated' = false /\ s' = updateLastActivity now ws s /\ sends ev = [] /\
       again = true).
Proof.
  cbn [wsHandler_turn].
  pose proof (updateLastActivity_EnableAuth now ws s) as He.
  set (s1 := updateLastActivity now ws s) in *.
  destruct (String.eqb_spec (MsgType m) TypeRequestCreateRoom) as [Hc|Hc].
  { pose proof (createRoom_flag now ws m s1) as H.
    pose proof (createRoom_panicked now ws false m s1) as Hp.
    destruct (createRoom now ws false m s1) as [[[a s'] ev] returned]. cbn in H, Hp.
    exists a, s', ev, returned. split; [done|]. split; [|split; [|done]].
    - intros ->. split; [by left|].
      rewrite (validateAuth_EnableAuth s s1) by done. by apply H.
    - intros Hr. destruct (Hp Hr) as (Hpass & Hbad & Hsends & Hlast).
      split; [done|]. split; [|done].
      rewrite (validateAuth_EnableAuth s s1) by done. apply Hpass. }
  destruct (String.eqb_spec (MsgType m) TypeRequestGetRooms) as [Hg|Hg].
  { pose proof (getRooms_flag now ws m s1) as H.
    destruct (getRooms now ws false m s1) as [[a s'] ev]. cbn in H.
    exists a, s', ev, true. split; [done|]. split; [|done].
    intros ->. split; [by right|]. rewrite (validateAuth_EnableAuth s s1) by done. by apply H. }
  destruct (String.eqb (MsgType m) TypeRequestJoinRoom);
    [by eexists _, _, _, _; split; [reflexivity|]|].
  destruct (String.eqb (MsgType m) TypeRequestPlayers);
    [by eexists _, _, _, _; split; [reflexivity|]|].
  destruct (String.eqb (MsgType m) TypeRequestChatMessage);
    [by eexists _, _, _, _; split; [reflexivity|]|].
  destruct (String.eqb (MsgType m) TypeRequestBeginGame);
    [by eexists _, _, _, _; split; [reflexivity|]|].
  destruct (String.eqb (MsgType m) TypeRequestMotd);
    [by eexists _, _, _, _; split; [reflexivity|]|].
  destruct (String.eqb_spec (MsgType m) TypeRequestVersion) as [Hv|Hv];
    by eexists _, _, _, _; split; [reflexivity|].
Qed.

(** X19.  A [request_get_rooms] that fails one of its three checks is
    not answered: the accept code and the message are set in the reply,
    but the reply is never sent.  The server and the flag of the
    connection stay as they were. *)
Theorem get_rooms_refusal_is_silent now ws authenticated (m : SocketMessage) s :
  NetplayVersion m <> NetplayAPIVersion \/ Emulator m = ""%string \/
  validateAuth s now m = false ->
  exists ev,
    getRooms now ws authenticated m s = (authenticated, s, ev) /\ sends ev = [].
Proof.
  intros H. unfold getRooms.
  destruct (String.eqb_spec (NetplayVersion m) NetplayAPIVersion) as [Hv|Hv]; cbn [negb];
    [|by eexists].
  destruct (String.eqb_spec (Emulator m) "") as [He|He]; [by eexists|].
  destruct (validateAuth s now m); cbn [negb]; [|by eexists].
  by destruct H as [?|[?|?]].
Qed.

(** The reply that carries a chat line. *)
Definition chatReply (m : SocketMessage) : SocketMessage :=
  set_Message (PlayerName m ++ ": " ++ Message m)
              (set_MsgType TypeReplyChatMessage zeroMessage).

(** X20.  A chat line goes to every seat of the room on the port of the
    request, once per seat, whatever the order of the map, with the
    player name the request gives; the sender need not have a seat in
    the room.  With no room on the port, and on a connection that has
    not authenticated, nothing is sent. *)
Theorem chat_reaches_every_seat (m : SocketMessage) s :
  match findGameServer s (Port m) with
  | Some (roomName, g) =>
      GameServers s !! roomName = Some g /\
      chatMessage true m s =
        (fun kw => Send (gameserver.Socket kw.2) (chatReply m))
          <$> range_map (gameserver.Players g) /\
      chatMessage true m s ≡ₚ
        (fun kw => Send (gameserver.Socket kw.2) (chatReply m))
          <$> map_to_list (gameserver.Players g) /\
      length (chatMessage true m s) = size (gameserver.Players g) /\
      (forall e, e ∈ chatMessage true m s <->
         exists k c, gameserver.Players g !! k = Some c /\
                     e = Send (gameserver.Socket c) (chatReply m))
  | None => sends (chatMessage true m s) = []
  end /\
  sends (chatMessage false m s) = [] /\
  MsgType (chatReply m) = TypeReplyChatMessage /\
  Message (chatReply m) = (PlayerName m ++ ": " ++ Message m)%string.
Proof.
  only_range. split; [|done]. unfold chatMessage. cbn [negb]. fold (chatReply m).
  destruct (findGameServer s (Port m)) as [[roomName g]|] eqn:Hf; [|done].
  destruct (findGameServer_Some _ _ _ _ Hf) as [Hg _].
  split; [done|]. split; [done|]. split; [by rewrite range_map_perm|]. split.
  - rewrite length_fmap, range_map_perm. apply length_map_to_list.
  - intros e. rewrite list_elem_of_fmap. split.
    + intros ([k c] & -> & Hin%range_map_elem_of). by exists k, c.
    + intros (k & c & Hk & ->). exists (k, c). split; [done|]. by apply range_map_elem_of.
Qed.

(** X21.  [updateLastActivity]: when the connection has a seat in some
    room, the [LastActivity] of one such room becomes [now] and nothing
    else changes, even if the connection has seats in several rooms: the
    other rooms are as they were, and the room keeps its seats, its port
    and its [Running] flag.  When the connection has no seat, nothing
    changes. *)
Theorem updateLastActivity_stamps_one_room now ws s :
  (updateLastActivity now ws s = s /\
   forall name g k c, GameServers s !! name = Some g ->
     gameserver.Players g !! k = Some c -> gameserver.Socket c <> ws) \/
  (exists name g k c,
     GameServers s !! name = Some g /\ gameserver.Players g !! k = Some c /\
     gameserver.Socket c = ws /\
     updateLastActivity now ws s =
       set_GameServers (<[name := gameserver.set_LastActivity now g]> (GameServers s)) s /\
     (forall other, other <> name ->
        GameServers (updateLastActivity now ws s) !! other = GameServers s !! other) /\
     exists g',
       GameServers (updateLastActivity now ws s) !! name = Some g' /\
       gameserver.LastActivity g' = now /\
       gameserver.Players g' = gameserver.Players g /\
       gameserver.Running g' = gameserver.Running g /\
       gameserver.Port g' = gameserver.Port g).
Proof.
  only_range. unfold updateLastActivity.
  destruct (lastActivity_cases now ws (range_map (GameServers s)) s)
    as [[Heq Hno]|(name & g & k & c & Hg & Hk & Hw & Heq)].
  - intros i v Hin. by apply range_map_elem_of.
  - left. split; [done|]. intros name g k c Hg. apply (Hno name). by apply range_map_elem_of.
  - right. exists name, g, k, c. do 4 (split; [done|]).
    rewrite Heq, GameServers_set_GameServers. split.
    + intros other Hne. by rewrite lookup_insert_ne.
    + exists (gameserver.set_LastActivity now g). rewrite lookup_insert_eq. by destruct g.
Qed.

(** X22.  [findGameServer] returns a room of the registry that has the
    port, and nothing only when no room has it.  When no two rooms share
    a port the room found does not depend on the order of the map. *)
Theorem findGameServer_by_unique_port s port :
  (forall n1 g1 n2 g2, GameServers s !! n1 = Some g1 -> GameServers s !! n2 = Some g2 ->
     gameserver.Port g1 = gameserver.Port g2 -> n1 = n2) ->
  (forall name g, findGameServer s port = Some (name, g) <->
     GameServers s !! name = Some g /\ gameserver.Port g = port) /\
  (findGameServer s port = None <->
     forall name g, GameServers s !! name = Some g -> gameserver.Port g <> port).
Proof.
  only_range. intros Hu. split; [|apply findGameServer_None].
  intros name g. split; [apply findGameServer_Some|].
  intros [Hg Hp].
  destruct (findGameServer s port) as [[name' g']|] eqn:Hf.
  - destruct (findGameServer_Some _ _ _ _ Hf) as [Hg' Hp'].
    assert (name' = name) as -> by (apply (Hu name' g' name g); congruence).
    congruence.
  - exfalso. by apply (proj1 (findGameServer_None s port) Hf name g).
Qed.

(** *** Purging idle rooms *)

(** One pass of the loop of [purgeInactiveRooms], at clock [now].  The
    loop deletes only the entry it is at, which does not disturb
    [range].  The listeners of a purged room are set to nil, not closed;
    the second component holds the rooms so dropped.  The log line is
    left out. *)
Definition idle (now : Z) (g : GameServer) : bool :=
  Sub now (gameserver.LastActivity g) >? 10 * Minute.

Fixpoint purge (now : Z) (rooms : list (string * GameServer)) (s : LobbyServer)
    : LobbyServer * list GameServer :=
  match rooms with
  | [] => (s, [])
  | (roomName, g) :: rest =>
      if idle now g then
        let g := gameserver.set_TCPListener None g in
        let g := gameserver.set_UDPListener None g in
        let s := set_ActivePorts (removePort (gameserver.Port g) (ActivePorts s)) s in
        let s := set_GameServers (delete roomName (GameServers s)) s in
        let '(s, dropped) := purge now rest s in
        (s, g :: dropped)
      else purge now rest s
  end.

Definition purgeInactiveRooms_iteration (now : Z) (s : LobbyServer)
    : LobbyServer * list GameServer :=
  purge now (range_map (GameServers s)) s.

Definition unlistened (g : GameServer) : GameServer :=
  gameserver.set_UDPListener None (gameserver.set_TCPListener None g).

Lemma removePort_sublist port ports : removePort port ports `sublist_of` ports.
Proof.
  no_parameters. induction ports as [|p ports IH]; [done|]. cbn [removePort].
  destruct (p =? port); [by apply sublist_cons|by apply sublist_skip].
Qed.

Lemma purge_spec now rooms : forall s,
  let r := purge now rooms s in
  (forall name, GameServers r.1 !! name =
     if decide (Exists (fun kv => kv.1 = name /\ idle now kv.2 = true) rooms) then None
     else GameServers s !! name) /\
  r.2 = unlistened <$> (List.filter (fun kv => idle now kv.2) rooms).*2 /\
  ActivePorts r.1 `sublist_of` ActivePorts s /\
  r.1 = set_ActivePorts (ActivePorts r.1) (set_GameServers (GameServers r.1) s).
Proof.
  no_parameters.
  induction rooms as [|[roomName g] rooms IH]; intros s; cbn zeta.
  - cbn. split; [|split; [done|split; [done|by destruct s]]].
    intros name. rewrite decide_False; [done|]. by intros ?%Exists_nil.
  - cbn [purge List.filter snd]. destruct (idle now g) eqn:Hi.
    + set (s1 := set_GameServers _ _).
      specialize (IH s1). cbn zeta in IH. destruct (purge now rooms s1) as [s2 dropped].
      cbn [fst snd] in *. destruct IH as (Hl & -> & Hp & Hs).
      assert (Hg1 : GameServers s1 = delete roomName (GameServers s)) by by destruct s.
      assert (Hp1 : ActivePorts s1 = removePort (gameserver.Port g) (ActivePorts s))
        by by destruct s, g.
      split; [|split; [done|split]].
      * intros name. rewrite Hl, Hg1.
        destruct (decide (Exists _ rooms)) as [He|He].
        -- rewrite decide_True; [done|]. by apply Exists_cons_tl.
        -- destruct (decide (roomName = name)) as [->|Hne].
           ++ rewrite lookup_delete_eq. rewrite decide_True; [done|]. by apply Exists_cons_hd.
           ++ rewrite lookup_delete_ne by done. rewrite decide_False; [done|].
              intros [[? ?]|?]%Exists_cons; done.
      * etrans; [exact Hp|]. rewrite Hp1. apply removePort_sublist.
      * rewrite Hs. by destruct s.
    + specialize (IH s). cbn zeta in IH. destruct IH as (Hl & -> & Hp & Hs).
      split; [|done]. intros name. rewrite Hl.
      destruct (decide (Exists _ rooms)) as [He|He].
      * rewrite decide_True; [done|]. by apply Exists_cons_tl.
      * rewrite decide_False; [done|]. intros [[_ Hi']|?]%Exists_cons; [cbn in Hi'; congruence|done].
Qed.

(** X23.  A pass of [purgeInactiveRooms] takes out of the registry
    exactly the rooms whose last activity is more than ten minutes
    before the clock, whatever the order of the map, and keeps the others
    as they are.  Ports only leave [ActivePorts], and nothing else of
    the server changes.  The listeners of a purged room are not closed:
    its fields are set to nil, so a later [CloseServers] on it (first
    variant) closes nothing. *)
Theorem purge_drops_idle_rooms now s :
  let r := purgeInactiveRooms_iteration now s in
  (forall name, GameServers r.1 !! name =
     match GameServers s !! name with
     | Some g => if idle now g then None else Some g
     | None => None
     end) /\
  (forall g', g' ∈ r.2 <->
     exists name g, GameServers s !! name = Some g /\ idle now g = true /\
                    g' = unlistened g) /\
  (forall g', g' ∈ r.2 -> (gameserver.CloseServers g').2 = []) /\
  ActivePorts r.1 `sublist_of` ActivePorts s /\
  r.1 = set_ActivePorts (ActivePorts r.1) (set_GameServers (GameServers r.1) s).
Proof.
  only_range. cbn zeta. unfold purgeInactiveRooms_iteration.
  destruct (purge_spec now (range_map (GameServers s)) s) as (Hl & Hd & Hp & Hs).
  assert (Hdropped : forall g', g' ∈ (purge now (range_map (GameServers s)) s).2 <->
     exists name g, GameServers s !! name = Some g /\ idle now g = true /\
                    g' = unlistened g).
  { intros g'. rewrite Hd, list_elem_of_fmap. split.
    - intros (g & -> & ([name g0] & -> & Hin)%list_elem_of_fmap).
      apply list_elem_of_In, List.filter_In in Hin as [Hin Hi].
      apply list_elem_of_In, range_map_elem_of in Hin. by exists name, g0.
    - intros (name & g & Hg & Hi & ->). exists g. split; [done|].
      apply list_elem_of_fmap. exists (name, g). split; [done|].
      apply list_elem_of_In, List.filter_In. split; [|done].
      by apply list_elem_of_In, range_map_elem_of. }
  split; [|split; [done|split; [|done]]].
  - intros name. rewrite Hl.
    destruct (GameServers s !! name) as [g|] eqn:Hg.
    + destruct (idle now g) eqn:Hi.
      * rewrite decide_True; [done|]. apply Exists_exists. exists (name, g).
        split; [by apply range_map_elem_of|done].
      * rewrite decide_False; [done|].
        intros ([name' g'] & Hin%range_map_elem_of & Hn & Hi')%Exists_exists.
        cbn in Hn, Hi'. subst name'. congruence.
    + by destruct (decide _).
  - intros g' (name & g & _ & _ & ->)%Hdropped.
    unfold unlistened. by destruct g.
Qed.

(** *** Joining and leaving *)

Lemma joinRoom_cases ws (m : SocketMessage) s :
  (joinRoom ws true m s).1 = s \/
  exists roomName g number,
    findGameServer s (Port m) = Some (roomName, g) /\
    gameserver.Players g !! PlayerName m = None /\
    (joinRoom ws true m s).1 =
      set_GameServers (<[roomName := joined ws (PlayerName m) number g]> (GameServers s)) s.
Proof.
  clear Getenv ToUpper Sum256 overflow createTCPServer createUDPServer getVersion NewRequest.
  unfold joinRoom. cbn [negb].
  destruct (findGameServer s (Port m)) as [[roomName g]|] eqn:Hf; [|by left].
  destruct (_ && _); [by left|].
  destruct (negb (String.eqb (gameserver.ClientSha g) (ClientSha m))); [by left|].
  destruct (negb (String.eqb (gameserver.MD5 g) (MD5 m))); [by left|].
  destruct (Z.of_nat (size (gameserver.Players g)) >=? 4); [by left|].
  destruct (String.eqb (PlayerName m) ""); [by left|].
  destruct (duplicateName _ _) eqn:Hd; [by left|].
  right. eexists roomName, g, _. split; [done|]. split; [|reflexivity].
  apply eq_None_not_Some. rewrite <- duplicateName_spec. congruence.
Qed.

Lemma stay_all ws (players : gmap string Client) :
  (forall k c, players !! k = Some c -> gameserver.Socket c <> ws) ->
  stay ws players = players.
Proof.
  no_parameters. intros Hno. apply map_eq. intros k. apply option_eq. intros c.
  unfold stay. rewrite map_lookup_filter_Some. cbn. naive_solver.
Qed.

Lemma stay_insert ws (players : gmap string Client) name ip number :
  players !! name = None ->
  (forall k c, players !! k = Some c -> gameserver.Socket c <> ws) ->
  stay ws (<[name := gameserver.mkClient ws ip number]> players) = players.
Proof.
  no_parameters. intros Hn Hno. apply map_eq. intros k. apply option_eq. intros c.
  unfold stay. rewrite map_lookup_filter_Some, lookup_insert_Some. cbn. split.
  - intros [[[<- <-]|[_ Hk]] Hw]; [done|done].
  - intros Hk. split; [|by eapply Hno]. right. split; [|done]. intros <-. congruence.
Qed.

(** X24.  Joining and leaving undo each other in the lobby.  Let the
    connection have no seat yet, every room that has not started have a
    seat, and the room on the port of the request, if there is one, not
    have started.  Then after [request_join_room], accepted or refused,
    the close of the connection ([io.EOF]) gives back the server as it
    was before the request. *)
Theorem join_then_eof_round_trip ws (m : SocketMessage) s :
  wellSeated s ->
  (forall name g k c, GameServers s !! name = Some g ->
     gameserver.Players g !! k = Some c -> gameserver.Socket c <> ws) ->
  (forall name g, GameServers s !! name = Some g -> gameserver.Running g = false ->
     gameserver.Players g <> ∅) ->
  (forall name g, findGameServer s (Port m) = Some (name, g) ->
     gameserver.Running g = false) ->
  exists ev, handleEOF ws (joinRoom ws true m s).1 = Some (s, ev).
Proof.
  clear Getenv ToUpper Sum256 overflow createTCPServer createUDPServer getVersion NewRequest.
  intros Hs Hno Hseat Hrun.
  pose proof (joinRoom_wellSeated ws true m s Hs) as Hs'.
  assert (Hold : forall v, (exists name, GameServers s !! name = Some v) ->
            roomAfterEOF ws v = Some v).
  { intros v [name Hv]. unfold roomAfterEOF.
    destruct (gameserver.Running v) eqn:Hr; [done|].
    rewrite stay_all by (intros k c; by apply (Hno name v)).
    rewrite decide_False by (by apply (Hseat name v)). by destruct v. }
  assert (Hreg : forall name,
            GameServers (joinRoom ws true m s).1 !! name ≫= roomAfterEOF ws =
            GameServers s !! name).
  { intros name.
    destruct (joinRoom_cases ws m s) as [->|(roomName & g & number & Hf & Hfresh & ->)].
    - destruct (GameServers s !! name) as [v|] eqn:Hv; [|done]. cbn. apply Hold. eauto.
    - destruct (findGameServer_Some _ _ _ _ Hf) as [Hg _].
      rewrite GameServers_set_GameServers.
      destruct (decide (roomName = name)) as [<-|Hne].
      + rewrite lookup_insert_eq, Hg. cbn. unfold roomAfterEOF, joined.
        replace (gameserver.Running (gameserver.set_Players _ g))
          with (gameserver.Running g) by by destruct g.
        rewrite (Hrun roomName g Hf), Players_set_Players.
        rewrite stay_insert by (done || (intros k c; by apply (Hno roomName g))).
        rewrite decide_False by (apply (Hseat roomName g Hg), (Hrun roomName g Hf)).
        by destruct g.
      + rewrite lookup_insert_ne by done.
        destruct (GameServers s !! name) as [v|] eqn:Hv; [|done]. cbn. apply Hold. eauto. }
  set (s' := (joinRoom ws true m s).1) in *.
  assert (Hs0 : s' = set_GameServers (GameServers s') s).
  { unfold s'. destruct (joinRoom_cases ws m s) as [->|(? & ? & ? & _ & _ & ->)];
      by destruct s. }
  unfold handleEOF.
  destruct (closedConnection_spec ws (range_map (GameServers s')) s')
    as (s'' & ev & Heq & Hs'' & HA & HB & _).
  { apply range_map_NoDup. }
  { intros i v Hin%range_map_elem_of. split; [done|].
    apply seated_seatsInRange. by apply (Hs' i). }
  exists ev. rewrite Heq. do 2 f_equal.
  assert (Hall : GameServers s'' = GameServers s).
  { apply map_eq. intros name. rewrite <- Hreg.
    destruct (GameServers s' !! name) as [v|] eqn:Hv; cbn.
    - apply HA. by apply range_map_elem_of.
    - rewrite HB, Hv; [done|].
      intros ([i v] & -> & Hin%range_map_elem_of)%list_elem_of_fmap. cbn in Hv. congruence. }
  rewrite Hs'', Hall, Hs0. by destruct s.
Qed.

(** *** Announcing a room *)

Lemma elem_of_publicChannels emulator channel :
  channel ∈ publicChannels emulator <->
  channel <> ""%string /\
  exists i, 0 <= i < 10 /\
    channel = Getenv (ToUpper emulator ++ "_CHANNEL_" ++ decimalDigit i)%string.
Proof.
  clear range_map range_map_perm NewRequest Sum256 overflow remoteIP createTCPServer
        createUDPServer getVersion.
  unfold publicChannels. rewrite list_elem_of_In, List.filter_In, <- list_elem_of_In.
  rewrite negb_true_iff, String.eqb_neq, list_elem_of_fmap. split.
  - intros [(i & -> & Hi) Hne]. split; [done|]. exists i. split; [|done].
    apply list_elem_of_In in Hi. cbn in Hi. lia.
  - intros [Hne (i & Hi & ->)]. split; [|done]. exists i. split; [done|].
    apply list_elem_of_In. cbn. lia.
Qed.

Lemma elem_of_devChannels emulator channel :
  channel ∈ devChannels emulator <->
  channel <> ""%string /\ channel = Getenv (ToUpper emulator ++ "_DEV_CHANNEL")%string.
Proof.
  clear range_map range_map_perm NewRequest Sum256 overflow remoteIP createTCPServer
        createUDPServer getVersion.
  unfold devChannels. rewrite list_elem_of_In, List.filter_In, <- list_elem_of_In.
  rewrite negb_true_iff, String.eqb_neq, list_elem_of_singleton. tauto.
Qed.

Lemma length_filter_le {A} (f : A -> bool) (l : list A) :
  (length (List.filter f l) <= length l)%nat.
Proof.
  no_parameters. induction l as [|x l IH]; [done|].
  cbn [List.filter]. destruct (f x); cbn [length]; lia.
Qed.

(** X25.  [announceDiscord] goes through the webhooks of the room in
    order, the public channels 0..9 of the emulator that are set and
    then the developers' channel if it is set, and posts the same text
    to each until [retryablehttp.NewRequest] refuses a URL: it panics
    there and the channels after it get nothing.  A room with a password
    is never announced on a public channel: its only webhook is the
    developers' channel.  No webhook is an empty URL and there are at
    most eleven.  When no URL is refused the function returns and every
    webhook has been posted to, once for each time it is listed. *)
Theorem private_rooms_stay_off_public_channels s g :
  let urls := channels (gameserver.Emulator g) (gameserver.Password g) in
  let dev := Getenv (ToUpper (gameserver.Emulator g) ++ "_DEV_CHANNEL")%string in
  (gameserver.Password g <> ""%string -> forall channel, channel ∈ urls -> channel = dev) /\
  (forall channel, channel ∈ urls -> channel <> ""%string) /\
  (length urls <= 11)%nat /\
  (gameserver.Password g = ""%string ->
     forall i, 0 <= i < 10 ->
       let channel :=
         Getenv (ToUpper (gameserver.Emulator g) ++ "_CHANNEL_" ++ decimalDigit i)%string in
       channel <> ""%string -> channel ∈ urls) /\
  (dev <> ""%string -> dev ∈ urls) /\
  exists posted,
    publishes (announceDiscord s g).1 = Publish (announcement s g) <$> posted /\
    sends (announceDiscord s g).1 = [] /\
    ((announceDiscord s g).2 = true /\ posted = urls /\
     Forall (fun channel => NewRequest channel = true) urls /\
     (announceDiscord s g).1 = Publish (announcement s g) <$> urls
     \/
     (announceDiscord s g).2 = false /\
     last (announceDiscord s g).1 = Some (Panic "nil pointer dereference") /\
     exists channel after,
       urls = posted ++ channel :: after /\
       Forall (fun channel => NewRequest channel = true) posted /\
       NewRequest channel = false).
Proof.
  clear range_map range_map_perm Sum256 overflow remoteIP createTCPServer createUDPServer
        getVersion.
  intros urls dev.
  split; [|split; [|split; [|split; [|split]]]].
  - intros Hpw channel. unfold urls, channels.
    destruct (String.eqb_spec (gameserver.Password g) "") as [|_]; [done|]. cbn [app].
    by intros [_ ->]%elem_of_devChannels.
  - intros channel. unfold urls, channels.
    intros [Hin|Hin]%elem_of_app.
    + destruct (String.eqb (gameserver.Password g) ""); [|by apply elem_of_nil in Hin].
      by apply elem_of_publicChannels in Hin as [? _].
    + by apply elem_of_devChannels in Hin as [? _].
  - unfold urls, channels. rewrite length_app.
    assert (length (devChannels (gameserver.Emulator g)) <= 1)%nat
      by apply (length_filter_le _ [_]).
    assert (length (publicChannels (gameserver.Emulator g)) <= 10)%nat
      by (unfold publicChannels; etrans; [apply length_filter_le|done]).
    destruct (String.eqb (gameserver.Password g) ""); cbn [length]; lia.
  - intros Hpw i Hi channel Hne. unfold urls, channels. rewrite Hpw. cbn [String.eqb].
    apply elem_of_app. left. apply elem_of_publicChannels. split; [done|]. by exists i.
  - intros Hne. unfold urls, channels. apply elem_of_app. right.
    by apply elem_of_devChannels.
  - rewrite announceDiscord_published. fold urls.
    destruct (published_cases (announcement s g) urls)
      as [[Hall ->]|(before & channel & after & Hurls & Hall & Hc & ->)]; cbn [fst snd].
    + exists urls. split; [apply publishes_fmap_Publish|].
      split; [apply sends_fmap_Publish|]. by left.
    + exists before.
      split.
      { unfold publishes. rewrite List.filter_app.
        fold (publishes (Publish (announcement s g) <$> before)).
        rewrite publishes_fmap_Publish. cbn. by rewrite app_nil_r. }
      split.
      { unfold sends. rewrite List.filter_app.
        fold (sends (Publish (announcement s g) <$> before)).
        by rewrite sends_fmap_Publish. }
      right. split; [done|]. split; [|by exists channel, after].
      change [Log "could not create request"; Panic "nil pointer dereference"]
        with ([Log "could not create request"] ++ [Panic "nil pointer dereference"]).
      rewrite app_assoc. apply last_snoc.
Qed.

(** *** A turn with request_begin_game *)




End Handler.

(** *** A concrete server

    The parameters of the handler for the runs below: [range] in the
    order of [map_to_list], an environment that holds the secret of one
    emulator, upper-casing of ASCII letters, listeners that bind the
    first port above the base port, and a [NewRequest] that refuses the
    one URL of the runs that has no scheme. *)

Definition rangeOrder (A : Type) (m : gmap string A) : list (string * A) :=
  map_to_list m.

Lemma rangeOrder_perm (A : Type) (m : gmap string A) :
  rangeOrder A m ≡ₚ map_to_list m.
Proof. reflexivity. Qed.

Definition upper (c : ascii) : ascii :=
  let n := N_of_ascii c in
  if ((97 <=? n) && (n <=? 122))%N then ascii_of_N (n - 32) else c.

Fixpoint asciiUpper (s : string) : string :=
  match s with
  | EmptyString => EmptyString
  | String c rest => String (upper c) (asciiUpper rest)
  end.

Definition testEnv (name : string) : string :=
  if String.eqb name "M64P_AUTH" then "secret"%string else ""%string.

(** The same environment with webhooks: a public channel, and a
    developers' channel whose URL has no scheme. *)
Definition webhookEnv (name : string) : string :=
  if String.eqb name "M64P_CHANNEL_3" then "https://discord.test/hook3"%string
  else if String.eqb name "M64P_DEV_CHANNEL" then "://not-a-url"%string
  else testEnv name.

Definition parses (channel : string) : bool :=
  negb (String.eqb channel "://not-a-url").

Definition testIP (ws : Conn) : string := "10.0.0.1"%string.

Definition bindTCP (basePort maxGames : Z) (g : GameServer) : GameServer * Z :=
  if 1 <=? maxGames then
    (gameserver.set_Port (basePort + 1) (gameserver.set_TCPListener (Some 1%nat) g),
     basePort + 1)
  else (g, 0).

Definition bindUDP (g : GameServer) : GameServer * bool :=
  (gameserver.set_UDPListener (Some 2%nat) g, true).

Definition emptyLobby : LobbyServer :=
  mkLobbyServer ∅ "Localhost" "MPN Beta" 45000 10 false false [].

Definition authLobby : LobbyServer :=
  mkLobbyServer ∅ "Localhost" "MPN Beta" 45000 10 false true [].

Definition createAlpha : SocketMessage :=
  mkSocketMessage ∅ "Mario Party" false "" "" "1111" "m64p" "pA" "alpha" "deadbeef"
    "" TypeRequestCreateRoom "" [] 0 "MPN-4" 0.

Definition joinAlpha (name : string) : SocketMessage :=
  mkSocketMessage ∅ "" false "" "" "1111" "m64p" name "" "deadbeef"
    "" TypeRequestJoinRoom "" [] 0 "MPN-4" 45001.

Definition beginAlpha : SocketMessage :=
  mkSocketMessage ∅ "" false "" "" "" "" "" "" "" "" TypeRequestBeginGame "" [] 0 "" 45001.

Definition listRooms : SocketMessage :=
  mkSocketMessage ∅ "" false "" "" "" "m64p" "" "" "" "" TypeRequestGetRooms "" [] 0 "MPN-4" 0.

(** The room "alpha" as [createAlpha] from connection 1 leaves it, and
    the lobby that holds it; then with a second player from connection 2,
    and after the game has begun. *)
Definition alpha : GameServer :=
  gameserver.mkGameServer 0 {["pA" := gameserver.mkClient 1%nat "10.0.0.1" 0]}
    (Some 1%nat) (Some 2%nat) ∅ ∅ ∅ "Mario Party" "" "1111" "deadbeef" "m64p" []
    gameserver.zeroGameData 45001 false false ∅ "pA" 0 7 7 0.

Definition lobbyAlpha : LobbyServer :=
  set_GameServers {["alpha" := alpha]} emptyLobby.

Definition alpha2 : GameServer :=
  gameserver.set_Players
    (<["pB" := gameserver.mkClient 2%nat "10.0.0.1" 1]> (gameserver.Players alpha)) alpha.

Definition lobbyAlpha2 : LobbyServer :=
  set_GameServers {["alpha" := alpha2]} emptyLobby.

Definition lobbyRunning : LobbyServer :=
  set_GameServers {["alpha" := gameserver.set_Running true alpha2]} emptyLobby.

(** The first scenario of the spec, step by step. *)
Example create_alpha :
  createRoom testEnv asciiUpper (fun _ => []) overflow_amd64 testIP bindTCP bindUDP parses
             7 1%nat false createAlpha emptyLobby =
  (true, lobbyAlpha,
   [Go (MonitorActivity 45001); Log "Created new room";
    Send 1%nat
      (mkSocketMessage ∅ "Mario Party" false "" "" "" "" "pA" "alpha" "" ""
         TypeReplyCreateRoom "" [] 0 "" 45001)],
   true).
Proof. vm_compute. reflexivity. Qed.

(** The same request on a server whose developers' channel has a URL
    without a scheme: the room is registered, the public channel gets
    the announcement, and the turn ends in the panic with nothing sent
    to the creator. *)
Example create_alpha_panics :
  wsHandler_turn rangeOrder webhookEnv asciiUpper (fun _ => []) overflow_amd64 testIP
                 bindTCP bindUDP "unknown" parses 7 1%nat false (GotMessage createAlpha)
                 emptyLobby =
  Some (true, lobbyAlpha,
        [Go (MonitorActivity 45001); Log "Created new room";
         Publish "New public netplay room running in Localhost has been created! Come play Mario Party"
                 "https://discord.test/hook3";
         Log "could not create request"; Panic "nil pointer dereference"],
        false).
Proof. vm_compute. reflexivity. Qed.

Lemma create_room_panics_before_reply_witness :
  GameServers emptyLobby !! RoomName createAlpha = None /\
  validateAuth webhookEnv asciiUpper (fun _ => []) overflow_amd64 emptyLobby 7 createAlpha
    = true /\
  (CreateNetworkServers bindTCP bindUDP (BasePort emptyLobby) (MaxGames emptyLobby) 7
     gameserver.zeroGameServer).1.2 = 45001 /\
  channels webhookEnv asciiUpper (Emulator createAlpha) (Password createAlpha) =
    ["https://discord.test/hook3"; "://not-a-url"]%string /\
  exists s' g ev,
    createRoom webhookEnv asciiUpper (fun _ => []) overflow_amd64 testIP bindTCP bindUDP
               parses 7 1%nat false createAlpha emptyLobby = (true, s', ev, false) /\
    GameServers s' = <["alpha"%string := g]> (GameServers emptyLobby) /\
    gameserver.Players g = {["pA"%string := gameserver.mkClient 1%nat "10.0.0.1" 0]} /\
    sends ev = [] /\
    last ev = Some (Panic "nil pointer dereference").
Proof.
  split; [reflexivity|]. split; [reflexivity|]. split; [reflexivity|].
  split; [vm_compute; reflexivity|].
  destruct (create_room_panics_before_reply webhookEnv asciiUpper (fun _ => [])
              overflow_amd64 testIP bindTCP bindUDP parses 7 1%nat false createAlpha
              emptyLobby)
    as (s' & g & ev & before & channel & after & Heq & Hs & Hg & Hsends & Hlast & _).
  - reflexivity.
  - reflexivity.
  - discriminate.
  - discriminate.
  - discriminate.
  - reflexivity.
  - vm_compute. discriminate.
  - apply Exists_exists. exists "://not-a-url"%string. split; [|reflexivity].
    vm_compute. right. left.
  - exists s', g, ev. split; [exact Heq|]. split; [exact Hs|]. split; [exact Hg|].
    split; [exact Hsends|exact Hlast].
Defined.

Example join_alpha :
  joinRoom rangeOrder testIP 2%nat true (joinAlpha "pB") lobbyAlpha =
  (lobbyAlpha2,
   [Log "new player joining room";
    Send 2%nat
      (mkSocketMessage ∅ "Mario Party" false "" "" "" "" "pB" "alpha" "" ""
         TypeReplyJoinRoom "" [] 0 "" 45001)]).
Proof. vm_compute. reflexivity. Qed.

Example begin_alpha :
  (beginGame rangeOrder 9 true beginAlpha lobbyAlpha2).2 =
  [Log "starting game"; Go (watchGameServer "alpha" 45001);
   Send 1%nat (mkSocketMessage ∅ "" false "" "" "" "" "" "" "" ""
                 TypeReplyBeginGame "" [] 0 "" 45001);
   Send 2%nat (mkSocketMessage ∅ "" false "" "" "" "" "" "" "" ""
                 TypeReplyBeginGame "" [] 0 "" 45001)].
Proof. vm_compute. reflexivity. Qed.


(** The theorems above at this server. *)

Lemma find_alpha s g :
  GameServers s = {["alpha" := g]} -> gameserver.Port g = 45001 ->
  findGameServer rangeOrder s 45001 = Some ("alpha"%string, g).
Proof.
  intros Hs Hp. unfold findGameServer, rangeOrder. rewrite Hs, map_to_list_singleton.
  cbn. by rewrite Hp.
Qed.

Lemma join_room_reply_witness :
  (forall (A : Type) (m : gmap string A), rangeOrder A m ≡ₚ map_to_list m) /\
  exists s' pre reply number g',
    joinRoom rangeOrder testIP 2%nat true (joinAlpha "pB") lobbyAlpha =
      (s', pre ++ [Send 2%nat reply]) /\
    Accept reply = Accepted /\
    0 <= number < 4 /\
    s' = set_GameServers
           (<["alpha" := joined testIP 2%nat "pB" number alpha]> (GameServers lobbyAlpha))
           lobbyAlpha /\
    GameServers s' !! "alpha"%string = Some g' /\
    gameserver.Players g' !! "pB"%string =
      Some (gameserver.mkClient 2%nat (testIP 2%nat) number).
Proof.
  split; [exact rangeOrder_perm|].
  destruct (join_room_reply rangeOrder rangeOrder_perm testIP 2%nat (joinAlpha "pB") lobbyAlpha)
    as (s' & pre & reply & Heq & _ & _ & Hm).
  change (Port (joinAlpha "pB")) with 45001 in Hm.
  rewrite (find_alpha lobbyAlpha alpha) in Hm by reflexivity.
  destruct Hm as (_ & _ & _ & _ & _ & _ & _ & _ & Hok).
  destruct Hok as (number & g' & Ha & Hn & _ & _ & Hs & Hg' & _ & Hseat & _).
  - intros [H _]. by apply H.
  - reflexivity.
  - reflexivity.
  - change (gameserver.Players alpha) with ({["pA" := gameserver.mkClient 1%nat "10.0.0.1" 0]} : gmap string Client).
    rewrite map_size_singleton. lia.
  - discriminate.
  - change (gameserver.Players alpha) with ({["pA" := gameserver.mkClient 1%nat "10.0.0.1" 0]} : gmap string Client).
    intros [c Hc]. by apply lookup_singleton_Some in Hc as [? _].
  - exists s', pre, reply, number, g'.
    split; [exact Heq|]. split; [exact Ha|]. split; [exact Hn|]. split; [exact Hs|].
    split; [exact Hg'|exact Hseat].
Defined.




Lemma get_rooms_lists_open_rooms_witness :
  (forall (A : Type) (m : gmap string A), rangeOrder A m ≡ₚ map_to_list m) /\
  NetplayVersion listRooms = "MPN-4"%string /\
  Emulator listRooms <> ""%string /\
  validateAuth testEnv asciiUpper (fun _ => []) overflow_amd64 lobbyAlpha2 7 listRooms = true /\
  exists ev,
    getRooms rangeOrder testEnv asciiUpper (fun _ => []) overflow_amd64 7 1%nat false
             listRooms lobbyAlpha2 = (true, lobbyAlpha2, ev) /\
    Send 1%nat (roomReply "alpha" alpha2) ∈ ev.
Proof.
  split; [exact rangeOrder_perm|].
  split; [reflexivity|]. split; [discriminate|]. split; [reflexivity|].
  destruct (get_rooms_lists_open_rooms rangeOrder rangeOrder_perm testEnv asciiUpper
              (fun _ => []) overflow_amd64 7 1%nat false listRooms lobbyAlpha2)
    as (ev & Heq & _ & _ & _ & Hin & _); [reflexivity|discriminate|reflexivity|].
  exists ev. split; [exact Heq|].
  apply Hin; [|reflexivity|reflexivity].
  apply lookup_singleton_eq.
Defined.

Lemma seats_of_lobbyAlpha2 name g :
  GameServers lobbyAlpha2 !! name = Some g -> seatsInRange g.
Proof.
  change (GameServers lobbyAlpha2) with ({["alpha" := alpha2]} : gmap string GameServer).
  intros [_ <-]%lookup_singleton_Some k c.
  change (gameserver.Players alpha2)
    with (<["pB" := gameserver.mkClient 2%nat "10.0.0.1" 1]>
            ({["pA" := gameserver.mkClient 1%nat "10.0.0.1" 0]} : gmap string Client)).
  intros [[_ <-]|[_ [_ <-]%lookup_singleton_Some]]%lookup_insert_Some; cbn; lia.
Qed.

Lemma eof_leaves_lobby_rooms_witness :
  (forall (A : Type) (m : gmap string A), rangeOrder A m ≡ₚ map_to_list m) /\
  (forall name g, GameServers lobbyAlpha2 !! name = Some g -> seatsInRange g) /\
  exists s' ev,
    handleEOF rangeOrder 2%nat lobbyAlpha2 = Some (s', ev) /\
    GameServers s' !! "alpha"%string =
      Some alpha2 ≫= roomAfterEOF 2%nat.
Proof.
  split; [exact rangeOrder_perm|]. split; [exact seats_of_lobbyAlpha2|].
  destruct (eof_leaves_lobby_rooms rangeOrder rangeOrder_perm 2%nat lobbyAlpha2
              seats_of_lobbyAlpha2) as (s' & ev & Heq & _ & Hall & _).
  exists s', ev. split; [exact Heq|].
  rewrite Hall. reflexivity.
Defined.

(** When the second player's connection closes in the lobby, the room
    is left with the creator and both seats are told. *)
Example eof_in_lobby :
  handleEOF rangeOrder 2%nat lobbyAlpha2 =
  Some (lobbyAlpha,
        [Log "Player has left lobby";
         Send 1%nat (mkSocketMessage ∅ "" false "" "" "" "" "" "" "" ""
                       TypeReplyPlayers "" ["pA"; ""; ""; ""]%string 0 "" 0)]).
Proof. vm_compute. reflexivity. Qed.

(** C9 as stated fails on a room that has started: the connection of
    the second player closes and the seat stays. *)
Lemma eof_keeps_seat_of_running_room :
  handleEOF rangeOrder 2%nat lobbyRunning = Some (lobbyRunning, []) /\
  (exists g c,
      GameServers lobbyRunning !! "alpha"%string = Some g /\
      gameserver.Players g !! "pB"%string = Some c /\
      gameserver.Socket c = 2%nat).
Proof.
  split; [vm_compute; reflexivity|].
  exists (gameserver.set_Running true alpha2), (gameserver.mkClient 2%nat "10.0.0.1" 1).
  split; [apply lookup_singleton_eq|]. split; [|reflexivity].
  vm_compute. reflexivity.
Qed.

(** A request whose [authTime] is in the year 5138, signed with the
    secret of the emulator, and the clock of the server (2 November
    2026, in nanoseconds). *)
Definition farAuthTime : string := "99999999999999".

Definition farRequest (Sum256 : string -> list Z) : SocketMessage :=
  mkSocketMessage ∅ "Mario Party" false "" "" "1111" "m64p" "pA" "alpha" "deadbeef"
    farAuthTime TypeRequestCreateRoom (hex (Sum256 (farAuthTime ++ "secret")%string))
    [] 0 "MPN-4" 0.

Definition clock : Z := 1793577600 * 1000000000.

(** C8.  [validateAuth] takes the absolute value of the difference of
    the two times through [float64].  [Time.Sub] saturates, so a
    timestamp more than 292 years from the clock gives a difference of
    [-2^63] or [2^63 - 1] nanoseconds, whose double has the absolute value
    [2^63], which is not an [int64].  On amd64 the conversion back gives
    [-2^63], which is not above 15 minutes: the message is accepted though
    its time is three thousand years from the clock.  On arm64 the
    conversion saturates and the message is refused.  This holds for
    every digest function. *)
Theorem validateAuth_accepts_far_timestamp_on_amd64 (Sum256 : string -> list Z) :
  ParseInt (AuthTime (farRequest Sum256)) = Some 99999999999999 /\
  Z.abs (clock - UnixMilli 99999999999999) > 15 * Minute /\
  testEnv (asciiUpper (Emulator (farRequest Sum256)) ++ "_AUTH")%string = "secret"%string /\
  Auth (farRequest Sum256) = hex (Sum256 (AuthTime (farRequest Sum256) ++ "secret")%string) /\
  validateAuth testEnv asciiUpper Sum256 overflow_amd64 authLobby clock (farRequest Sum256)
    = true /\
  validateAuth testEnv asciiUpper Sum256 overflow_arm64 authLobby clock (farRequest Sum256)
    = false.
Proof.
  split; [by vm_compute|]. split; [by vm_compute|]. split; [by vm_compute|].
  split; [reflexivity|].
  assert (Hparse : ParseInt farAuthTime = Some 99999999999999) by by vm_compute.
  assert (Henv : testEnv (asciiUpper "m64p" ++ "_AUTH")%string = "secret"%string) by by vm_compute.
  split.
  - rewrite validateAuth_unfold. cbn [EnableAuth authLobby negb AuthTime farRequest Emulator Auth].
    rewrite Hparse, Henv.
    replace (skewed overflow_amd64 clock (UnixMilli 99999999999999)) with false by by vm_compute.
    cbn [String.eqb Ascii.eqb Bool.eqb]. apply String.eqb_refl.
  - rewrite validateAuth_unfold. cbn [EnableAuth authLobby negb AuthTime farRequest Emulator Auth].
    rewrite Hparse.
    by replace (skewed overflow_arm64 clock (UnixMilli 99999999999999)) with true by by vm_compute.
Qed.

(** The same request stamped with the clock is accepted on both
    targets, and one stamped an hour earlier is refused on both. *)
Example validateAuth_fresh_and_stale (Sum256 : string -> list Z) :
  let fresh := mkSocketMessage ∅ "" false "" "" "" "m64p" "" "" "" "1793577600000"
                 TypeRequestGetRooms (hex (Sum256 "1793577600000secret")) [] 0 "MPN-4" 0 in
  let stale := mkSocketMessage ∅ "" false "" "" "" "m64p" "" "" "" "1793574000000"
                 TypeRequestGetRooms (hex (Sum256 "1793574000000secret")) [] 0 "MPN-4" 0 in
  validateAuth testEnv asciiUpper Sum256 overflow_amd64 authLobby clock fresh = true /\
  validateAuth testEnv asciiUpper Sum256 overflow_arm64 authLobby clock fresh = true /\
  validateAuth testEnv asciiUpper Sum256 overflow_amd64 authLobby clock stale = false /\
  validateAuth testEnv asciiUpper Sum256 overflow_arm64 authLobby clock stale = false.
Proof.
  intros fresh stale.
  assert (Hf : ParseInt "1793577600000" = Some 1793577600000) by by vm_compute.
  assert (Hs : ParseInt "1793574000000" = Some 1793574000000) by by vm_compute.
  assert (Henv : testEnv (asciiUpper "m64p" ++ "_AUTH")%string = "secret"%string) by by vm_compute.
  split; [|split; [|split]]; rewrite validateAuth_unfold;
    cbn [EnableAuth authLobby negb AuthTime fresh stale Emulator Auth];
    rewrite ?Hf, ?Hs, ?Henv.
  - replace (skewed overflow_amd64 clock (UnixMilli 1793577600000)) with false by by vm_compute.
    cbn [String.eqb Ascii.eqb Bool.eqb]. apply String.eqb_refl.
  - replace (skewed overflow_arm64 clock (UnixMilli 1793577600000)) with false by by vm_compute.
    cbn [String.eqb Ascii.eqb Bool.eqb]. apply String.eqb_refl.
  - by replace (skewed overflow_amd64 clock (UnixMilli 1793574000000)) with true by by vm_compute.
  - by replace (skewed overflow_arm64 clock (UnixMilli 1793574000000)) with true by by vm_compute.
Qed.


(** *** The further theorems at this server *)

Lemma seated_alpha2 : seated alpha2.
Proof.
  intros k c.
  change (gameserver.Players alpha2)
    with (<["pB" := gameserver.mkClient 2%nat "10.0.0.1" 1]>
            ({["pA" := gameserver.mkClient 1%nat "10.0.0.1" 0]} : gmap string Client)).
  intros [[<- <-]|[_ [<- <-]%lookup_singleton_Some]]%lookup_insert_Some;
    (split; [cbn; lia|]);
    intros k' c' [[<- <-]|[_ [<- <-]%lookup_singleton_Some]]%lookup_insert_Some;
    cbn; (done || lia).
Qed.

Lemma wellSeated_lobbyAlpha2 : wellSeated lobbyAlpha2.
Proof.
  intros name g.
  change (GameServers lobbyAlpha2) with ({["alpha" := alpha2]} : gmap string GameServer).
  intros [_ <-]%lookup_singleton_Some. exact seated_alpha2.
Qed.

Lemma updatePlayers_names_witness :
  (forall (A : Type) (m : gmap string A), rangeOrder A m ≡ₚ map_to_list m) /\
  seated alpha2 /\
  exists names,
    updatePlayers rangeOrder alpha2 =
      Some ((fun kw => Send (gameserver.Socket kw.2) (playersReply names))
              <$> rangeOrder Client (gameserver.Players alpha2)) /\
    names !! 0%nat = Some "pA"%string /\
    names !! 1%nat = Some "pB"%string /\
    names !! 2%nat = Some ""%string.
Proof.
  split; [exact rangeOrder_perm|]. split; [exact seated_alpha2|].
  destruct (updatePlayers_names rangeOrder rangeOrder_perm alpha2 seated_alpha2)
    as (names & Heq & _ & Hin & Hout).
  exists names. split; [exact Heq|]. split; [|split].
  - apply (Hin "pA"%string (gameserver.mkClient 1%nat "10.0.0.1" 0)). vm_compute. reflexivity.
  - apply (Hin "pB"%string (gameserver.mkClient 2%nat "10.0.0.1" 1)). vm_compute. reflexivity.
  - apply (Hout 2%nat); [lia|]. intros k c Hk.
    destruct (seated_alpha2 k c Hk) as [_ Hu].
    change (gameserver.Players alpha2)
      with (<["pB" := gameserver.mkClient 2%nat "10.0.0.1" 1]>
              ({["pA" := gameserver.mkClient 1%nat "10.0.0.1" 0]} : gmap string Client)) in Hk.
    apply lookup_insert_Some in Hk as [[_ <-]|[_ [_ <-]%lookup_singleton_Some]]; cbn; lia.
Defined.

Lemma handler_keeps_seats_witness :
  (forall (A : Type) (m : gmap string A), rangeOrder A m ≡ₚ map_to_list m) /\
  wellSeated lobbyAlpha2 /\
  exists authenticated' s' ev again,
    wsHandler_turn rangeOrder testEnv asciiUpper (fun _ => []) overflow_amd64 testIP
                   bindTCP bindUDP "unknown" parses 9 2%nat true GotEOF lobbyAlpha2 =
      Some (authenticated', s', ev, again) /\
    wellSeated s'.
Proof.
  split; [exact rangeOrder_perm|]. split; [exact wellSeated_lobbyAlpha2|].
  destruct (handler_keeps_seats rangeOrder rangeOrder_perm testEnv asciiUpper (fun _ => [])
              overflow_amd64 testIP bindTCP bindUDP "unknown" parses 9 2%nat true GotEOF lobbyAlpha2
              wellSeated_lobbyAlpha2) as (a & s' & ev & again & Heq & Hs').
  exists a, s', ev, again. split; [exact Heq|exact Hs'].
Defined.

Lemma only_validateAuth_authenticates_witness :
  (forall (A : Type) (m : gmap string A), rangeOrder A m ≡ₚ map_to_list m) /\
  exists s' ev,
    wsHandler_turn rangeOrder testEnv asciiUpper (fun _ => []) overflow_amd64 testIP
                   bindTCP bindUDP "unknown" parses 9 2%nat false (GotMessage (joinAlpha "pB"))
                   lobbyAlpha =
      Some (false, s', ev, true) /\
    sends ev = [].
Proof.
  split; [exact rangeOrder_perm|].
  destruct (only_validateAuth_authenticates rangeOrder rangeOrder_perm testEnv asciiUpper (fun _ => [])
              overflow_amd64 testIP bindTCP bindUDP "unknown" parses 9 2%nat (joinAlpha "pB")
              lobbyAlpha) as (a & s' & ev & again & Heq & _ & _ & Hdrop).
  destruct Hdrop as (Ha & _ & Hev & Hagain); [discriminate|discriminate|discriminate|].
  subst a again. exists s', ev. split; [exact Heq|exact Hev].
Defined.

(** A [request_get_rooms] from a client of an older API. *)
Definition listRoomsOld : SocketMessage :=
  mkSocketMessage ∅ "" false "" "" "" "m64p" "" "" "" "" TypeRequestGetRooms "" [] 0 "MPN-3" 0.

Lemma get_rooms_refusal_is_silent_witness :
  (forall (A : Type) (m : gmap string A), rangeOrder A m ≡ₚ map_to_list m) /\
  NetplayVersion listRoomsOld <> NetplayAPIVersion /\
  exists ev,
    getRooms rangeOrder testEnv asciiUpper (fun _ => []) overflow_amd64 9 2%nat false
             listRoomsOld lobbyAlpha2 = (false, lobbyAlpha2, ev) /\
    sends ev = [].
Proof.
  assert (Hv : NetplayVersion listRoomsOld <> NetplayAPIVersion) by discriminate.
  split; [exact rangeOrder_perm|]. split; [exact Hv|].
  apply (get_rooms_refusal_is_silent rangeOrder rangeOrder_perm testEnv asciiUpper
           (fun _ => []) overflow_amd64 9 2%nat false listRoomsOld lobbyAlpha2).
  left. exact Hv.
Defined.

Lemma unique_port_lobbyAlpha2 n1 g1 n2 g2 :
  GameServers lobbyAlpha2 !! n1 = Some g1 -> GameServers lobbyAlpha2 !! n2 = Some g2 ->
  gameserver.Port g1 = gameserver.Port g2 -> n1 = n2.
Proof.
  change (GameServers lobbyAlpha2) with ({["alpha" := alpha2]} : gmap string GameServer).
  by intros [<- _]%lookup_singleton_Some [<- _]%lookup_singleton_Some _.
Qed.

Lemma findGameServer_by_unique_port_witness :
  (forall (A : Type) (m : gmap string A), rangeOrder A m ≡ₚ map_to_list m) /\
  (forall n1 g1 n2 g2,
     GameServers lobbyAlpha2 !! n1 = Some g1 -> GameServers lobbyAlpha2 !! n2 = Some g2 ->
     gameserver.Port g1 = gameserver.Port g2 -> n1 = n2) /\
  findGameServer rangeOrder lobbyAlpha2 45001 = Some ("alpha"%string, alpha2) /\
  findGameServer rangeOrder lobbyAlpha2 45002 = None.
Proof.
  split; [exact rangeOrder_perm|]. split; [exact unique_port_lobbyAlpha2|].
  destruct (findGameServer_by_unique_port rangeOrder rangeOrder_perm lobbyAlpha2 45001
              unique_port_lobbyAlpha2) as [Hfound _].
  destruct (findGameServer_by_unique_port rangeOrder rangeOrder_perm lobbyAlpha2 45002
              unique_port_lobbyAlpha2) as [_ Hnone].
  split.
  - apply Hfound. split; [apply lookup_singleton_eq|reflexivity].
  - apply Hnone. intros name g.
    change (GameServers lobbyAlpha2) with ({["alpha" := alpha2]} : gmap string GameServer).
    intros [_ <-]%lookup_singleton_Some. discriminate.
Defined.

Lemma validateAuth_saturating_witness :
  15 * Minute < overflow_arm64 /\
  EnableAuth authLobby = true /\
  (validateAuth testEnv asciiUpper (fun _ => []) overflow_arm64 authLobby clock
                (farRequest (fun _ => [])) = true <->
   authentic testEnv asciiUpper (fun _ => []) clock (farRequest (fun _ => []))).
Proof.
  assert (Ho : 15 * Minute < overflow_arm64) by (unfold Minute, overflow_arm64; lia).
  split; [exact Ho|]. split; [reflexivity|].
  apply (validateAuth_saturating testEnv asciiUpper (fun _ => []) overflow_arm64 authLobby
           clock (farRequest (fun _ => [])) Ho eq_refl).
Defined.

Lemma purge_drops_idle_rooms_witness :
  (forall (A : Type) (m : gmap string A), rangeOrder A m ≡ₚ map_to_list m) /\
  GameServers (purgeInactiveRooms_iteration rangeOrder (7 + 11 * Minute) lobbyAlpha2).1
    !! "alpha"%string = None /\
  GameServers (purgeInactiveRooms_iteration rangeOrder (7 + 9 * Minute) lobbyAlpha2).1
    !! "alpha"%string = Some alpha2.
Proof.
  split; [exact rangeOrder_perm|].
  destruct (purge_drops_idle_rooms rangeOrder rangeOrder_perm (7 + 11 * Minute) lobbyAlpha2)
    as (Hidle & _).
  destruct (purge_drops_idle_rooms rangeOrder rangeOrder_perm (7 + 9 * Minute) lobbyAlpha2)
    as (Hbusy & _).
  split.
  - rewrite (Hidle "alpha"%string).
    change (GameServers lobbyAlpha2) with ({["alpha" := alpha2]} : gmap string GameServer).
    rewrite lookup_singleton_eq. reflexivity.
  - rewrite (Hbusy "alpha"%string).
    change (GameServers lobbyAlpha2) with ({["alpha" := alpha2]} : gmap string GameServer).
    rewrite lookup_singleton_eq. reflexivity.
Defined.

(** A chat line for the room on port 45001. *)
Definition chatAlpha : SocketMessage :=
  mkSocketMessage ∅ "" false "" "hello" "" "" "pB" "" "" "" TypeRequestChatMessage "" [] 0
    "" 45001.

Lemma chat_reaches_every_seat_witness :
  (forall (A : Type) (m : gmap string A), rangeOrder A m ≡ₚ map_to_list m) /\
  length (chatMessage rangeOrder true chatAlpha lobbyAlpha2) = size (gameserver.Players alpha2) /\
  Send 1%nat (chatReply chatAlpha) ∈ chatMessage rangeOrder true chatAlpha lobbyAlpha2.
Proof.
  split; [exact rangeOrder_perm|].
  destruct (chat_reaches_every_seat rangeOrder rangeOrder_perm chatAlpha lobbyAlpha2)
    as [Hroom _].
  change (Port chatAlpha) with 45001 in Hroom.
  rewrite (find_alpha lobbyAlpha2 alpha2) in Hroom by reflexivity.
  destruct Hroom as (_ & _ & _ & Hlen & Hin).
  split; [exact Hlen|].
  apply Hin. exists "pA"%string, (gameserver.mkClient 1%nat "10.0.0.1" 0).
  split; [vm_compute; reflexivity|reflexivity].
Defined.

Lemma updateLastActivity_stamps_one_room_witness :
  (forall (A : Type) (m : gmap string A), rangeOrder A m ≡ₚ map_to_list m) /\
  updateLastActivity rangeOrder 9 2%nat lobbyAlpha2 =
    set_GameServers (<["alpha" := gameserver.set_LastActivity 9 alpha2]>
                       (GameServers lobbyAlpha2)) lobbyAlpha2 /\
  updateLastActivity rangeOrder 9 3%nat lobbyAlpha2 = lobbyAlpha2.
Proof.
  split; [exact rangeOrder_perm|].
  assert (Hseat : forall name g k c,
            GameServers lobbyAlpha2 !! name = Some g -> gameserver.Players g !! k = Some c ->
            name = "alpha"%string /\ g = alpha2 /\ gameserver.Socket c <> 3%nat).
  { intros name g k c.
    change (GameServers lobbyAlpha2) with ({["alpha" := alpha2]} : gmap string GameServer).
    intros [<- <-]%lookup_singleton_Some.
    change (gameserver.Players alpha2)
      with (<["pB" := gameserver.mkClient 2%nat "10.0.0.1" 1]>
              ({["pA" := gameserver.mkClient 1%nat "10.0.0.1" 0]} : gmap string Client)).
    intros [[_ <-]|[_ [_ <-]%lookup_singleton_Some]]%lookup_insert_Some;
      (split; [reflexivity|split; [reflexivity|discriminate]]). }
  split.
  - destruct (updateLastActivity_stamps_one_room rangeOrder rangeOrder_perm 9 2%nat lobbyAlpha2)
      as [[_ Hno]|(name & g & k & c & Hg & Hk & _ & Heq & _)].
    + exfalso.
      apply (Hno "alpha"%string alpha2 "pB"%string (gameserver.mkClient 2%nat "10.0.0.1" 1)).
      * apply lookup_singleton_eq.
      * vm_compute. reflexivity.
      * reflexivity.
    + destruct (Hseat name g k c Hg Hk) as (-> & -> & _). exact Heq.
  - destruct (updateLastActivity_stamps_one_room rangeOrder rangeOrder_perm 9 3%nat lobbyAlpha2)
      as [[Heq _]|(name & g & k & c & Hg & Hk & Hw & _)].
    + exact Heq.
    + exfalso. destruct (Hseat name g k c Hg Hk) as (_ & _ & Hne). exact (Hne Hw).
Defined.

Lemma handlePlayerDrop_spec_witness :
  (forall (A : Type) (m : gmap string A), rangeOrder A m ≡ₚ map_to_list m) /\
  handlePlayerDrop rangeOrder 3%nat lobbyAlpha2 = (lobbyAlpha2, []) /\
  exists roomName g playerName ev,
    handlePlayerDrop rangeOrder 2%nat lobbyRunning =
      (dropped roomName g playerName lobbyRunning, ev) /\
    GameServers lobbyRunning !! roomName = Some g /\
    gameserver.Running g = true.
Proof.
  split; [exact rangeOrder_perm|].
  assert (Hseat : forall s g0 name g k c,
            GameServers s = ({["alpha" := g0]} : gmap string GameServer) ->
            gameserver.Players g0 = gameserver.Players alpha2 ->
            GameServers s !! name = Some g -> gameserver.Players g !! k = Some c ->
            name = "alpha"%string /\ g = g0 /\ gameserver.Socket c <> 3%nat).
  { intros s g0 name g k c -> Hp. intros [<- <-]%lookup_singleton_Some. rewrite Hp.
    change (gameserver.Players alpha2)
      with (<["pB" := gameserver.mkClient 2%nat "10.0.0.1" 1]>
              ({["pA" := gameserver.mkClient 1%nat "10.0.0.1" 0]} : gmap string Client)).
    intros [[_ <-]|[_ [_ <-]%lookup_singleton_Some]]%lookup_insert_Some;
      (split; [reflexivity|split; [reflexivity|discriminate]]). }
  split.
  - destruct (handlePlayerDrop_spec rangeOrder rangeOrder_perm 3%nat lobbyAlpha2)
      as [[Heq _]|(roomName & g & playerName & c & ev & Hg & Hk & Hw & _)].
    + exact Heq.
    + exfalso.
      destruct (Hseat lobbyAlpha2 alpha2 roomName g playerName c eq_refl eq_refl Hg Hk)
        as (_ & _ & Hne).
      exact (Hne Hw).
  - destruct (handlePlayerDrop_spec rangeOrder rangeOrder_perm 2%nat lobbyRunning)
      as [[_ Hno]|(roomName & g & playerName & c & ev & Hg & Hk & _ & Heq & _)].
    + exfalso.
      apply (Hno "alpha"%string (gameserver.set_Running true alpha2) "pB"%string
                 (gameserver.mkClient 2%nat "10.0.0.1" 1)).
      * apply lookup_singleton_eq.
      * vm_compute. reflexivity.
      * reflexivity.
    + exists roomName, g, playerName, ev. split; [exact Heq|]. split; [exact Hg|].
      destruct (Hseat lobbyRunning (gameserver.set_Running true alpha2) roomName g playerName c
                  eq_refl eq_refl Hg Hk) as (_ & -> & _).
      reflexivity.
Defined.

Lemma rooms_of_lobbyAlpha name g :
  GameServers lobbyAlpha !! name = Some g -> name = "alpha"%string /\ g = alpha.
Proof.
  change (GameServers lobbyAlpha) with ({["alpha" := alpha]} : gmap string GameServer).
  by intros [<- <-]%lookup_singleton_Some.
Qed.

Lemma seats_of_alpha k c :
  gameserver.Players alpha !! k = Some c ->
  k = "pA"%string /\ c = gameserver.mkClient 1%nat "10.0.0.1" 0.
Proof.
  change (gameserver.Players alpha)
    with ({["pA" := gameserver.mkClient 1%nat "10.0.0.1" 0]} : gmap string Client).
  by intros [<- <-]%lookup_singleton_Some.
Qed.

Lemma wellSeated_lobbyAlpha : wellSeated lobbyAlpha.
Proof.
  intros name g [_ ->]%rooms_of_lobbyAlpha k c [-> ->]%seats_of_alpha.
  split; [cbn; lia|]. by intros k' c' [-> _]%seats_of_alpha _.
Qed.

Lemma join_then_eof_round_trip_witness :
  (forall (A : Type) (m : gmap string A), rangeOrder A m ≡ₚ map_to_list m) /\
  wellSeated lobbyAlpha /\
  exists ev,
    handleEOF rangeOrder 2%nat (joinRoom rangeOrder testIP 2%nat true (joinAlpha "pB") lobbyAlpha).1
    = Some (lobbyAlpha, ev).
Proof.
  split; [exact rangeOrder_perm|]. split; [exact wellSeated_lobbyAlpha|].
  apply (join_then_eof_round_trip rangeOrder rangeOrder_perm testIP 2%nat (joinAlpha "pB")
           lobbyAlpha wellSeated_lobbyAlpha).
  - intros name g k c [_ ->]%rooms_of_lobbyAlpha [_ ->]%seats_of_alpha. discriminate.
  - intros name g [_ ->]%rooms_of_lobbyAlpha _ He.
    assert (H : gameserver.Players alpha !! "pA"%string = None) by (rewrite He; apply lookup_empty).
    vm_compute in H. discriminate H.
  - intros name g. change (Port (joinAlpha "pB")) with 45001.
    rewrite (find_alpha lobbyAlpha alpha) by reflexivity. by intros [= _ <-].
Defined.


(** *** Starting the server *)

(** [RunSocketServer]: the registry is made empty, the broadcast
    listener is started on [broadcastPort] unless broadcasts are
    disabled, and the WebSocket server listens on [BasePort].  The
    result is the server, the port of the broadcast listener if there is
    one, and the port of the WebSocket server; [http.ListenAndServe]
    then blocks. *)
Definition RunSocketServer (broadcastPort : Z) (s : LobbyServer)
    : LobbyServer * option Z * Z :=
  let s := set_GameServers ∅ s in
  (s, if DisableBroadcast s then None else Some broadcastPort, BasePort s).

End lobbyserver.

(** ** Package main *)

Module main.

Definition DefaultBasePort : Z := 45000.
Definition DefaultMOTDMessage : string := "MPN Beta".

(** The flags of the command line after [flag.Parse]. *)
Record Flags := mkFlags {
  name : string;
  baseport : Z;
  disable_broadcast : bool;
  log_path : string;
  motd : string;
  max_games : Z;
  enable_auth : bool
}.

(** The flags when none is given. *)
Definition defaults : Flags :=
  mkFlags "Localhost" DefaultBasePort false "" "" 10 false.

(** [main] once the logger is built; [None] is [os.Exit(1)].
    [LogServerStats], which only logs, is left out. *)
Definition main (f : Flags) : option (lobbyserver.LobbyServer * option Z * Z) :=
  if String.eqb (name f) "" then None
  else
    let motd := if String.eqb (motd f) "" then DefaultMOTDMessage else motd f in
    let s := lobbyserver.mkLobbyServer ∅ (name f) motd (baseport f) (max_games f)
               (disable_broadcast f) (enable_auth f) [] in
    Some (lobbyserver.RunSocketServer DefaultBasePort s).

(** X26.  With a server name, [main] starts a lobby without rooms whose
    WebSocket server listens on the port of [-baseport], while the
    broadcast listener, unless disabled, is always on port 45000.  The
    message of the day is the one of [-motd], or "MPN Beta" when that
    is empty, so the reply to [request_motd] on an authenticated
    connection is one [reply_motd] whose message is never empty. *)
Theorem server_starts_with_a_motd f ws :
  name f <> ""%string ->
  exists s,
    main f = Some (s, if disable_broadcast f then None else Some 45000, baseport f) /\
    lobbyserver.GameServers s = ∅ /\
    lobbyserver.EnableAuth s = enable_auth f /\
    lobbyserver.Motd s = (if String.eqb (motd f) "" then "MPN Beta"%string else motd f) /\
    lobbyserver.Motd s <> ""%string /\
    exists reply,
      lobbyserver.motd ws true s = [lobbyserver.Send ws reply] /\
      lobbyserver.MsgType reply = lobbyserver.TypeReplyMotd /\
      lobbyserver.Message reply = lobbyserver.Motd s.
Proof.
  intros Hn. unfold main. destruct (String.eqb_spec (name f) "") as [|_]; [done|].
  eexists. split; [reflexivity|]. cbn.
  split; [done|]. split; [done|]. split; [done|]. split.
  - destruct (String.eqb_spec (motd f) "") as [|Hm]; [discriminate|exact Hm].
  - eexists. split; [reflexivity|]. split; reflexivity.
Qed.

Lemma server_starts_with_a_motd_witness :
  name defaults <> ""%string /\
  exists s,
    main defaults = Some (s, Some 45000, 45000) /\
    lobbyserver.motd 1%nat true s =
      [lobbyserver.Send 1%nat
         (lobbyserver.set_Message "MPN Beta"
            (lobbyserver.set_MsgType lobbyserver.TypeReplyMotd lobbyserver.zeroMessage))].
Proof.
  assert (Hn : name defaults <> ""%string) by discriminate.
  split; [exact Hn|].
  destruct (server_starts_with_a_motd defaults 1%nat Hn) as (s & Heq & _ & _ & Hm & _).
  exists s. split; [exact Heq|].
  unfold lobbyserver.motd. cbn [negb]. rewrite Hm. reflexivity.
Defined.

End main.
